(** * Verification of the career-mentor chatbot core ([chatbot.py])

    The development embeds four pieces of [chatbot.py]:
    - [is_career_related_question], the keyword classifier;
    - [generate_career_recommendations], the recommendation scorer with
      its lookup tables;
    - the prompt construction and the streaming generator of
      [get_ollama_response_stream];
    - the payload extraction of [analyze_resume];
    - the chat history functions, the chat page's answer, the accounts
      and the list of models.

    Python [str] values are modelled as [string] (a sequence of bytes, the
    UTF-8 encoding of the text), integers as [Z], a [dict] as an
    association list in insertion order, and the generator as a resumable
    state machine that records the calls made on its connection. *)

From Stdlib Require Import Bool Arith ZArith Lia List Ascii String.
From Stdlib Require Import Sorting.Sorted Sorting.Permutation.
From Stdlib Require Import Numbers.DecimalString.
Import ListNotations.

Local Open Scope string_scope.
Local Open Scope list_scope.

#[local] Set Warnings "-register-all".

(* ================================================================== *)
(** * Part I: the embedding *)
(* ================================================================== *)

(** ** Strings *)

(** The double-quote character, and [qq], which turns every apostrophe of
    a literal into a double quote, so that JSON text can be written
    legibly: [qq "{'response':'A'}"]. *)
Definition dquote : ascii := ascii_of_nat 34.

Fixpoint qq (s : string) : string :=
  match s with
  | EmptyString => EmptyString
  | String c t => String (if Ascii.eqb c "'" then dquote else c) (qq t)
  end.

(** [prefixb p s]: [s.startswith(p)]. *)
Fixpoint prefixb (p s : string) : bool :=
  match p, s with
  | EmptyString, _ => true
  | String a p', String b s' => Ascii.eqb a b && prefixb p' s'
  | String _ _, EmptyString => false
  end.

(** [contains k s]: the Python test [k in s] on strings. *)
Fixpoint contains (k s : string) : bool :=
  prefixb k s ||
  match s with
  | EmptyString => false
  | String _ s' => contains k s'
  end.

(** [str.lower()] restricted to the ASCII letters; every other byte is
    kept. *)
Definition ascii_lower (c : ascii) : ascii :=
  let n := nat_of_ascii c in
  if (65 <=? n)%nat && (n <=? 90)%nat then ascii_of_nat (n + 32) else c.

Fixpoint lower (s : string) : string :=
  match s with
  | EmptyString => EmptyString
  | String c t => String (ascii_lower c) (lower t)
  end.

(** [sep.join(parts)] with the empty separator. *)
Definition concat_str (parts : list string) : string :=
  fold_right String.append "" parts.

(** ** Dictionaries

    A [dict] keeps its keys in insertion order; assigning to a key that is
    present replaces the value and keeps the key's position. *)
Definition dict (V : Type) : Type := list (string * V).

Fixpoint dict_set {V : Type} (k : string) (v : V) (d : dict V) : dict V :=
  match d with
  | [] => [(k, v)]
  | (k', v') :: t =>
      if String.eqb k' k then (k', v) :: t else (k', v') :: dict_set k v t
  end.

Fixpoint dict_get {V : Type} (k : string) (d : dict V) : option V :=
  match d with
  | [] => None
  | (k', v) :: t => if String.eqb k' k then Some v else dict_get k t
  end.

(** [d.get(k, dflt)]. *)
Definition dict_get_default {V : Type} (k : string) (dflt : V) (d : dict V) : V :=
  match dict_get k d with
  | Some v => v
  | None => dflt
  end.

(** A dictionary display [{k1: v1, k2: v2, ...}]: the items are assigned
    from left to right. *)
Definition dict_literal {V : Type} (items : list (string * V)) : dict V :=
  fold_left (fun d kv => dict_set (fst kv) (snd kv) d) items [].

Definition keys {V : Type} (d : dict V) : list string := map fst d.

(** [c in l] for a list of strings. *)
Definition str_in (c : string) (l : list string) : bool :=
  existsb (String.eqb c) l.

(* ------------------------------------------------------------------ *)
(** ** The keyword classifier *)
(* ------------------------------------------------------------------ *)

Definition career_keywords : list string :=
  [
   "career"; "job"; "work"; "employment"; "profession"; "occupation";
   "vocation"; "resume"; "cv"; "interview"; "hiring"; "recruitment";
   "salary"; "pay"; "wage"; "skills"; "qualification"; "education";
   "training"; "development"; "promotion"; "industry"; "field"; "sector";
   "company"; "organization"; "business"; "enterprise"; "networking";
   "professional"; "expertise"; "experience"; "background"; "path";
   "advancement"; "growth"; "opportunity"; "position"; "role"; "title";
   "function"; "department"; "team"; "management"; "leadership";
   "supervisor"; "boss"; "colleague"; "workplace"; "environment"; "culture";
   "benefits"; "perks"; "flexibility"; "remote"; "freelance"; "contract";
   "full-time"; "part-time"; "internship"; "apprenticeship"; "entrepreneur";
   "startup"; "business owner"; "self-employed"; "consultant"; "coach";
   "mentor"; "advisor"; "guidance"; "counseling"; "planning"; "strategy";
   "goal"; "objective"; "ambition"; "aspiration"; "dream"; "passion";
   "interest"; "strength"; "weakness"; "challenge"; "obstacle"; "solution";
   "advice"; "recommendation"; "suggestion"; "tip"; "hint"; "best practice";
   "technique"; "method"; "approach"; "tool"; "resource"; "platform";
   "website"; "course"; "certification"; "degree"; "diploma"; "certificate";
   "license"; "accreditation"; "recognition"; "award"
  ].

(** [is_career_related_question] over an arbitrary lower-casing function:
    [str.lower] is the interpreter's, and follows the Unicode case
    tables. *)
Definition is_career_related_question_with
  (str_lower : string -> string) (prompt : string) : bool :=
  let prompt_lower := str_lower prompt in
  existsb (fun keyword => contains keyword prompt_lower) career_keywords.

(** The classifier on ASCII text. *)
Definition is_career_related_question (prompt : string) : bool :=
  is_career_related_question_with lower prompt.

(* ------------------------------------------------------------------ *)
(** ** The recommendation scorer *)
(* ------------------------------------------------------------------ *)

(** The [assessment_data] dictionary.  Every field is read with
    [.get(key, default)], so each may be absent. *)
Record AssessmentData : Type := {
  interests : option (list string);
  technical_skills : option (list string);
  work_style : option string;
  team_size : option string;
  career_focus : option string;
  risk_tolerance : option string
}.

Definition get_or {A : Type} (field : option A) (dflt : A) : A :=
  match field with
  | Some v => v
  | None => dflt
  end.

Definition interest_career_map : dict (list string) :=
  dict_literal [
   ("Technology",
      ["Software Developer"; "IT Manager"; "Data Scientist"; "Cybersecurity Analyst"]);
   ("Healthcare",
      ["Registered Nurse"; "Healthcare Administrator"; "Medical Technician"; "Physical Therapist"]);
   ("Education",
      ["Teacher"; "Education Administrator"; "Curriculum Developer"; "Corporate Trainer"]);
   ("Business",
      ["Business Analyst"; "Management Consultant"; "Product Manager"; "Operations Manager"]);
   ("Arts & Design",
      ["Graphic Designer"; "UX/UI Designer"; "Art Director"; "Content Creator"]);
   ("Science",
      ["Research Scientist"; "Lab Technician"; "Environmental Scientist"; "Biomedical Engineer"]);
   ("Engineering",
      ["Mechanical Engineer"; "Civil Engineer"; "Electrical Engineer"; "Software Engineer"]);
   ("Finance",
      ["Financial Analyst"; "Accountant"; "Investment Banker"; "Financial Advisor"]);
   ("Marketing",
      ["Marketing Manager"; "Content Strategist"; "Social Media Manager"; "Brand Manager"]);
   ("Social Work",
      ["Social Worker"; "Counselor"; "Community Organizer"; "Non-profit Manager"])
  ].
Definition skill_career_map : dict (list string) :=
  dict_literal [
   ("Programming",
      ["Software Developer"; "Data Scientist"; "Software Engineer"; "Web Developer"]);
   ("Data Analysis",
      ["Data Scientist"; "Business Analyst"; "Market Research Analyst"; "Financial Analyst"]);
   ("Project Management",
      ["Project Manager"; "Product Manager"; "Operations Manager"; "Management Consultant"]);
   ("Design",
      ["Graphic Designer"; "UX/UI Designer"; "Art Director"; "Product Designer"]);
   ("Writing",
      ["Content Creator"; "Technical Writer"; "Copywriter"; "Editor"]);
   ("Public Speaking",
      ["Corporate Trainer"; "Sales Manager"; "Public Relations Specialist"; "Motivational Speaker"]);
   ("Research",
      ["Research Scientist"; "Market Research Analyst"; "Academic Researcher"; "UX Researcher"]);
   ("Sales",
      ["Sales Manager"; "Account Executive"; "Business Development Manager"; "Sales Representative"]);
   ("Customer Service",
      ["Customer Success Manager"; "Customer Experience Manager"; "Support Specialist"; "Client Relations Manager"]);
   ("Leadership",
      ["Team Lead"; "Department Manager"; "Director"; "Executive"])
  ].
Definition descriptions : dict string :=
  dict_literal [
   ("Software Developer",
      "Design, develop, and test software applications and systems.");
   ("Data Scientist",
      "Analyze complex data to help organizations make better decisions.");
   ("UX/UI Designer",
      "Create user-friendly interfaces and experiences for digital products.");
   ("Project Manager",
      "Plan, execute, and close projects, ensuring they meet deadlines and budgets.");
   ("Product Manager",
      "Guide the development of products from conception to launch.");
   ("Business Analyst",
      "Analyze business needs and find solutions to business problems.");
   ("Marketing Manager",
      "Develop and implement marketing strategies to promote products or services.");
   ("Financial Analyst",
      "Evaluate financial data to help businesses make investment decisions.");
   ("Graphic Designer",
      "Create visual concepts to communicate ideas through designs.");
   ("Technical Writer",
      "Create documentation that explains technical information in a clear way.");
   ("Operations Manager",
      "Oversee the production of goods and services in an organization.");
   ("Healthcare Administrator",
      "Manage healthcare facilities and ensure quality patient care.");
   ("Teacher",
      "Educate students and help them develop knowledge and skills.");
   ("Social Worker",
      "Help people cope with problems in their everyday lives.");
   ("Accountant",
      "Prepare and examine financial records and ensure taxes are paid properly.");
   ("Mechanical Engineer",
      "Design and develop mechanical devices and systems.");
   ("Research Scientist",
      "Conduct research to advance knowledge in their field.");
   ("Investment Banker",
      "Help companies raise capital and provide financial advisory services.");
   ("Management Consultant",
      "Advise organizations on how to improve performance and efficiency.");
   ("Environmental Scientist",
      "Study the environment and develop solutions to environmental problems.");
   ("Registered Nurse",
      "Provide patient care and educate patients about health conditions.");
   ("Content Creator",
      "Produce engaging content for various platforms and audiences.");
   ("Cybersecurity Analyst",
      "Protect computer systems and networks from cyber threats.");
   ("IT Manager",
      "Oversee the technology infrastructure of an organization.");
   ("Education Administrator",
      "Manage educational institutions and programs.");
   ("Art Director",
      "Oversee the visual style and images in publications, product packaging, and more.");
   ("Civil Engineer",
      "Design and supervise the construction of infrastructure projects.");
   ("Electrical Engineer",
      "Design, develop, and test electrical equipment and systems.");
   ("Financial Advisor",
      "Provide financial guidance to individuals and businesses.");
   ("Sales Manager",
      "Lead a team of sales representatives and set sales goals.");
   ("Customer Success Manager",
      "Ensure customers get the most value from a product or service.");
   ("Lab Technician",
      "Perform tests and procedures in a laboratory setting.");
   ("Physical Therapist",
      "Help patients recover from injuries and illnesses.");
   ("Biomedical Engineer",
      "Design and develop medical devices and equipment.");
   ("Curriculum Developer",
      "Create educational materials and learning experiences.");
   ("Corporate Trainer",
      "Teach employees skills and knowledge relevant to their jobs.");
   ("Operations Manager",
      "Oversee the production of goods and services in an organization.");
   ("Content Strategist",
      "Plan, develop, and manage content to meet business goals.");
   ("Social Media Manager",
      "Manage social media accounts and create engaging content.");
   ("Brand Manager",
      "Develop and maintain the public image of a company or product.");
   ("Counselor",
      "Help individuals deal with mental health and emotional issues.");
   ("Community Organizer",
      "Work with community members to address local issues.");
   ("Non-profit Manager",
      "Oversee the operations of a non-profit organization.");
   ("Public Relations Specialist",
      "Manage the public image of an organization or individual.");
   ("Market Research Analyst",
      "Study market conditions to examine potential sales of products or services.");
   ("Academic Researcher",
      "Conduct research in an academic setting to advance knowledge.");
   ("UX Researcher",
      "Study user behavior to inform product design and development.");
   ("Account Executive",
      "Manage client relationships and drive sales.");
   ("Business Development Manager",
      "Identify new business opportunities and build relationships.");
   ("Sales Representative",
      "Sell products or services to customers.");
   ("Customer Experience Manager",
      "Oversee and improve the overall customer experience.");
   ("Client Relations Manager",
      "Maintain and develop relationships with clients.");
   ("Support Specialist",
      "Provide technical support to customers.");
   ("Team Lead",
      "Lead a team of employees and oversee their work.");
   ("Department Manager",
      "Manage a specific department within an organization.");
   ("Director",
      "Oversee a major function or division of an organization.");
   ("Executive",
      "Make high-level decisions that affect the entire organization.");
   ("Copywriter",
      "Write compelling text for marketing and advertising purposes.");
   ("Editor",
      "Review and revise content for publication.");
   ("Motivational Speaker",
      "Deliver speeches to inspire and motivate audiences.");
   ("Web Developer",
      "Build and maintain websites and web applications.");
   ("Product Designer",
      "Design products that are both functional and aesthetically pleasing.")
  ].
Definition skills_map : dict (list string) :=
  dict_literal [
   ("Software Developer",
      ["Programming"; "Problem Solving"; "Attention to Detail"; "Teamwork"]);
   ("Data Scientist",
      ["Data Analysis"; "Statistics"; "Machine Learning"; "Communication"]);
   ("UX/UI Designer",
      ["Design Principles"; "User Research"; "Prototyping"; "Communication"]);
   ("Project Manager",
      ["Planning"; "Risk Management"; "Communication"; "Leadership"]);
   ("Product Manager",
      ["Market Research"; "Strategic Thinking"; "Communication"; "Leadership"]);
   ("Business Analyst",
      ["Critical Thinking"; "Data Analysis"; "Communication"; "Problem Solving"]);
   ("Marketing Manager",
      ["Market Research"; "Strategic Planning"; "Communication"; "Creativity"]);
   ("Financial Analyst",
      ["Financial Modeling"; "Attention to Detail"; "Analytical Thinking"; "Communication"]);
   ("Graphic Designer",
      ["Design Software"; "Creativity"; "Typography"; "Time Management"]);
   ("Technical Writer",
      ["Writing Skills"; "Technical Knowledge"; "Attention to Detail"; "Communication"]);
   ("Operations Manager",
      ["Process Optimization"; "Leadership"; "Problem Solving"; "Communication"]);
   ("Healthcare Administrator",
      ["Healthcare Knowledge"; "Management"; "Budgeting"; "Communication"]);
   ("Teacher",
      ["Subject Knowledge"; "Communication"; "Patience"; "Classroom Management"]);
   ("Social Worker",
      ["Empathy"; "Communication"; "Problem Solving"; "Resourcefulness"]);
   ("Accountant",
      ["Accounting Principles"; "Attention to Detail"; "Analytical Skills"; "Ethics"]);
   ("Mechanical Engineer",
      ["Engineering Principles"; "Problem Solving"; "Technical Skills"; "Teamwork"]);
   ("Research Scientist",
      ["Research Methods"; "Critical Thinking"; "Data Analysis"; "Patience"]);
   ("Investment Banker",
      ["Financial Analysis"; "Strategic Thinking"; "Communication"; "Resilience"]);
   ("Management Consultant",
      ["Problem Solving"; "Analytical Skills"; "Communication"; "Strategic Thinking"]);
   ("Environmental Scientist",
      ["Scientific Knowledge"; "Data Analysis"; "Field Research"; "Communication"]);
   ("Registered Nurse",
      ["Medical Knowledge"; "Patient Care"; "Communication"; "Empathy"]);
   ("Content Creator",
      ["Creativity"; "Content Strategy"; "Social Media Knowledge"; "Communication"]);
   ("Cybersecurity Analyst",
      ["Network Security"; "Problem Solving"; "Attention to Detail"; "Communication"]);
   ("IT Manager",
      ["IT Knowledge"; "Management"; "Strategic Planning"; "Communication"]);
   ("Education Administrator",
      ["Educational Knowledge"; "Management"; "Budgeting"; "Communication"]);
   ("Art Director",
      ["Design Principles"; "Leadership"; "Creativity"; "Communication"]);
   ("Civil Engineer",
      ["Engineering Principles"; "Project Management"; "Problem Solving"; "Attention to Detail"]);
   ("Electrical Engineer",
      ["Engineering Principles"; "Technical Skills"; "Problem Solving"; "Teamwork"]);
   ("Financial Advisor",
      ["Financial Knowledge"; "Communication"; "Sales Skills"; "Trustworthiness"]);
   ("Sales Manager",
      ["Sales Skills"; "Leadership"; "Communication"; "Strategic Thinking"]);
   ("Customer Success Manager",
      ["Customer Service"; "Communication"; "Problem Solving"; "Relationship Building"]);
   ("Lab Technician",
      ["Lab Procedures"; "Attention to Detail"; "Technical Skills"; "Documentation"]);
   ("Physical Therapist",
      ["Medical Knowledge"; "Patient Care"; "Communication"; "Patience"]);
   ("Biomedical Engineer",
      ["Engineering Principles"; "Medical Knowledge"; "Problem Solving"; "Technical Skills"]);
   ("Curriculum Developer",
      ["Educational Knowledge"; "Content Development"; "Research Skills"; "Communication"]);
   ("Corporate Trainer",
      ["Subject Knowledge"; "Presentation Skills"; "Communication"; "Patience"]);
   ("Content Strategist",
      ["Content Planning"; "SEO Knowledge"; "Analytics"; "Communication"]);
   ("Social Media Manager",
      ["Social Media Knowledge"; "Content Creation"; "Analytics"; "Communication"]);
   ("Brand Manager",
      ["Marketing Knowledge"; "Strategic Thinking"; "Creativity"; "Communication"]);
   ("Counselor",
      ["Psychology Knowledge"; "Empathy"; "Communication"; "Active Listening"]);
   ("Community Organizer",
      ["Communication"; "Leadership"; "Problem Solving"; "Resourcefulness"]);
   ("Non-profit Manager",
      ["Management"; "Fundraising"; "Communication"; "Strategic Planning"]);
   ("Public Relations Specialist",
      ["Communication"; "Writing Skills"; "Media Relations"; "Strategic Thinking"]);
   ("Market Research Analyst",
      ["Data Analysis"; "Research Methods"; "Critical Thinking"; "Communication"]);
   ("Academic Researcher",
      ["Research Methods"; "Subject Knowledge"; "Critical Thinking"; "Writing Skills"]);
   ("UX Researcher",
      ["Research Methods"; "User Psychology"; "Data Analysis"; "Communication"]);
   ("Account Executive",
      ["Sales Skills"; "Communication"; "Relationship Building"; "Product Knowledge"]);
   ("Business Development Manager",
      ["Sales Skills"; "Strategic Thinking"; "Communication"; "Networking"]);
   ("Sales Representative",
      ["Sales Skills"; "Communication"; "Product Knowledge"; "Persistence"]);
   ("Customer Experience Manager",
      ["Customer Service"; "Communication"; "Problem Solving"; "Analytics"]);
   ("Client Relations Manager",
      ["Communication"; "Relationship Building"; "Problem Solving"; "Customer Service"]);
   ("Support Specialist",
      ["Technical Knowledge"; "Problem Solving"; "Communication"; "Patience"]);
   ("Team Lead",
      ["Leadership"; "Communication"; "Technical Skills"; "Time Management"]);
   ("Department Manager",
      ["Management"; "Strategic Planning"; "Communication"; "Budgeting"]);
   ("Director",
      ["Strategic Thinking"; "Leadership"; "Communication"; "Decision Making"]);
   ("Executive",
      ["Strategic Vision"; "Leadership"; "Decision Making"; "Communication"]);
   ("Copywriter",
      ["Writing Skills"; "Creativity"; "Marketing Knowledge"; "Attention to Detail"]);
   ("Editor",
      ["Writing Skills"; "Attention to Detail"; "Communication"; "Time Management"]);
   ("Motivational Speaker",
      ["Public Speaking"; "Communication"; "Inspiration"; "Storytelling"]);
   ("Web Developer",
      ["Programming"; "Web Technologies"; "Problem Solving"; "Attention to Detail"]);
   ("Product Designer",
      ["Design Principles"; "User Research"; "Prototyping"; "Communication"])
  ].
Definition salary_map : dict string :=
  dict_literal [
   ("Software Developer", "$70,000 - $150,000");
   ("Data Scientist", "$85,000 - $170,000");
   ("UX/UI Designer", "$65,000 - $130,000");
   ("Project Manager", "$75,000 - $140,000");
   ("Product Manager", "$85,000 - $160,000");
   ("Business Analyst", "$65,000 - $120,000");
   ("Marketing Manager", "$70,000 - $140,000");
   ("Financial Analyst", "$65,000 - $120,000");
   ("Graphic Designer", "$45,000 - $85,000");
   ("Technical Writer", "$55,000 - $100,000");
   ("Operations Manager", "$70,000 - $130,000");
   ("Healthcare Administrator", "$75,000 - $140,000");
   ("Teacher", "$40,000 - $75,000");
   ("Social Worker", "$45,000 - $75,000");
   ("Accountant", "$55,000 - $100,000");
   ("Mechanical Engineer", "$70,000 - $130,000");
   ("Research Scientist", "$75,000 - $140,000");
   ("Investment Banker", "$100,000 - $250,000+");
   ("Management Consultant", "$85,000 - $180,000");
   ("Environmental Scientist", "$60,000 - $110,000");
   ("Registered Nurse", "$60,000 - $90,000");
   ("Content Creator", "$40,000 - $100,000+");
   ("Cybersecurity Analyst", "$75,000 - $140,000");
   ("IT Manager", "$85,000 - $150,000");
   ("Education Administrator", "$70,000 - $130,000");
   ("Art Director", "$65,000 - $130,000");
   ("Civil Engineer", "$70,000 - $130,000");
   ("Electrical Engineer", "$75,000 - $140,000");
   ("Financial Advisor", "$60,000 - $150,000+");
   ("Sales Manager", "$75,000 - $150,000+");
   ("Customer Success Manager", "$65,000 - $120,000");
   ("Lab Technician", "$40,000 - $70,000");
   ("Physical Therapist", "$70,000 - $100,000");
   ("Biomedical Engineer", "$70,000 - $130,000");
   ("Curriculum Developer", "$60,000 - $100,000");
   ("Corporate Trainer", "$60,000 - $110,000");
   ("Content Strategist", "$60,000 - $110,000");
   ("Social Media Manager", "$50,000 - $90,000");
   ("Brand Manager", "$75,000 - $140,000");
   ("Counselor", "$45,000 - $75,000");
   ("Community Organizer", "$40,000 - $70,000");
   ("Non-profit Manager", "$60,000 - $100,000");
   ("Public Relations Specialist", "$50,000 - $90,000");
   ("Market Research Analyst", "$60,000 - $110,000");
   ("Academic Researcher", "$60,000 - $120,000");
   ("UX Researcher", "$70,000 - $130,000");
   ("Account Executive", "$60,000 - $130,000+");
   ("Business Development Manager", "$70,000 - $140,000+");
   ("Sales Representative", "$40,000 - $100,000+");
   ("Customer Experience Manager", "$70,000 - $120,000");
   ("Client Relations Manager", "$60,000 - $110,000");
   ("Support Specialist", "$45,000 - $80,000");
   ("Team Lead", "$70,000 - $120,000");
   ("Department Manager", "$80,000 - $150,000");
   ("Director", "$120,000 - $200,000+");
   ("Executive", "$150,000 - $300,000+");
   ("Copywriter", "$50,000 - $90,000");
   ("Editor", "$55,000 - $95,000");
   ("Motivational Speaker", "$50,000 - $200,000+");
   ("Web Developer", "$60,000 - $120,000");
   ("Product Designer", "$70,000 - $130,000")
  ].
Definition outlook_map : dict string :=
  dict_literal [
   ("Software Developer", "Excellent (22% growth expected through 2030)");
   ("Data Scientist", "Excellent (31% growth expected through 2030)");
   ("UX/UI Designer", "Excellent (13% growth expected through 2030)");
   ("Project Manager", "Good (7% growth expected through 2030)");
   ("Product Manager", "Excellent (10% growth expected through 2030)");
   ("Business Analyst", "Good (7% growth expected through 2030)");
   ("Marketing Manager", "Good (10% growth expected through 2030)");
   ("Financial Analyst", "Good (6% growth expected through 2030)");
   ("Graphic Designer", "Slow (3% growth expected through 2030)");
   ("Technical Writer", "Good (7% growth expected through 2030)");
   ("Operations Manager", "Good (7% growth expected through 2030)");
   ("Healthcare Administrator", "Excellent (32% growth expected through 2030)");
   ("Teacher", "Average (4% growth expected through 2030)");
   ("Social Worker", "Excellent (13% growth expected through 2030)");
   ("Accountant", "Average (4% growth expected through 2030)");
   ("Mechanical Engineer", "Average (4% growth expected through 2030)");
   ("Research Scientist", "Good (8% growth expected through 2030)");
   ("Investment Banker", "Good (6% growth expected through 2030)");
   ("Management Consultant", "Excellent (14% growth expected through 2030)");
   ("Environmental Scientist", "Excellent (8% growth expected through 2030)");
   ("Registered Nurse", "Excellent (9% growth expected through 2030)");
   ("Content Creator", "Excellent (14% growth expected through 2030)");
   ("Cybersecurity Analyst", "Excellent (33% growth expected through 2030)");
   ("IT Manager", "Excellent (11% growth expected through 2030)");
   ("Education Administrator", "Good (8% growth expected through 2030)");
   ("Art Director", "Slow (4% growth expected through 2030)");
   ("Civil Engineer", "Good (8% growth expected through 2030)");
   ("Electrical Engineer", "Average (3% growth expected through 2030)");
   ("Financial Advisor", "Excellent (5% growth expected through 2030)");
   ("Sales Manager", "Good (5% growth expected through 2030)");
   ("Customer Success Manager", "Excellent (15% growth expected through 2030)");
   ("Lab Technician", "Average (7% growth expected through 2030)");
   ("Physical Therapist", "Excellent (21% growth expected through 2030)");
   ("Biomedical Engineer", "Excellent (6% growth expected through 2030)");
   ("Curriculum Developer", "Good (7% growth expected through 2030)");
   ("Corporate Trainer", "Good (9% growth expected through 2030)");
   ("Content Strategist", "Excellent (10% growth expected through 2030)");
   ("Social Media Manager", "Excellent (10% growth expected through 2030)");
   ("Brand Manager", "Good (6% growth expected through 2030)");
   ("Counselor", "Excellent (23% growth expected through 2030)");
   ("Community Organizer", "Good (9% growth expected through 2030)");
   ("Non-profit Manager", "Good (8% growth expected through 2030)");
   ("Public Relations Specialist", "Good (11% growth expected through 2030)");
   ("Market Research Analyst", "Excellent (18% growth expected through 2030)");
   ("Academic Researcher", "Average (5% growth expected through 2030)");
   ("UX Researcher", "Excellent (14% growth expected through 2030)");
   ("Account Executive", "Good (6% growth expected through 2030)");
   ("Business Development Manager", "Good (7% growth expected through 2030)");
   ("Sales Representative", "Average (2% growth expected through 2030)");
   ("Customer Experience Manager", "Excellent (15% growth expected through 2030)");
   ("Client Relations Manager", "Good (6% growth expected through 2030)");
   ("Support Specialist", "Average (6% growth expected through 2030)");
   ("Team Lead", "Good (7% growth expected through 2030)");
   ("Department Manager", "Good (7% growth expected through 2030)");
   ("Director", "Good (8% growth expected through 2030)");
   ("Executive", "Good (6% growth expected through 2030)");
   ("Copywriter", "Slow (2% growth expected through 2030)");
   ("Editor", "Slow (2% growth expected through 2030)");
   ("Motivational Speaker", "Good (7% growth expected through 2030)");
   ("Web Developer", "Excellent (13% growth expected through 2030)");
   ("Product Designer", "Excellent (13% growth expected through 2030)")
  ].
(** The careers gathered by the two [potential_careers.update(...)] loops,
    in the order of the calls and with repetitions. *)
Definition careers_of (table : dict (list string)) (selected : list string)
  : list string :=
  flat_map (fun x => dict_get_default x [] table) selected.

Definition collected (a : AssessmentData) : list string :=
  careers_of interest_career_map (get_or (interests a) []) ++
  careers_of skill_career_map (get_or (technical_skills a) []).

(** [potential_careers] is a [set]: it holds each collected career once,
    and the order in which a [for] loop visits its elements is fixed by
    the hashes of the strings, not by the order of insertion.
    [set_iteration elems order] says that [order] is one of the orders in
    which the set with the elements [elems] can be visited. *)
Definition set_iteration (elems order : list string) : Prop :=
  NoDup order /\ forall c, In c order <-> In c elems.

Definition default_careers : list string :=
  ["Project Manager"; "Business Analyst"; "Marketing Specialist";
   "Operations Manager"].

(** The sequence visited by [for career in potential_careers], where
    [order] is the iteration order of the set: an empty set is replaced by
    the list of general recommendations. *)
Definition potential_careers (order : list string) (a : AssessmentData)
  : list string :=
  match collected a with
  | [] => default_careers
  | _ :: _ => order
  end.

(** The four adjustments of the scoring loop. *)
Definition work_style_bonus (a : AssessmentData) (career : string) : Z :=
  let work_style := get_or (work_style a) "Hybrid" in
  if (work_style =? "Fully Remote") &&
     str_in career ["Software Developer"; "Data Scientist"; "UX/UI Designer";
                    "Content Creator"]
  then 20
  else if (work_style =? "Fully In-Office") &&
          str_in career ["Healthcare Administrator"; "Teacher";
                         "Mechanical Engineer"; "Registered Nurse"]
  then 20
  else 0.

Definition team_size_bonus (a : AssessmentData) (career : string) : Z :=
  let team_size := get_or (team_size a) "Medium Team (6-15)" in
  if (team_size =? "Solo Work") &&
     str_in career ["Writer"; "Research Scientist"; "Graphic Designer"]
  then 15
  else if (team_size =? "Large Team (16-50)") &&
          str_in career ["Project Manager"; "Operations Manager";
                         "Product Manager"]
  then 15
  else 0.

Definition career_focus_bonus (a : AssessmentData) (career : string) : Z :=
  let career_focus := get_or (career_focus a) "Work-Life Balance" in
  if (career_focus =? "High Income") &&
     str_in career ["Investment Banker"; "Software Engineer";
                    "Management Consultant"]
  then 25
  else if (career_focus =? "Work-Life Balance") &&
          str_in career ["Technical Writer"; "UX/UI Designer"; "Data Analyst"]
  then 25
  else if (career_focus =? "Making an Impact") &&
          str_in career ["Social Worker"; "Non-profit Manager";
                         "Environmental Scientist"]
  then 25
  else 0.

Definition risk_tolerance_bonus (a : AssessmentData) (career : string) : Z :=
  let risk_tolerance := get_or (risk_tolerance a) "Neutral" in
  if (risk_tolerance =? "Very Risk-Tolerant") &&
     str_in career ["Entrepreneur"; "Investment Banker";
                    "Management Consultant"]
  then 20
  else if (risk_tolerance =? "Very Risk-Averse") &&
          str_in career ["Accountant"; "Government Administrator"; "Teacher"]
  then 20
  else 0.

(** The body of the scoring loop: the value stored in
    [career_scores[career]]. *)
Definition score_career (a : AssessmentData) (career : string) : Z :=
  let score := 50%Z in
  let score := (score + work_style_bonus a career)%Z in
  let score := (score + team_size_bonus a career)%Z in
  let score := (score + career_focus_bonus a career)%Z in
  let score := (score + risk_tolerance_bonus a career)%Z in
  score.

(** [career_scores] after the loop. *)
Definition career_scores (order : list string) (a : AssessmentData) : dict Z :=
  fold_left (fun d career => dict_set career (score_career a career) d)
            (potential_careers order a) [].

(** [sorted(items, key=lambda x: x[1], reverse=True)].  The sort of the
    interpreter is stable, also with [reverse=True]: items with equal
    scores keep their relative order.  A stable sort has one possible
    result, computed here by insertion. *)
Fixpoint insert_desc (x : string * Z) (l : list (string * Z))
  : list (string * Z) :=
  match l with
  | [] => [x]
  | y :: t =>
      if (snd x <? snd y)%Z then y :: insert_desc x t else x :: y :: t
  end.

Definition sorted_desc (items : list (string * Z)) : list (string * Z) :=
  fold_right insert_desc [] items.

Definition sorted_careers (order : list string) (a : AssessmentData)
  : list (string * Z) :=
  sorted_desc (career_scores order a).

Definition get_key_skills_for_career (career : string) : list string :=
  dict_get_default career
    ["Communication"; "Problem Solving"; "Teamwork"; "Technical Skills"]
    skills_map.

Definition get_salary_range_for_career (career : string) : string :=
  dict_get_default career "$50,000 - $100,000" salary_map.

Definition get_growth_outlook_for_career (career : string) : string :=
  dict_get_default career "Average (5% growth expected through 2030)"
    outlook_map.

(** One entry of the returned list. *)
Record Recommendation : Type := {
  career : string;
  match_percentage : Z;
  description : string;
  key_skills : list string;
  salary_range : string;
  growth_outlook : string
}.

Definition recommendation_of (entry : string * Z) : Recommendation :=
  let (career, score) := entry in
  {| career := career;
     match_percentage := Z.min 95 score;
     description :=
       dict_get_default career "A professional role in your field of interest."
         descriptions;
     key_skills := get_key_skills_for_career career;
     salary_range := get_salary_range_for_career career;
     growth_outlook := get_growth_outlook_for_career career |}.

(** [generate_career_recommendations(assessment_data)], given the
    iteration order of the candidate set. *)
Definition generate_career_recommendations
  (order : list string) (a : AssessmentData) : list Recommendation :=
  map recommendation_of (firstn 5 (sorted_careers order a)).

(* ------------------------------------------------------------------ *)
(** ** JSON values *)
(* ------------------------------------------------------------------ *)

(** The values [json.loads] builds.  A [float] is kept as the decimal
    number that was read ([mantissa * 10 ^ exponent]); its rounding to a
    binary float is not modelled. *)
Inductive float_value : Type :=
| Finite (mantissa exponent : Z)
| NaN
| Infinity (negative : bool).

Inductive json : Type :=
| JNull
| JBool (b : bool)
| JInt (n : Z)
| JFloat (x : float_value)
| JString (s : string)
| JArray (items : list json)
| JObject (members : list (string * json)).

(** [bool(v)]: the test made by [if chunk:]. *)
Definition truthy (v : json) : bool :=
  match v with
  | JNull => false
  | JBool b => b
  | JInt n => negb (n =? 0)%Z
  | JFloat (Finite m _) => negb (m =? 0)%Z
  | JFloat _ => true
  | JString s => negb (s =? "")
  | JArray items => match items with [] => false | _ :: _ => true end
  | JObject members => match members with [] => false | _ :: _ => true end
  end.

(** [type(v).__name__]. *)
Definition type_name (v : json) : string :=
  match v with
  | JNull => "NoneType"
  | JBool _ => "bool"
  | JInt _ => "int"
  | JFloat _ => "float"
  | JString _ => "str"
  | JArray _ => "list"
  | JObject _ => "dict"
  end.

(** The outcome of decoding one text: a value, [json.JSONDecodeError], or
    another exception (a [UnicodeDecodeError] of [bytes.decode], a
    [RecursionError]), given by its message [str(e)]. *)
Inductive loads_result : Type :=
| Loaded (v : json)
| JSONDecodeError
| Raises (msg : string).

(** *** A reference decoder

    [json.loads] belongs to the interpreter's library.  The relay and the
    extractor below take the decoder as a parameter; [json_loads_ref] is a
    decoder of the JSON grammar for text that is valid UTF-8, with which
    they can be run on concrete input. *)

Definition is_json_ws (c : ascii) : bool :=
  match nat_of_ascii c with
  | 32 | 9 | 10 | 13 => true
  | _ => false
  end.

Fixpoint skip_ws (s : string) : string :=
  match s with
  | String c t => if is_json_ws c then skip_ws t else s
  | EmptyString => s
  end.

Definition is_digit (c : ascii) : bool :=
  let n := nat_of_ascii c in (48 <=? n)%nat && (n <=? 57)%nat.

Fixpoint span_digits (s : string) : string * string :=
  match s with
  | String c t =>
      if is_digit c
      then let (d, r) := span_digits t in (String c d, r)
      else ("", s)
  | EmptyString => ("", "")
  end.

Fixpoint digits_value (acc : Z) (d : string) : Z :=
  match d with
  | EmptyString => acc
  | String c t => digits_value (10 * acc + Z.of_nat (nat_of_ascii c - 48)) t
  end.

Fixpoint drop_prefix (p s : string) : option string :=
  match p, s with
  | EmptyString, _ => Some s
  | String a p', String b s' => if Ascii.eqb a b then drop_prefix p' s' else None
  | String _ _, EmptyString => None
  end.

(** The integer part of a number: [0] or a digit sequence without a
    leading zero. *)
Definition span_int (s : string) : option (string * string) :=
  match s with
  | String c t =>
      if Ascii.eqb c "0" then Some ("0", t)
      else if is_digit c then Some (span_digits s)
      else None
  | EmptyString => None
  end.

Definition span_frac (s : string) : string * string :=
  match s with
  | String "." t =>
      match span_digits t with
      | (EmptyString, _) => ("", s)
      | (d, r) => (d, r)
      end
  | _ => ("", s)
  end.

(** The exponent part, when present: its value and the rest. *)
Definition span_exp (s : string) : option (Z * string) :=
  match s with
  | String c t =>
      if Ascii.eqb c "e" || Ascii.eqb c "E" then
        let (neg, t') :=
          match t with
          | String "-" u => (true, u)
          | String "+" u => (false, u)
          | _ => (false, t)
          end in
        match span_digits t' with
        | (EmptyString, _) => None
        | (d, r) => Some (if neg then (- digits_value 0 d)%Z else digits_value 0 d, r)
        end
      else None
  | EmptyString => None
  end.

Definition parse_number (s : string) : option (json * string) :=
  let (neg, s1) :=
    match s with
    | String "-" t => (true, t)
    | _ => (false, s)
    end in
  match span_int s1 with
  | None => None
  | Some (i, r1) =>
      let (f, r2) := span_frac r1 in
      let sign := fun z : Z => if neg then (- z)%Z else z in
      match span_exp r2, f with
      | None, EmptyString => Some (JInt (sign (digits_value 0 i)), r2)
      | None, _ =>
          Some (JFloat (Finite (sign (digits_value 0 (i ++ f)%string))
                               (- Z.of_nat (String.length f))), r2)
      | Some (e, r3), _ =>
          Some (JFloat (Finite (sign (digits_value 0 (i ++ f)%string))
                               (e - Z.of_nat (String.length f))), r3)
      end
  end.

Definition hex_value (c : ascii) : option N :=
  let n := N_of_ascii c in
  if (48 <=? n)%N && (n <=? 57)%N then Some (n - 48)%N
  else if (65 <=? n)%N && (n <=? 70)%N then Some (n - 55)%N
  else if (97 <=? n)%N && (n <=? 102)%N then Some (n - 87)%N
  else None.

Definition hex4 (a b c d : ascii) : option N :=
  match hex_value a, hex_value b, hex_value c, hex_value d with
  | Some x, Some y, Some z, Some w => Some (4096 * x + 256 * y + 16 * z + w)%N
  | _, _, _, _ => None
  end.

(** The UTF-8 encoding of a code point. *)
Definition utf8_encode (cp : N) : string :=
  let byte := fun n : N => ascii_of_N n in
  let cont := fun n : N => byte (128 + n mod 64)%N in
  if (cp <? 128)%N then String (byte cp) ""
  else if (cp <? 2048)%N then
    String (byte (192 + cp / 64)%N) (String (cont cp) "")
  else if (cp <? 65536)%N then
    String (byte (224 + cp / 4096)%N)
      (String (cont (cp / 64)%N) (String (cont cp) ""))
  else
    String (byte (240 + cp / 262144)%N)
      (String (cont (cp / 4096)%N)
         (String (cont (cp / 64)%N) (String (cont cp) ""))).

Definition simple_escape (c : ascii) : option ascii :=
  match nat_of_ascii c with
  | 34 => Some dquote
  | 92 => Some "\"%char
  | 47 => Some "/"%char
  | 98 => Some (ascii_of_nat 8)
  | 102 => Some (ascii_of_nat 12)
  | 110 => Some (ascii_of_nat 10)
  | 114 => Some (ascii_of_nat 13)
  | 116 => Some (ascii_of_nat 9)
  | _ => None
  end.

Definition prepend (p : string) (r : option (string * string))
  : option (string * string) :=
  match r with
  | Some (s, rest) => Some ((p ++ s)%string, rest)
  | None => None
  end.

(** The low half of a surrogate pair, when the text continues with
    one. *)
Definition low_surrogate (s : string) : option (N * string) :=
  match s with
  | String "\" (String "u" (String a (String b (String c (String d t))))) =>
      match hex4 a b c d with
      | Some lo => if (56320 <=? lo)%N && (lo <? 57344)%N then Some (lo, t) else None
      | None => None
      end
  | _ => None
  end.

(** The contents of a string literal, from the character after the
    opening quote: the decoded text and what follows the closing quote.
    [fuel] bounds the number of characters. *)
Fixpoint scan_string (fuel : nat) (s : string) : option (string * string) :=
  match fuel with
  | O => None
  | S fuel =>
      match s with
      | EmptyString => None
      | String c t =>
          if Ascii.eqb c dquote then Some ("", t)
          else if Ascii.eqb c "\" then
            match t with
            | String "u" (String h1 (String h2 (String h3 (String h4 t2)))) =>
                match hex4 h1 h2 h3 h4 with
                | None => None
                | Some cp =>
                    match (if (55296 <=? cp)%N && (cp <? 56320)%N
                           then low_surrogate t2 else None) with
                    | Some (lo, t3) =>
                        prepend
                          (utf8_encode (65536 + (cp - 55296) * 1024 + (lo - 56320))%N)
                          (scan_string fuel t3)
                    | None => prepend (utf8_encode cp) (scan_string fuel t2)
                    end
                end
            | String e t1 =>
                match simple_escape e with
                | Some ch => prepend (String ch "") (scan_string fuel t1)
                | None => None
                end
            | EmptyString => None
            end
          else if (nat_of_ascii c <? 32)%nat then None
          else prepend (String c "") (scan_string fuel t)
      end
  end.

Definition literals : list (string * json) :=
  [("null", JNull); ("true", JBool true); ("false", JBool false);
   ("NaN", JFloat NaN); ("Infinity", JFloat (Infinity false));
   ("-Infinity", JFloat (Infinity true))].

Fixpoint parse_literal (table : list (string * json)) (s : string)
  : option (json * string) :=
  match table with
  | [] => None
  | (word, v) :: rest =>
      match drop_prefix word s with
      | Some r => Some (v, r)
      | None => parse_literal rest s
      end
  end.

Fixpoint parse_value (fuel : nat) (s : string) : option (json * string) :=
  match fuel with
  | O => None
  | S fuel =>
      match s with
      | EmptyString => None
      | String c t =>
          if Ascii.eqb c dquote then
            match scan_string (S (String.length t)) t with
            | Some (str, r) => Some (JString str, r)
            | None => None
            end
          else if Ascii.eqb c "{" then
            match skip_ws t with
            | String "}" r => Some (JObject [], r)
            | t' =>
                match parse_members fuel t' with
                | Some (ms, r) => Some (JObject (dict_literal ms), r)
                | None => None
                end
            end
          else if Ascii.eqb c "[" then
            match skip_ws t with
            | String "]" r => Some (JArray [], r)
            | t' =>
                match parse_elements fuel t' with
                | Some (vs, r) => Some (JArray vs, r)
                | None => None
                end
            end
          else
            match parse_literal literals s with
            | Some res => Some res
            | None => parse_number s
            end
      end
  end
with parse_elements (fuel : nat) (s : string) : option (list json * string) :=
  match fuel with
  | O => None
  | S fuel =>
      match parse_value fuel s with
      | None => None
      | Some (v, r) =>
          match skip_ws r with
          | String "," r' =>
              match parse_elements fuel (skip_ws r') with
              | Some (vs, r'') => Some (v :: vs, r'')
              | None => None
              end
          | String "]" r' => Some ([v], r')
          | _ => None
          end
      end
  end
with parse_members (fuel : nat) (s : string)
  : option (list (string * json) * string) :=
  match fuel with
  | O => None
  | S fuel =>
      match s with
      | String c t =>
          if Ascii.eqb c dquote then
            match scan_string (S (String.length t)) t with
            | None => None
            | Some (k, r) =>
                match skip_ws r with
                | String ":" r1 =>
                    match parse_value fuel (skip_ws r1) with
                    | None => None
                    | Some (v, r2) =>
                        match skip_ws r2 with
                        | String "," r3 =>
                            match parse_members fuel (skip_ws r3) with
                            | Some (ms, r4) => Some ((k, v) :: ms, r4)
                            | None => None
                            end
                        | String "}" r3 => Some ([(k, v)], r3)
                        | _ => None
                        end
                    end
                | _ => None
                end
            end
          else None
      | EmptyString => None
      end
  end.

Definition json_loads_ref (s : string) : loads_result :=
  let s := skip_ws s in
  match parse_value (2 * String.length s + 2) s with
  | Some (v, r) =>
      match skip_ws r with
      | EmptyString => Loaded v
      | String _ _ => JSONDecodeError
      end
  | None => JSONDecodeError
  end.

(* ------------------------------------------------------------------ *)
(** ** The conversation context *)
(* ------------------------------------------------------------------ *)

Definition nl : string := String (ascii_of_nat 10) "".

(** An entry of [st.session_state.messages]; the keys [avatar] and
    [response_time] are not read when the prompt is built. *)
Record Message : Type := {
  role : string;
  content : string
}.

(** The system prompt of [get_ollama_response_stream]. *)
Definition system_prompt : string :=
  concat_str
    ["You are an AI Career Mentor, an expert in career guidance, job market trends, skill development, and professional growth. "; nl;
     "    Your role is to provide personalized career advice ONLY on career-related topics."; nl;
     "    "; nl;
     "    STRICTLY FOCUS ON CAREER-RELATED QUESTIONS. If a user asks about non-career topics, politely redirect them to ask career-related questions."; nl;
     "    "; nl;
     "    Provide thoughtful, detailed, and actionable career advice."; nl;
     "    Focus on practical steps, skill development opportunities, career paths, and industry insights."; nl;
     "    Be encouraging but realistic about career prospects and requirements."].

(** The system prompt of [display_chat_interface]: the same text, indented
    by the sixteen columns of its place in the source. *)
Definition system_prompt_chat : string :=
  concat_str
    ["You are an AI Career Mentor, an expert in career guidance, job market trends, skill development, and professional growth. "; nl;
     "                Your role is to provide personalized career advice ONLY on career-related topics."; nl;
     "                "; nl;
     "                STRICTLY FOCUS ON CAREER-RELATED QUESTIONS. If a user asks about non-career topics, politely redirect them to ask career-related questions."; nl;
     "                "; nl;
     "                Provide thoughtful, detailed, and actionable career advice."; nl;
     "                Focus on practical steps, skill development opportunities, career paths, and industry insights."; nl;
     "                Be encouraging but realistic about career prospects and requirements."].

(** The text one pass of the loop appends to [full_prompt]. *)
Definition render_message (msg : Message) : string :=
  if role msg =? "user" then "User: " ++ content msg ++ nl
  else if role msg =? "assistant" then "Career Mentor: " ++ content msg ++ nl
  else "".

(** The construction of [full_prompt], written twice in the source (in
    [get_ollama_response_stream] and in [display_chat_interface]) with the
    two system prompts above. *)
Definition build_full_prompt
  (system_prompt : string) (messages : list Message) (prompt : string)
  : string :=
  let full_prompt := (system_prompt ++ nl ++ nl)%string in
  let full_prompt :=
    fold_left (fun acc msg => (acc ++ render_message msg)%string)
              messages full_prompt in
  full_prompt ++ "User: " ++ prompt ++ nl ++ "Career Mentor:".

(* ------------------------------------------------------------------ *)
(** ** The streaming relay *)
(* ------------------------------------------------------------------ *)

(** [str(n)] for an integer. *)
Definition str_of_int (n : Z) : string :=
  NilEmpty.string_of_int (Z.to_int n).

Definition redirect_message : string :=
  "I'm designed to help with career-related questions only. Please ask about careers, job searching, skills development, resume writing, interviews, or other professional topics.".

Definition status_error (status : Z) : string :=
  "⚠️ Error: Received status code " ++ str_of_int status ++ " from Ollama".

Definition connect_error (msg : string) : string :=
  "⚠️ Could not connect to Ollama. Make sure it is running. Error: " ++ msg.

(** The message of the [AttributeError] raised by [data.get] when the
    decoded line is not a dictionary. *)
Definition no_attribute_get (data : json) : string :=
  "'" ++ type_name data ++ "' object has no attribute 'get'".

(** The endpoint, as the relay sees it.  One call of [res.readline()]
    returns a line or raises (a timeout, a connection reset); when the
    listed results are used up it returns the empty bytes object. *)
Inductive read_result : Type :=
| Line (data : string)
| ReadRaises (msg : string).

(** [conn.request] or [conn.getresponse] raises (connection refused,
    timeout), or a response arrives with a status and a body. *)
Inductive endpoint : Type :=
| RequestRaises (msg : string)
| Response (status : Z) (body : list read_result).

(** What the function has done with its connection: nothing yet,
    [http.client.HTTPConnection(...)] was built and [conn.close()] was not
    called, or [conn.close()] was called. *)
Inductive connection : Type :=
| NotAcquired
| Acquired
| Released.

(** Where the generator is suspended: before its first statement, at one
    of its four [yield]s, or after its end.  At the [yield] of the reading
    loop the unread part of the body is part of the state. *)
Inductive control : Type :=
| NotStarted
| AtRedirect
| AtChunk (rest : list read_result)
| AtStatusError
| AtConnectError
| Exhausted.

Record generator : Type := {
  at_point : control;
  conn : connection
}.

(** The outcome of running the generator up to its next suspension:
    a value is yielded, the body ends ([StopIteration] for the caller),
    or an exception leaves the generator. *)
Inductive step_result : Type :=
| Yield (chunk : json) (g : generator)
| Stop (g : generator)
| Raise (msg : string) (g : generator).

(** How a consumer stops reading: the generator ended, an exception
    came out of it, or the consumer asked for no more. *)
Inductive ending : Type :=
| Completed
| Propagated (msg : string)
| Suspended.

Section Relay.

(** [str.lower] and [json.loads(line.decode("utf-8"))]. *)
Variable str_lower : string -> string.
Variable json_loads : string -> loads_result.

(** The [while True] loop, from a call of [res.readline()] to the next
    [yield], to the [break] followed by [conn.close()], or to an exception
    that leaves the loop.  [json.JSONDecodeError] is caught inside the
    loop. *)
Fixpoint read_loop (body : list read_result) : step_result :=
  match body with
  | [] => Stop {| at_point := Exhausted; conn := Released |}
  | ReadRaises msg :: _ =>
      Raise msg {| at_point := Exhausted; conn := Acquired |}
  | Line line :: rest =>
      if line =? "" then Stop {| at_point := Exhausted; conn := Released |}
      else
        match json_loads line with
        | JSONDecodeError => read_loop rest
        | Raises msg => Raise msg {| at_point := Exhausted; conn := Acquired |}
        | Loaded (JObject members) =>
            let chunk := dict_get_default "response" (JString "") members in
            if truthy chunk
            then Yield chunk {| at_point := AtChunk rest; conn := Acquired |}
            else read_loop rest
        | Loaded data =>
            Raise (no_attribute_get data)
                  {| at_point := Exhausted; conn := Acquired |}
        end
  end.

(** The handler [except Exception as e] around the [try] block: the
    exception becomes a yielded message. *)
Definition except_Exception (r : step_result) : step_result :=
  match r with
  | Raise msg g =>
      Yield (JString (connect_error msg))
            {| at_point := AtConnectError; conn := conn g |}
  | _ => r
  end.

(** The [try] block from its first statement: the connection object is
    built, the request is sent, and the status of the response selects
    the branch. *)
Definition try_block (server : endpoint) : step_result :=
  match server with
  | RequestRaises msg => Raise msg {| at_point := Exhausted; conn := Acquired |}
  | Response status body =>
      if (status =? 200)%Z then read_loop body
      else Yield (JString (status_error status))
                 {| at_point := AtStatusError; conn := Acquired |}
  end.

(** [next(g)] on the generator made by
    [get_ollama_response_stream(prompt, model)], with [server] the
    behaviour of the endpoint.  The prompt sent is
    [build_full_prompt system_prompt messages prompt]; what the endpoint
    answers is given by [server]. *)
Definition resume (prompt : string) (server : endpoint) (g : generator)
  : step_result :=
  match at_point g with
  | NotStarted =>
      if negb (is_career_related_question_with str_lower prompt)
      then Yield (JString redirect_message)
                 {| at_point := AtRedirect; conn := conn g |}
      else except_Exception (try_block server)
  | AtRedirect => Stop {| at_point := Exhausted; conn := conn g |}
  | AtChunk rest => except_Exception (read_loop rest)
  | AtStatusError => Stop {| at_point := Exhausted; conn := Released |}
  | AtConnectError => Stop {| at_point := Exhausted; conn := conn g |}
  | Exhausted => Stop g
  end.

(** [g.close()], also run when the caller drops a suspended generator:
    [GeneratorExit] is raised at the [yield]; it is not an [Exception],
    so no handler of the function catches it, and no [finally] or [with]
    block runs. *)
Definition close (g : generator) : generator :=
  {| at_point := Exhausted; conn := conn g |}.

(** The generator object returned by the call. *)
Definition get_ollama_response_stream : generator :=
  {| at_point := NotStarted; conn := NotAcquired |}.

(** What the consumer does with the outcome of [next(g)]: it keeps a
    yielded chunk and goes on as [continue] says, or it stops. *)
Definition consume
  (continue : generator -> list json * ending * generator) (r : step_result)
  : list json * ending * generator :=
  match r with
  | Yield chunk g' =>
      let '(chunks, e, g'') := continue g' in (chunk :: chunks, e, g'')
  | Stop g' => ([], Completed, g')
  | Raise msg g' => ([], Propagated msg, g')
  end.

(** A consumer that asks for at most [n] chunks. *)
Fixpoint take (prompt : string) (server : endpoint) (n : nat) (g : generator)
  : list json * ending * generator :=
  match n with
  | O => ([], Suspended, g)
  | S n' => consume (take prompt server n') (resume prompt server g)
  end.

(** A bound on the number of calls of [next] a full iteration makes. *)
Definition budget (server : endpoint) (g : generator) : nat :=
  match at_point g with
  | NotStarted =>
      match server with
      | RequestRaises _ => 2
      | Response _ body => 2 + List.length body
      end
  | AtChunk rest => 2 + List.length rest
  | Exhausted => 1
  | _ => 1
  end.

(** [for chunk in get_ollama_response_stream(prompt, model)], to the
    end. *)
Definition exhaust (prompt : string) (server : endpoint)
  : list json * ending * generator :=
  take prompt server (budget server get_ollama_response_stream)
       get_ollama_response_stream.

(** The consumer reads [n] chunks and abandons the generator. *)
Definition abandon_after (prompt : string) (server : endpoint) (n : nat)
  : list json * generator :=
  let '(chunks, _, g) := take prompt server n get_ollama_response_stream in
  (chunks, close g).

End Relay.

(* ------------------------------------------------------------------ *)
(** ** The extraction of the resume analysis *)
(* ------------------------------------------------------------------ *)

(** The first occurrence of [pat] in [s]: the text before it and the text
    after it. *)
Fixpoint split_at (pat s : string) : option (string * string) :=
  match drop_prefix pat s with
  | Some rest => Some ("", rest)
  | None =>
      match s with
      | EmptyString => None
      | String c t =>
          match split_at pat t with
          | Some (pre, post) => Some (String c pre, post)
          | None => None
          end
      end
  end.

(** [re.search(r'```json(.*?)```', text, re.DOTALL)]: the group of the
    match, when there is one.  The match starts at the first opening
    fence that is followed by a closing fence, and the lazy group ends at
    the first closing fence after it.  A closing fence that follows a
    later opening fence follows the first one too, so the match starts at
    the first opening fence of the text. *)
Definition search_json_block (text : string) : option string :=
  match split_at "```json" text with
  | None => None
  | Some (_, rest) =>
      match split_at "```" rest with
      | None => None
      | Some (group, _) => Some group
      end
  end.

(** [s.find(c)] and [s.rfind(c)] for a one-character [c]: an index, or
    [-1]. *)
Fixpoint find_char (c : ascii) (s : string) : Z :=
  match s with
  | EmptyString => (-1)%Z
  | String a t =>
      if Ascii.eqb a c then 0%Z
      else let i := find_char c t in
           if (i =? -1)%Z then (-1)%Z else (i + 1)%Z
  end.

Fixpoint rfind_char (c : ascii) (s : string) : Z :=
  match s with
  | EmptyString => (-1)%Z
  | String a t =>
      let i := rfind_char c t in
      if (i =? -1)%Z then (if Ascii.eqb a c then 0%Z else (-1)%Z)
      else (i + 1)%Z
  end.

Fixpoint skip_chars (n : nat) (s : string) : string :=
  match n, s with
  | O, _ => s
  | S n', String _ t => skip_chars n' t
  | S _, EmptyString => EmptyString
  end.

Fixpoint take_chars (n : nat) (s : string) : string :=
  match n, s with
  | O, _ => EmptyString
  | S n', String c t => String c (take_chars n' t)
  | S _, EmptyString => EmptyString
  end.

(** [s[i:j]] for indices that are not negative. *)
Definition slice (s : string) (i j : Z) : string :=
  take_chars (Z.to_nat (j - i)) (skip_chars (Z.to_nat i) s).

(** The code points for which [str.isspace] holds, and their UTF-8
    encodings. *)
Definition whitespace_code_points : list N :=
  [9; 10; 11; 12; 13; 28; 29; 30; 31; 32; 133; 160; 5760;
   8192; 8193; 8194; 8195; 8196; 8197; 8198; 8199; 8200; 8201; 8202;
   8232; 8233; 8239; 8287; 12288]%N.

Definition whitespace : list string := map utf8_encode whitespace_code_points.

Fixpoint string_rev (s : string) : string :=
  match s with
  | EmptyString => EmptyString
  | String c t => (string_rev t ++ String c "")%string
  end.

Fixpoint drop_any (prefixes : list string) (s : string) : option string :=
  match prefixes with
  | [] => None
  | p :: rest =>
      match drop_prefix p s with
      | Some r => Some r
      | None => drop_any rest s
      end
  end.

Fixpoint lstrip_with (spaces : list string) (fuel : nat) (s : string) : string :=
  match fuel with
  | O => s
  | S fuel' =>
      match drop_any spaces s with
      | Some r => lstrip_with spaces fuel' r
      | None => s
      end
  end.

Definition lstrip (s : string) : string :=
  lstrip_with whitespace (String.length s) s.

Definition rstrip (s : string) : string :=
  string_rev
    (lstrip_with (map string_rev whitespace) (String.length s) (string_rev s)).

(** [s.strip()]. *)
Definition strip (s : string) : string := rstrip (lstrip s).

(** The record returned when no analysis can be read. *)
Definition fallback_analysis : json :=
  JObject (dict_literal
    [("overall_score", JInt 50);
     ("strengths", JArray [JString "Unable to analyze strengths"]);
     ("improvements", JArray [JString "Unable to analyze improvements"]);
     ("skills", JObject (dict_literal
        [("technical", JArray []); ("soft", JArray [])]));
     ("experience_level", JString "Unknown");
     ("career_suggestions", JArray [JString "Unable to suggest careers"]);
     ("keywords_to_add", JArray []);
     ("formatting_feedback", JString "Unable to analyze formatting")]).

(** [analysis["overall_score"]], when [analysis] is a dictionary with that
    key. *)
Definition overall_score (analysis : json) : option json :=
  match analysis with
  | JObject members => dict_get "overall_score" members
  | _ => None
  end.

(** The text handed to [json.loads]; [None] stands for
    [ValueError("No JSON found in response")]. *)
Definition find_json_text (response_text : string) : option string :=
  match search_json_block response_text with
  | Some group => Some (strip group)
  | None =>
      let start_idx := find_char "{" response_text in
      let end_idx := (rfind_char "}" response_text + 1)%Z in
      if negb (start_idx =? -1)%Z && negb (end_idx =? -1)%Z
      then Some (slice response_text start_idx end_idx)
      else None
  end.

(** The body [res.read()] of the answer to the request of
    [analyze_resume], or the exception raised on the way to it. *)
Inductive reply : Type :=
| ReplyRaises (msg : string)
| ReplyBody (data : string).

Section Extractor.

(** [json.loads]. *)
Variable json_loads : string -> loads_result.

(** The inner [try] block of [analyze_resume] with its handler, which
    returns the fallback record for [json.JSONDecodeError] and
    [ValueError]; any other exception reaches the outer handler, which
    returns the same record.  The calls of [st.error] that report the
    failure on the page are not modelled. *)
Definition extract_analysis (response_text : string) : json :=
  match find_json_text response_text with
  | None => fallback_analysis
  | Some json_text =>
      match json_loads json_text with
      | Loaded analysis => analysis
      | JSONDecodeError => fallback_analysis
      | Raises _ => fallback_analysis
      end
  end.

(** [analyze_resume(resume_text, model)], with [server] the behaviour of
    the endpoint.  The status of the response is not looked at. *)
Definition analyze_resume (server : reply) : json :=
  match server with
  | ReplyRaises _ => fallback_analysis
  | ReplyBody data =>
      match json_loads data with
      | Loaded (JObject result) =>
          match dict_get_default "response" (JString "") result with
          | JString response_text => extract_analysis response_text
          | _ => fallback_analysis
          end
      | _ => fallback_analysis
      end
  end.

End Extractor.

(* ------------------------------------------------------------------ *)
(** ** Notions used to state the properties *)
(* ------------------------------------------------------------------ *)

(** [x] occurs before [y] in [l]. *)
Definition precedes {A : Type} (x y : A) (l : list A) : Prop :=
  exists l1 l2 l3, l = l1 ++ x :: l2 ++ y :: l3.

(** The order of [sorted(..., reverse=True)] on the items of
    [career_scores]. *)
Definition ge_score (x y : string * Z) : Prop := (snd x >= snd y)%Z.

(** The careers named in the conditions of each adjustment. *)
Definition work_style_careers : list string :=
  ["Software Developer"; "Data Scientist"; "UX/UI Designer"; "Content Creator";
   "Healthcare Administrator"; "Teacher"; "Mechanical Engineer";
   "Registered Nurse"].

Definition team_size_careers : list string :=
  ["Writer"; "Research Scientist"; "Graphic Designer";
   "Project Manager"; "Operations Manager"; "Product Manager"].

Definition career_focus_careers : list string :=
  ["Investment Banker"; "Software Engineer"; "Management Consultant";
   "Technical Writer"; "UX/UI Designer"; "Data Analyst";
   "Social Worker"; "Non-profit Manager"; "Environmental Scientist"].

Definition risk_tolerance_careers : list string :=
  ["Entrepreneur"; "Investment Banker"; "Management Consultant";
   "Accountant"; "Government Administrator"; "Teacher"].

(** The score stored for a career is the one the loop computes for it. *)
Definition scored_by (a : AssessmentData) (e : string * Z) : Prop :=
  snd e = score_career a (fst e).

(** Assessments used as concrete inputs: nothing selected; one interest
    and no preference that earns an adjustment; the assessment of the
    specification's end-to-end example. *)
Definition empty_answers : AssessmentData :=
  {| interests := Some []; technical_skills := Some [];
     work_style := Some "Hybrid"; team_size := Some "Large Team (16-50)";
     career_focus := Some "Job Security"; risk_tolerance := Some "Neutral" |}.

Definition technology_answers : AssessmentData :=
  {| interests := Some ["Technology"]; technical_skills := Some [];
     work_style := Some "Hybrid"; team_size := Some "Medium Team (6-15)";
     career_focus := Some "Job Security"; risk_tolerance := Some "Neutral" |}.

Definition remote_developer_answers : AssessmentData :=
  {| interests := Some ["Technology"]; technical_skills := Some ["Programming"];
     work_style := Some "Fully Remote"; team_size := Some "Solo Work";
     career_focus := Some "High Income"; risk_tolerance := Some "Neutral" |}.

(** Two orders in which the set of the four technology careers can be
    visited. *)
Definition technology_order_1 : list string :=
  ["Software Developer"; "IT Manager"; "Data Scientist"; "Cybersecurity Analyst"].

Definition technology_order_2 : list string :=
  ["IT Manager"; "Software Developer"; "Data Scientist"; "Cybersecurity Analyst"].

(** The data model of the conversation: a turn has one of two roles. *)
Inductive role_tag : Type :=
| UserTurn
| AssistantTurn.

Record ConversationTurn : Type := {
  turn_role : role_tag;
  turn_content : string
}.

Definition role_name (r : role_tag) : string :=
  match r with
  | UserTurn => "user"
  | AssistantTurn => "assistant"
  end.

Definition role_label (r : role_tag) : string :=
  match r with
  | UserTurn => "User"
  | AssistantTurn => "Career Mentor"
  end.

(** The dictionary kept in [st.session_state.messages] for a turn. *)
Definition message_of_turn (t : ConversationTurn) : Message :=
  {| role := role_name (turn_role t); content := turn_content t |}.

(** The prompt as the specification words it: the preamble, a
    role-labelled line for each prior turn, the new user line, and the
    cue. *)
Definition turn_line (t : ConversationTurn) : string :=
  role_label (turn_role t) ++ ": " ++ turn_content t ++ nl.

Definition context_prompt
  (preamble : string) (history : list ConversationTurn) (new_user_text : string)
  : string :=
  preamble ++ nl ++ nl ++
  concat_str (map turn_line history) ++
  "User: " ++ new_user_text ++ nl ++
  "Career Mentor:".

(** The chunks the reading loop produces from a body, and what has been
    done with the connection when the generator ends. *)
Fixpoint stream_of_body (json_loads : string -> loads_result)
  (body : list read_result) : list json * connection :=
  match body with
  | [] => ([], Released)
  | ReadRaises msg :: _ => ([JString (connect_error msg)], Acquired)
  | Line line :: rest =>
      if line =? "" then ([], Released)
      else
        match json_loads line with
        | JSONDecodeError => stream_of_body json_loads rest
        | Raises msg => ([JString (connect_error msg)], Acquired)
        | Loaded (JObject members) =>
            let chunk := dict_get_default "response" (JString "") members in
            if truthy chunk
            then (chunk :: fst (stream_of_body json_loads rest),
                  snd (stream_of_body json_loads rest))
            else stream_of_body json_loads rest
        | Loaded data =>
            ([JString (connect_error (no_attribute_get data))], Acquired)
        end
  end.

(** A line of a well-formed stream: not empty, and either rejected by the
    decoder with [json.JSONDecodeError] or decoded to a record whose
    [response] is text (an absent [response] reads as the empty text). *)
Definition fragment_of (json_loads : string -> loads_result) (line : string)
  : option (list string) :=
  if line =? "" then None
  else
    match json_loads line with
    | JSONDecodeError => Some []
    | Loaded (JObject members) =>
        match dict_get_default "response" (JString "") members with
        | JString text => Some [text]
        | _ => None
        end
    | _ => None
    end.

Definition stream_line (json_loads : string -> loads_result) (line : string)
  : Prop :=
  fragment_of json_loads line <> None.

(** The text fragments carried by the lines, in arrival order. *)
Definition fragments (json_loads : string -> loads_result) (lines : list string)
  : list string :=
  flat_map (fun line => match fragment_of json_loads line with
                        | Some l => l
                        | None => []
                        end) lines.

Definition nonempty (s : string) : bool := negb (s =? "").

(** The state of a generator that has run to its end. *)
Definition ended (c : connection) : generator :=
  {| at_point := Exhausted; conn := c |}.

(** A prompt that passes the keyword test, and the lines of the
    specification's streaming example. *)
Definition career_prompt : string := "How do I change my career?".

Definition line_A : string := qq "{'response':'A'}".
Definition line_B : string := qq "{'response':'B'}".
Definition line_empty : string := qq "{'response':''}".

(** The character [c] occurs in [s]. *)
Fixpoint occurs (c : ascii) (s : string) : Prop :=
  match s with
  | EmptyString => False
  | String a t => a = c \/ occurs c t
  end.

(** The value obtained from a payload: what the decoder reads in it, or
    the fallback record when the decoder reads nothing. *)
Definition parsed_or_fallback
  (json_loads : string -> loads_result) (payload : string) : json :=
  match json_loads payload with
  | Loaded analysis => analysis
  | _ => fallback_analysis
  end.

(** The raw text of the specification's extraction example. *)
Definition fenced_example : string :=
  qq "prefix ```json {'overall_score': 80} ``` suffix".

(** A raw text whose payload is found by the scan for braces. *)
Definition braces_example : string :=
  qq "Here it is: {'overall_score': 70} I hope it helps.".

(** [isinstance(v, dict)]: the value is a record, as the annotation
    [-> Dict] of [analyze_resume] announces and as [analysis.get(...)] in
    [show_resume_analysis_results] needs. *)
Definition is_record (v : json) : bool :=
  match v with
  | JObject _ => true
  | _ => false
  end.

(** Raw texts whose fenced block holds JSON that is not a record: a
    number, [null] and a list. *)
Definition number_block_example : string := "Overall: ```json 5 ```".
Definition null_block_example : string := "```json null ```".
Definition list_block_example : string := "```json [1, 2] ```".

(** A fenced block that is not JSON at all. *)
Definition word_block_example : string := "Overall: ```json five ```".

(** The body of an answer of the endpoint whose [response] is
    [number_block_example]. *)
Definition number_block_body : string :=
  qq "{'model':'m','response':'Overall: ```json 5 ```','done':true}".

(** An iteration order of the six careers collected for
    [remote_developer_answers]. *)
Definition remote_developer_order : list string :=
  ["Web Developer"; "Software Developer"; "IT Manager"; "Data Scientist";
   "Cybersecurity Analyst"; "Software Engineer"].

(* ------------------------------------------------------------------ *)
(** ** The session state and the chat history *)
(* ------------------------------------------------------------------ *)

(** [del d[k]].  A dictionary holds a key once; every entry with the key
    is removed.  The functions below test [k in d] before they delete. *)
Fixpoint dict_del {V : Type} (k : string) (d : dict V) : dict V :=
  match d with
  | [] => []
  | (k', v) :: t =>
      if String.eqb k' k then dict_del k t else (k', v) :: dict_del k t
  end.

(** [k in d]. *)
Definition dict_mem {V : Type} (k : string) (d : dict V) : bool :=
  match dict_get k d with
  | Some _ => true
  | None => false
  end.

(** The part of [st.session_state] the chat functions use.  A message is
    a dictionary, a mutable object: [heap] holds the message objects, and
    a conversation is a list of addresses into it.  [list.copy()] makes a
    new list of the same addresses, so a saved conversation and the
    current one share their message objects.  The lists themselves are
    never shared between two places of the state: each is stored as a
    copy or moved. *)
Record Session : Type := {
  heap : list Message;
  messages : list nat;
  chat_history : dict (list nat);
  archived_chats : dict (list nat);
  current_chat_name : option string;
  editing_message_index : option nat
}.

(** [initialize_session_state], for the keys above. *)
Definition initial_session : Session :=
  {| heap := []; messages := []; chat_history := []; archived_chats := [];
     current_chat_name := None; editing_message_index := None |}.

(** The messages at the addresses of a conversation. *)
Definition message_at (s : Session) (address : nat) : option Message :=
  nth_error (heap s) address.

Fixpoint view (h : list Message) (conversation : list nat) : list Message :=
  match conversation with
  | [] => []
  | address :: rest =>
      match nth_error h address with
      | Some msg => msg :: view h rest
      | None => view h rest
      end
  end.

(** [current_chat_name == name]. *)
Definition is_current (s : Session) (name : string) : bool :=
  match current_chat_name s with
  | Some current => current =? name
  | None => false
  end.

(** [save_current_chat()]; [timestamp] is
    [datetime.now().strftime('%H-%M-%S')]. *)
Definition save_current_chat (timestamp : string) (s : Session)
  : option string * Session :=
  match messages s with
  | [] => (None, s)
  | _ :: _ =>
      let name := ("Career_Chat_" ++ timestamp)%string in
      (Some name,
       {| heap := heap s;
          messages := messages s;
          chat_history := dict_set name (messages s) (chat_history s);
          archived_chats := archived_chats s;
          current_chat_name := Some name;
          editing_message_index := editing_message_index s |})
  end.

(** [load_chat(chat_name)]. *)
Definition load_chat (chat_name : string) (s : Session) : Session :=
  {| heap := heap s;
     messages := dict_get_default chat_name [] (chat_history s);
     chat_history := chat_history s;
     archived_chats := archived_chats s;
     current_chat_name := Some chat_name;
     editing_message_index := editing_message_index s |}.

(** [rename_chat(old_name, new_name)]. *)
Definition rename_chat (old_name new_name : string) (s : Session)
  : bool * Session :=
  match dict_get old_name (chat_history s) with
  | Some chat =>
      if negb (dict_mem new_name (chat_history s)) then
        (true,
         {| heap := heap s;
            messages := messages s;
            chat_history :=
              dict_del old_name (dict_set new_name chat (chat_history s));
            archived_chats := archived_chats s;
            current_chat_name :=
              if is_current s old_name then Some new_name
              else current_chat_name s;
            editing_message_index := editing_message_index s |})
      else (false, s)
  | None => (false, s)
  end.

(** [archive_chat(chat_name)]. *)
Definition archive_chat (chat_name : string) (s : Session) : bool * Session :=
  match dict_get chat_name (chat_history s) with
  | Some chat =>
      (true,
       {| heap := heap s;
          messages := messages s;
          chat_history := dict_del chat_name (chat_history s);
          archived_chats := dict_set chat_name chat (archived_chats s);
          current_chat_name :=
            if is_current s chat_name then None else current_chat_name s;
          editing_message_index := editing_message_index s |})
  | None => (false, s)
  end.

(** [restore_chat(chat_name)]. *)
Definition restore_chat (chat_name : string) (s : Session) : bool * Session :=
  match dict_get chat_name (archived_chats s) with
  | Some chat =>
      (true,
       {| heap := heap s;
          messages := messages s;
          chat_history := dict_set chat_name chat (chat_history s);
          archived_chats := dict_del chat_name (archived_chats s);
          current_chat_name := current_chat_name s;
          editing_message_index := editing_message_index s |})
  | None => (false, s)
  end.

(** [delete_chat(chat_name, archived)]. *)
Definition delete_chat (chat_name : string) (archived : bool) (s : Session)
  : bool * Session :=
  let chat_dict := if archived then archived_chats s else chat_history s in
  if dict_mem chat_name chat_dict then
    (true,
     {| heap := heap s;
        messages := messages s;
        chat_history :=
          if archived then chat_history s
          else dict_del chat_name (chat_history s);
        archived_chats :=
          if archived then dict_del chat_name (archived_chats s)
          else archived_chats s;
        current_chat_name :=
          if is_current s chat_name then None else current_chat_name s;
        editing_message_index := editing_message_index s |})
  else (false, s).

(** The "New Chat" button of [display_sidebar]: the conversation is saved
    and a new, empty one is started. *)
Definition new_chat (timestamp : string) (s : Session) : Session :=
  let s' := snd (save_current_chat timestamp s) in
  {| heap := heap s';
     messages := [];
     chat_history := chat_history s';
     archived_chats := archived_chats s';
     current_chat_name := None;
     editing_message_index := editing_message_index s' |}.


(** The user message at position [i] of the current conversation, if
    there is one: its address and the message. *)
Definition user_message_at (s : Session) (i : nat) : option (nat * Message) :=
  match nth_error (messages s) i with
  | Some address =>
      match nth_error (heap s) address with
      | Some msg => if role msg =? "user" then Some (address, msg) else None
      | None => None
      end
  | None => None
  end.

(** The edit button of [display_chat_interface], shown beside the user
    messages. *)
Definition start_edit (i : nat) (s : Session) : Session :=
  match user_message_at s i with
  | Some _ =>
      {| heap := heap s;
         messages := messages s;
         chat_history := chat_history s;
         archived_chats := archived_chats s;
         current_chat_name := current_chat_name s;
         editing_message_index := Some i |}
  | None => s
  end.

(** [messages[i]["content"] = edited_content] on the object at
    [address]. *)
Fixpoint set_content (address : nat) (text : string) (h : list Message)
  : list Message :=
  match h, address with
  | [], _ => []
  | msg :: rest, O => {| role := role msg; content := text |} :: rest
  | msg :: rest, S n => msg :: set_content n text rest
  end.

(** The "Save" button of the edit area, which is shown for the message at
    [editing_message_index] when that is a user message. *)
Definition save_edit (edited_content : string) (s : Session) : Session :=
  match editing_message_index s with
  | Some i =>
      match user_message_at s i with
      | Some (address, _) =>
          {| heap := set_content address edited_content (heap s);
             messages := messages s;
             chat_history := chat_history s;
             archived_chats := archived_chats s;
             current_chat_name := current_chat_name s;
             editing_message_index := None |}
      | None => s
      end
  | None => s
  end.

(* ------------------------------------------------------------------ *)
(** ** The answer of the chat page *)
(* ------------------------------------------------------------------ *)

(** The message of the [TypeError] raised by [output += chunk] when
    [chunk] is not a string. *)
Definition cannot_concatenate (chunk : json) : string :=
  "can only concatenate str (not " ++ String dquote (type_name chunk)
    ++ String dquote ") to str".

Section ChatPage.

Variable json_loads : string -> loads_result.

(** The reading loop of [display_chat_interface]: the fragments are
    appended to [output]; the result is the final [output], or the
    message of the exception that leaves the loop. *)
Fixpoint accumulate (body : list read_result) (output : string)
  : string + string :=
  match body with
  | [] => inl output
  | ReadRaises msg :: _ => inr msg
  | Line line :: rest =>
      if line =? "" then inl output
      else
        match json_loads line with
        | JSONDecodeError => accumulate rest output
        | Raises msg => inr msg
        | Loaded (JObject members) =>
            let chunk := dict_get_default "response" (JString "") members in
            if truthy chunk then
              match chunk with
              | JString text => accumulate rest (output ++ text)
              | _ => inr (cannot_concatenate chunk)
              end
            else accumulate rest output
        | Loaded data => inr (no_attribute_get data)
        end
  end.

(** The [try] statement of [display_chat_interface]: the text shown as
    the answer, and what has been done with the connection. *)
Definition chat_output (server : endpoint) : string * connection :=
  match server with
  | RequestRaises msg => (connect_error msg, Acquired)
  | Response status body =>
      if (status =? 200)%Z then
        match accumulate body "" with
        | inl output => (output, Released)
        | inr msg => (connect_error msg, Acquired)
        end
      else (status_error status, Released)
  end.



End ChatPage.

(* ------------------------------------------------------------------ *)
(** ** The accounts *)
(* ------------------------------------------------------------------ *)

(** The file [users.json] as [json.load] sees it: absent, holding a
    dictionary from user names to password hashes (what [json.dump]
    writes), or holding text that [json.load] rejects. *)
Inductive user_file : Type :=
| NoFile
| UsersFile (users : dict string)
| UnreadableFile.

(** [create_user_file()]: an absent file is created with [{}]. *)
Definition create_user_file (file : user_file) : user_file :=
  match file with
  | NoFile => UsersFile []
  | _ => file
  end.

(** [load_users()]: the dictionary read, and the file afterwards. *)
Definition load_users (file : user_file) : dict string * user_file :=
  let file := create_user_file file in
  match file with
  | UsersFile users => (users, file)
  | _ => ([], file)
  end.

(** [save_users(users)]: the file, created when it was absent, is
    overwritten with the dictionary. *)
Definition save_users (users : dict string) (file : user_file) : user_file :=
  UsersFile users.

(** The outcome of the "Sign Up" button. *)
Inductive signup_outcome : Type :=
| PasswordsDoNotMatch
| MissingField
| AccountCreated
| UsernameExists.

Section Accounts.

(** [hash_password]: the hexadecimal SHA-256 digest of the password. *)
Variable hash_password : string -> string.

Definition verify_password (stored_password provided_password : string) : bool :=
  stored_password =? hash_password provided_password.

Definition authenticate_user (username password : string) (file : user_file)
  : bool * user_file :=
  let (users, file) := load_users file in
  (match dict_get username users with
   | Some stored => verify_password stored password
   | None => false
   end, file).

Definition register_user (username password : string) (file : user_file)
  : bool * user_file :=
  let (users, file) := load_users file in
  if dict_mem username users then (false, file)
  else (true, save_users (dict_set username (hash_password password) users) file).

(** The "Sign Up" tab of [show_login_page]. *)
Definition sign_up (new_username new_password confirm_password : string)
  (file : user_file) : signup_outcome * user_file :=
  if negb (new_password =? confirm_password) then (PasswordsDoNotMatch, file)
  else if (new_username =? "") || (new_password =? "") then (MissingField, file)
  else
    let (created, file') := register_user new_username new_password file in
    (if created then AccountCreated else UsernameExists, file').

End Accounts.

(* ------------------------------------------------------------------ *)
(** ** The list of models *)
(* ------------------------------------------------------------------ *)

Definition DEFAULT_MODEL : string := "nemotron-3-nano:30b-cloud".

(** The answer to [requests.get(".../api/tags")]: an exception, or a
    status with what [response.json()] makes of the body. *)
Inductive tags_reply : Type :=
| TagsRaises
| TagsResponse (status : Z) (body : loads_result).

(** [test_ollama_connection()]. *)
Definition test_ollama_connection (reply : tags_reply) : bool :=
  match reply with
  | TagsRaises => false
  | TagsResponse status _ => (status =? 200)%Z
  end.

(** [[model["name"] for model in items]]; [None] when an item is not a
    dictionary with the key [name] (a [TypeError] or a [KeyError]). *)
Fixpoint model_names (items : list json) : option (list json) :=
  match items with
  | [] => Some []
  | JObject members :: rest =>
      match dict_get "name" members with
      | Some name =>
          match model_names rest with
          | Some names => Some (name :: names)
          | None => None
          end
      | None => None
      end
  | _ :: _ => None
  end.

(** The comprehension over the value of [models]: a list is read item by
    item; an empty dictionary and an empty string have nothing to iterate
    over; every other value raises. *)
Definition names_of_models (models : json) : option (list json) :=
  match models with
  | JArray items => model_names items
  | JObject [] => Some []
  | JString EmptyString => Some []
  | _ => None
  end.

(** [v == name] for a string [name]. *)
Definition is_model (name : string) (v : json) : bool :=
  match v with
  | JString s => s =? name
  | _ => false
  end.

(** [get_ollama_models()]. *)
Definition get_ollama_models (reply : tags_reply) : list json :=
  match reply with
  | TagsRaises => [JString DEFAULT_MODEL]
  | TagsResponse status body =>
      if (status =? 200)%Z then
        match body with
        | Loaded (JObject result) =>
            match names_of_models
                    (dict_get_default "models" (JArray []) result) with
            | Some models =>
                if existsb (is_model DEFAULT_MODEL) models then models
                else models ++ [JString DEFAULT_MODEL]
            | None => [JString DEFAULT_MODEL]
            end
        | _ => [JString DEFAULT_MODEL]
        end
      else [JString DEFAULT_MODEL]
  end.

(* ------------------------------------------------------------------ *)
(** ** Sessions used as concrete inputs *)
(* ------------------------------------------------------------------ *)

(** A session with a conversation of two messages, saved once under the
    name "Career_Chat_10-00-00", and an archived chat named "Plans". *)
Definition sample_session : Session :=
  {| heap := [ {| role := "user"; content := "Which skills matter?" |};
               {| role := "assistant"; content := "Communication." |};
               {| role := "user"; content := "An older question" |} ];
     messages := [0; 1]%nat;
     chat_history := [("Career_Chat_10-00-00", [0; 1]%nat)];
     archived_chats := [("Plans", [2]%nat)];
     current_chat_name := Some "Career_Chat_10-00-00";
     editing_message_index := None |}.

(* ------------------------------------------------------------------ *)
(** ** Notions used to state the further properties *)
(* ------------------------------------------------------------------ *)

(** The strings of [l] are pairwise different. *)
Fixpoint distinctb (l : list string) : bool :=
  match l with
  | [] => true
  | x :: rest => negb (str_in x rest) && distinctb rest
  end.

(** An entry of a lookup table names four different careers. *)
Definition four_careers (entry : string * list string) : bool :=
  (List.length (snd entry) =? 4)%nat && distinctb (snd entry).

(** The candidates of an assessment: the collected careers, or the
    default careers when nothing was collected. *)
Definition candidates (a : AssessmentData) : list string :=
  match collected a with
  | [] => default_careers
  | _ :: _ => collected a
  end.

(** An assessment without the four preference keys. *)
Definition interests_only (selected : list string) : AssessmentData :=
  {| interests := Some selected; technical_skills := None;
     work_style := None; team_size := None;
     career_focus := None; risk_tolerance := None |}.

(** A hash function for concrete runs of the account functions: it is
    not SHA-256, and stands for it only where the digest itself does not
    matter. *)
Definition toy_hash (password : string) : string :=
  ("#" ++ string_rev password)%string.

(** A readable account file with one user. *)
Definition sample_accounts : user_file :=
  UsersFile [("ada", toy_hash "enigma")].

(** A raw text with a fenced block that is not JSON, followed by a record
    between braces. *)
Definition fenced_garbage_example : string :=
  qq "```json not ready yet ``` but here: {'overall_score': 90}".

(** The body of an answer of the endpoint whose [response] is
    [fenced_example]. *)
Definition fenced_body : string :=
  qq "{'model':'m','response':'prefix ```json {\'overall_score\': 80} ``` suffix','done':true}".

(** The roles the prompt construction renders. *)
Definition rendered_role (msg : Message) : bool :=
  (role msg =? "user") || (role msg =? "assistant").

(** The assessment without the selections that are not keys of the
    lookup tables. *)
Definition known_selections (a : AssessmentData) : AssessmentData :=
  {| interests :=
       Some (filter (fun x => dict_mem x interest_career_map)
                    (get_or (interests a) []));
     technical_skills :=
       Some (filter (fun x => dict_mem x skill_career_map)
                    (get_or (technical_skills a) []));
     work_style := work_style a;
     team_size := team_size a;
     career_focus := career_focus a;
     risk_tolerance := risk_tolerance a |}.

(* ================================================================== *)
(** * Part II: properties *)
(* ================================================================== *)

(* ------------------------------------------------------------------ *)
(** ** Dictionaries and lists *)
(* ------------------------------------------------------------------ *)

Lemma str_in_In (c : string) (l : list string) :
  str_in c l = true <-> In c l.
Proof.
  unfold str_in. rewrite existsb_exists. split.
  - intros [x [Hx Heq]]. apply String.eqb_eq in Heq. now subst.
  - intros H. exists c. split; [assumption | apply String.eqb_refl].
Qed.

Lemma dict_set_fresh {V : Type} (k : string) (v : V) (d : dict V) :
  ~ In k (keys d) -> dict_set k v d = d ++ [(k, v)].
Proof.
  induction d as [| [k' v'] d IH]; simpl; intros Hk.
  - reflexivity.
  - destruct (String.eqb_spec k' k) as [-> | Hne].
    + exfalso. apply Hk. now left.
    + f_equal. apply IH. intros Hin. apply Hk. now right.
Qed.

(** Filling a dictionary from a list of distinct keys keeps the order of
    the list. *)
Lemma fold_dict_set_NoDup {V : Type} (f : string -> V) (l : list string) (d : dict V) :
  NoDup (keys d ++ l) ->
  fold_left (fun d k => dict_set k (f k) d) l d = d ++ map (fun k => (k, f k)) l.
Proof.
  revert d. induction l as [| k l IH]; intros d Hnd; simpl.
  - now rewrite app_nil_r.
  - assert (Hk : ~ In k (keys d)).
    { intros Hin. apply NoDup_remove_2 in Hnd. apply Hnd.
      apply in_or_app. now left. }
    rewrite (dict_set_fresh _ _ _ Hk). rewrite IH.
    + now rewrite <- app_assoc.
    + unfold keys. rewrite map_app. simpl. rewrite <- app_assoc. exact Hnd.
Qed.

Lemma dict_set_values {V : Type} (P : string -> V -> Prop) k v (d : dict V) :
  P k v -> Forall (fun e => P (fst e) (snd e)) d ->
  Forall (fun e => P (fst e) (snd e)) (dict_set k v d).
Proof.
  intros Hkv. induction d as [| [k' v'] d IH]; simpl; intros Hd.
  - constructor; [assumption | constructor].
  - inversion Hd as [| ? ? Hhd Htl]; subst. simpl in Hhd.
    destruct (String.eqb_spec k' k) as [-> | Hne].
    + constructor; assumption.
    + constructor; [assumption | now apply IH].
Qed.

Lemma precedes_cons {A : Type} (x y z : A) (l : list A) :
  precedes x y l -> precedes x y (z :: l).
Proof.
  intros (l1 & l2 & l3 & ->). now exists (z :: l1), l2, l3.
Qed.

Lemma precedes_head {A : Type} (x y : A) (l : list A) :
  In y l -> precedes x y (x :: l).
Proof.
  intros Hin. apply in_split in Hin as (l2 & l3 & ->).
  now exists [], l2, l3.
Qed.

Lemma precedes_inv {A : Type} (x y z : A) (l : list A) :
  precedes x y (z :: l) -> (x = z /\ In y l) \/ precedes x y l.
Proof.
  intros (l1 & l2 & l3 & Heq). destruct l1 as [| a l1]; simpl in Heq.
  - injection Heq as <- ->. left. split; [reflexivity |].
    apply in_or_app. right. now left.
  - injection Heq as <- ->. right. now exists l1, l2, l3.
Qed.

Lemma precedes_app_l {A : Type} (x y : A) (l l' : list A) :
  precedes x y l -> precedes x y (l ++ l').
Proof.
  intros (l1 & l2 & l3 & ->). exists l1, l2, (l3 ++ l').
  rewrite <- app_assoc. simpl. rewrite <- app_assoc. reflexivity.
Qed.

Lemma precedes_map {A B : Type} (f : A -> B) (x y : A) (l : list A) :
  precedes x y l -> precedes (f x) (f y) (map f l).
Proof.
  intros (l1 & l2 & l3 & ->). exists (map f l1), (map f l2), (map f l3).
  rewrite map_app. simpl. rewrite map_app. reflexivity.
Qed.

(* ------------------------------------------------------------------ *)
(** ** The stable descending sort *)
(* ------------------------------------------------------------------ *)

Lemma insert_desc_perm x l : Permutation (x :: l) (insert_desc x l).
Proof.
  induction l as [| y t IH]; simpl.
  - apply Permutation_refl.
  - destruct (snd x <? snd y)%Z.
    + eapply perm_trans; [apply perm_swap |]. now apply perm_skip.
    + apply Permutation_refl.
Qed.

Lemma sorted_desc_perm l : Permutation l (sorted_desc l).
Proof.
  induction l as [| x l IH]; simpl.
  - constructor.
  - eapply perm_trans; [apply perm_skip, IH | apply insert_desc_perm].
Qed.

Lemma insert_desc_sorted x l :
  StronglySorted ge_score l -> StronglySorted ge_score (insert_desc x l).
Proof.
  induction l as [| y t IH]; simpl; intros Hs.
  - repeat constructor.
  - inversion Hs as [| ? ? Ht Hall]; subst.
    destruct (Z.ltb_spec (snd x) (snd y)) as [Hlt | Hge].
    + constructor; [now apply IH |].
      eapply Permutation_Forall; [apply insert_desc_perm |].
      constructor; [unfold ge_score; lia | assumption].
    + constructor; [assumption |].
      constructor; [unfold ge_score; lia |].
      eapply Forall_impl; [| exact Hall].
      unfold ge_score. intros z Hz. lia.
Qed.

Lemma sorted_desc_sorted l : StronglySorted ge_score (sorted_desc l).
Proof.
  induction l as [| x l IH]; simpl.
  - constructor.
  - now apply insert_desc_sorted.
Qed.

(** Stability: an inserted element passes only elements with a strictly
    greater score. *)
Lemma insert_desc_stable x y z l :
  precedes x y (insert_desc z l) -> snd x = snd y ->
  (x = z /\ In y l) \/ precedes x y l.
Proof.
  induction l as [| w t IH]; simpl; intros Hp Heq.
  - apply precedes_inv in Hp as [[-> Hin] | Hp]; [now left | now right].
  - destruct (Z.ltb_spec (snd z) (snd w)) as [Hlt | Hge].
    + apply precedes_inv in Hp as [[-> Hin] | Hp].
      * eapply Permutation_in in Hin; [| apply Permutation_sym, insert_desc_perm].
        destruct Hin as [<- | Hin]; [lia |]. right. now apply precedes_head.
      * destruct (IH Hp Heq) as [[-> Hin] | Hp'].
        -- left. split; [reflexivity | now right].
        -- right. now apply precedes_cons.
    + apply precedes_inv in Hp as [[-> Hin] | Hp]; [now left | now right].
Qed.

Lemma sorted_desc_stable x y l :
  precedes x y (sorted_desc l) -> snd x = snd y -> precedes x y l.
Proof.
  revert x y. induction l as [| z l IH]; simpl; intros x y Hp Heq.
  - destruct Hp as (l1 & l2 & l3 & H). now destruct l1.
  - apply insert_desc_stable in Hp as [[-> Hin] | Hp]; [| | assumption].
    + apply precedes_head.
      eapply Permutation_in; [apply Permutation_sym, sorted_desc_perm | exact Hin].
    + apply precedes_cons. now apply IH.
Qed.

(* ------------------------------------------------------------------ *)
(** ** The recommendation scorer *)
(* ------------------------------------------------------------------ *)

Lemma str_in_app c l1 l2 :
  str_in c (l1 ++ l2) = str_in c l1 || str_in c l2.
Proof. unfold str_in. apply existsb_app. Qed.

Lemma work_style_bonus_cases a c :
  work_style_bonus a c = 0%Z \/
  (work_style_bonus a c = 20%Z /\ str_in c work_style_careers = true).
Proof.
  unfold work_style_bonus.
  change work_style_careers with
    (["Software Developer"; "Data Scientist"; "UX/UI Designer"; "Content Creator"]
     ++ ["Healthcare Administrator"; "Teacher"; "Mechanical Engineer";
         "Registered Nurse"]).
  rewrite str_in_app.
  destruct (get_or (work_style a) "Hybrid" =? "Fully Remote");
    destruct (get_or (work_style a) "Hybrid" =? "Fully In-Office");
    destruct (str_in c _); destruct (str_in c _); simpl; auto.
Qed.

Lemma team_size_bonus_cases a c :
  team_size_bonus a c = 0%Z \/
  (team_size_bonus a c = 15%Z /\ str_in c team_size_careers = true).
Proof.
  unfold team_size_bonus.
  change team_size_careers with
    (["Writer"; "Research Scientist"; "Graphic Designer"]
     ++ ["Project Manager"; "Operations Manager"; "Product Manager"]).
  rewrite str_in_app.
  destruct (get_or (team_size a) "Medium Team (6-15)" =? "Solo Work");
    destruct (get_or (team_size a) "Medium Team (6-15)" =? "Large Team (16-50)");
    destruct (str_in c _); destruct (str_in c _); simpl; auto.
Qed.

Lemma career_focus_bonus_cases a c :
  career_focus_bonus a c = 0%Z \/
  (career_focus_bonus a c = 25%Z /\ str_in c career_focus_careers = true).
Proof.
  unfold career_focus_bonus.
  change career_focus_careers with
    (["Investment Banker"; "Software Engineer"; "Management Consultant"]
     ++ ["Technical Writer"; "UX/UI Designer"; "Data Analyst"]
     ++ ["Social Worker"; "Non-profit Manager"; "Environmental Scientist"]).
  rewrite !str_in_app.
  destruct (get_or (career_focus a) "Work-Life Balance" =? "High Income");
    destruct (get_or (career_focus a) "Work-Life Balance" =? "Work-Life Balance");
    destruct (get_or (career_focus a) "Work-Life Balance" =? "Making an Impact");
    destruct (str_in c _); destruct (str_in c _); destruct (str_in c _);
    simpl; auto.
Qed.

Lemma risk_tolerance_bonus_cases a c :
  risk_tolerance_bonus a c = 0%Z \/
  (risk_tolerance_bonus a c = 20%Z /\ str_in c risk_tolerance_careers = true).
Proof.
  unfold risk_tolerance_bonus.
  change risk_tolerance_careers with
    (["Entrepreneur"; "Investment Banker"; "Management Consultant"]
     ++ ["Accountant"; "Government Administrator"; "Teacher"]).
  rewrite str_in_app.
  destruct (get_or (risk_tolerance a) "Neutral" =? "Very Risk-Tolerant");
    destruct (get_or (risk_tolerance a) "Neutral" =? "Very Risk-Averse");
    destruct (str_in c _); destruct (str_in c _); simpl; auto.
Qed.

(** Every score is at least the base score. *)
Lemma score_career_lower a c : (50 <= score_career a c)%Z.
Proof.
  unfold score_career.
  destruct (work_style_bonus_cases a c) as [-> | [-> _]];
  destruct (team_size_bonus_cases a c) as [-> | [-> _]];
  destruct (career_focus_bonus_cases a c) as [-> | [-> _]];
  destruct (risk_tolerance_bonus_cases a c) as [-> | [-> _]]; lia.
Qed.

(** From a membership test that holds to the cases of the career. *)
Ltac career_cases H :=
  apply str_in_In in H; simpl in H;
  repeat (destruct H as [H | H]); try contradiction; subst.

(** No career is named by the team-size adjustment and by another one,
    and none by the three other adjustments together. *)
Lemma team_size_careers_apart c :
  str_in c team_size_careers = true ->
  str_in c work_style_careers = false /\
  str_in c career_focus_careers = false /\
  str_in c risk_tolerance_careers = false.
Proof. intros H. career_cases H; repeat split; reflexivity. Qed.

Lemma work_focus_risk_apart c :
  str_in c work_style_careers = true ->
  str_in c career_focus_careers = true ->
  str_in c risk_tolerance_careers = false.
Proof.
  intros Hw Hf. career_cases Hw; try reflexivity; vm_compute in Hf; discriminate.
Qed.

(** The adjustments that can be combined never exceed 45 points: the cap
    of [min(95, score)] changes no score. *)
Lemma score_career_upper a c : (score_career a c <= 95)%Z.
Proof.
  unfold score_career.
  destruct (team_size_bonus_cases a c) as [-> | [-> Ht]].
  - destruct (work_style_bonus_cases a c) as [-> | [-> Hw]];
    destruct (career_focus_bonus_cases a c) as [-> | [-> Hf]];
    destruct (risk_tolerance_bonus_cases a c) as [-> | [-> Hr]]; try lia.
    rewrite (work_focus_risk_apart c Hw Hf) in Hr. discriminate.
  - destruct (team_size_careers_apart c Ht) as (Hw' & Hf' & Hr').
    destruct (work_style_bonus_cases a c) as [-> | [_ Hw]];
      [| rewrite Hw' in Hw; discriminate].
    destruct (career_focus_bonus_cases a c) as [-> | [_ Hf]];
      [| rewrite Hf' in Hf; discriminate].
    destruct (risk_tolerance_bonus_cases a c) as [-> | [_ Hr]];
      [| rewrite Hr' in Hr; discriminate].
    lia.
Qed.

Lemma career_scores_scored order a :
  Forall (scored_by a) (career_scores order a).
Proof.
  unfold career_scores.
  assert (H : forall l d, Forall (scored_by a) d ->
    Forall (scored_by a)
      (fold_left (fun d career => dict_set career (score_career a career) d) l d)).
  { induction l as [| c l IH]; simpl; intros d Hd; [assumption |].
    apply IH.
    apply (dict_set_values (fun k v => v = score_career a k)); [reflexivity | exact Hd]. }
  apply H. constructor.
Qed.

Lemma sorted_careers_scored order a :
  Forall (scored_by a) (sorted_careers order a).
Proof.
  unfold sorted_careers.
  eapply Permutation_Forall; [apply sorted_desc_perm | apply career_scores_scored].
Qed.

Lemma Forall_firstn {A : Type} (P : A -> Prop) n (l : list A) :
  Forall P l -> Forall P (firstn n l).
Proof.
  intros H. rewrite Forall_forall in *. intros x Hx.
  apply H. eapply In_nth_error in Hx as [i Hi].
  rewrite <- (firstn_skipn n l). apply in_or_app. left.
  eapply nth_error_In; eassumption.
Qed.

Lemma StronglySorted_firstn {A : Type} (R : A -> A -> Prop) n (l : list A) :
  StronglySorted R l -> StronglySorted R (firstn n l).
Proof.
  revert l. induction n as [| n IH]; intros l Hs; simpl.
  - constructor.
  - destruct l as [| x l]; [constructor |].
    inversion Hs; subst. constructor; [now apply IH | now apply Forall_firstn].
Qed.

Lemma StronglySorted_map {A B : Type} (R : A -> A -> Prop) (R' : B -> B -> Prop)
  (f : A -> B) (l : list A) :
  (forall x y, R x y -> R' (f x) (f y)) ->
  StronglySorted R l -> StronglySorted R' (map f l).
Proof.
  intros Hf. induction 1 as [| x l Hs IH Hall]; simpl; constructor.
  - exact IH.
  - rewrite Forall_map. eapply Forall_impl; [| exact Hall]. intros y. apply Hf.
Qed.

Lemma match_percentage_of e :
  match_percentage (recommendation_of e) = Z.min 95 (snd e).
Proof. now destruct e. Qed.

Lemma career_of e : career (recommendation_of e) = fst e.
Proof. now destruct e. Qed.

Lemma recommendations_scored order a :
  Forall (fun r => match_percentage r = score_career a (career r))
         (generate_career_recommendations order a).
Proof.
  unfold generate_career_recommendations. rewrite Forall_map.
  apply Forall_firstn.
  eapply Forall_impl; [| apply sorted_careers_scored].
  intros e He. rewrite match_percentage_of, career_of, He.
  apply Z.min_r, score_career_upper.
Qed.

(** C1: for every assessment, and whatever the iteration order of the
    candidate set, every returned recommendation has a match percentage
    between 0 and 95, at most five recommendations are returned, and they
    are listed by non-increasing match percentage. *)
Theorem recommendations_bounded_top5_sorted :
  forall (order : list string) (a : AssessmentData),
    Forall (fun r => (0 <= match_percentage r <= 95)%Z)
           (generate_career_recommendations order a) /\
    (List.length (generate_career_recommendations order a) <= 5)%nat /\
    StronglySorted (fun r1 r2 => (match_percentage r1 >= match_percentage r2)%Z)
                   (generate_career_recommendations order a).
Proof.
  intros order a. split; [| split].
  - eapply Forall_impl; [| apply recommendations_scored].
    intros r ->. pose proof (score_career_lower a (career r)).
    pose proof (score_career_upper a (career r)). lia.
  - unfold generate_career_recommendations.
    rewrite length_map. apply firstn_le_length.
  - unfold generate_career_recommendations.
    apply StronglySorted_map with (R := ge_score).
    + intros x y Hxy. rewrite !match_percentage_of. unfold ge_score in Hxy. lia.
    + apply StronglySorted_firstn, sorted_desc_sorted.
Qed.

(** C10: for every assessment, every returned recommendation has a match
    percentage of at least 50 (and at most 95): the score starts at 50 and
    the adjustments only add to it. *)
Theorem recommendations_at_least_base :
  forall (order : list string) (a : AssessmentData),
    Forall (fun r => (50 <= match_percentage r <= 95)%Z)
           (generate_career_recommendations order a).
Proof.
  intros order a.
  eapply Forall_impl; [| apply recommendations_scored].
  intros r ->. split; [apply score_career_lower | apply score_career_upper].
Qed.

Lemma default_careers_NoDup : NoDup default_careers.
Proof.
  unfold default_careers.
  repeat constructor; simpl; intuition discriminate.
Qed.

Lemma potential_careers_NoDup order a :
  NoDup order -> NoDup (potential_careers order a).
Proof.
  intros Hnd. unfold potential_careers.
  destruct (collected a); [apply default_careers_NoDup | exact Hnd].
Qed.

(** The score mapping lists the candidates in the order of the loop. *)
Lemma career_scores_items order a :
  NoDup order ->
  career_scores order a =
  map (fun c => (c, score_career a c)) (potential_careers order a).
Proof.
  intros Hnd. unfold career_scores.
  rewrite (fold_dict_set_NoDup (score_career a)); [reflexivity |].
  simpl. now apply potential_careers_NoDup.
Qed.

Lemma career_scores_keys order a :
  NoDup order -> keys (career_scores order a) = potential_careers order a.
Proof.
  intros Hnd. rewrite (career_scores_items _ _ Hnd).
  unfold keys. rewrite map_map. simpl. apply map_id.
Qed.

Lemma collected_nil a :
  get_or (interests a) [] = [] -> get_or (technical_skills a) [] = [] ->
  collected a = [].
Proof. intros Hi Hs. unfold collected. now rewrite Hi, Hs. Qed.

Lemma recommendation_careers order a :
  map career (generate_career_recommendations order a) =
  map fst (firstn 5 (sorted_careers order a)).
Proof.
  unfold generate_career_recommendations. rewrite map_map.
  apply map_ext. intros e. apply career_of.
Qed.

(** C5: when no interest and no skill is selected, the returned careers
    are exactly the four default careers, each with a match percentage of
    at least 50. *)
Theorem default_recommendations :
  forall (order : list string) (a : AssessmentData),
    get_or (interests a) [] = [] ->
    get_or (technical_skills a) [] = [] ->
    Permutation (map career (generate_career_recommendations order a))
                default_careers /\
    Forall (fun r => (50 <= match_percentage r)%Z)
           (generate_career_recommendations order a).
Proof.
  intros order a Hi Hs. split.
  - rewrite recommendation_careers.
    assert (Hc : career_scores order a =
                 map (fun c => (c, score_career a c)) default_careers).
    { unfold career_scores, potential_careers.
      rewrite (collected_nil a Hi Hs).
      rewrite (fold_dict_set_NoDup (score_career a)); [reflexivity |].
      apply default_careers_NoDup. }
    assert (Hp : Permutation (career_scores order a) (sorted_careers order a))
      by apply sorted_desc_perm.
    rewrite firstn_all2.
    + apply Permutation_sym. apply (Permutation_map fst) in Hp.
      rewrite Hc, map_map in Hp. exact Hp.
    + rewrite <- (Permutation_length Hp), Hc, length_map. simpl. lia.
  - eapply Forall_impl; [| apply recommendations_scored].
    intros r ->. apply score_career_lower.
Qed.

(** The statement of C5 at the assessment with nothing selected. *)
Lemma default_recommendations_witness :
  Permutation
    (map career (generate_career_recommendations [] empty_answers))
    default_careers /\
  Forall (fun r => (50 <= match_percentage r)%Z)
         (generate_career_recommendations [] empty_answers).
Proof.
  apply (default_recommendations [] empty_answers); reflexivity.
Defined.

(** C4 (as amended): two returned recommendations with equal match
    percentages are listed in the order in which their careers were
    inserted into the score mapping, which is the order in which the
    candidates are visited: the default list when nothing was collected,
    the iteration order of the candidate set otherwise. *)
Theorem ties_follow_iteration_order :
  forall (order : list string) (a : AssessmentData),
    NoDup order ->
    keys (career_scores order a) = potential_careers order a /\
    (collected a = [] -> potential_careers order a = default_careers) /\
    (collected a <> [] -> potential_careers order a = order) /\
    forall r1 r2 : Recommendation,
      precedes r1 r2 (generate_career_recommendations order a) ->
      match_percentage r1 = match_percentage r2 ->
      precedes (career r1) (career r2) (keys (career_scores order a)).
Proof.
  intros order a Hnd. split; [| split; [| split]].
  - now apply career_scores_keys.
  - unfold potential_careers. now intros ->.
  - unfold potential_careers. destruct (collected a); [congruence | reflexivity].
  - intros r1 r2 (l1 & l2 & l3 & Heq) Hmp.
    unfold generate_career_recommendations in Heq.
    apply map_eq_app in Heq as (s1 & t1 & Hs & <- & Ht1).
    apply map_eq_cons in Ht1 as (e1 & t2 & -> & <- & Ht2).
    apply map_eq_app in Ht2 as (s2 & t3 & -> & <- & Ht3).
    apply map_eq_cons in Ht3 as (e2 & s3 & -> & <- & <-).
    rewrite !career_of. unfold keys. apply precedes_map.
    apply sorted_desc_stable.
    + fold (sorted_careers order a).
      rewrite <- (firstn_skipn 5 (sorted_careers order a)), Hs.
      apply precedes_app_l. now exists s1, s2, s3.
    + assert (Hall : Forall (scored_by a) (firstn 5 (sorted_careers order a)))
        by apply Forall_firstn, sorted_careers_scored.
      rewrite Hs in Hall. rewrite Forall_forall in Hall.
      assert (H1 : scored_by a e1).
      { apply Hall. apply in_or_app. right. now left. }
      assert (H2 : scored_by a e2).
      { apply Hall. apply in_or_app. right. right.
        apply in_or_app. right. now left. }
      rewrite !match_percentage_of in Hmp.
      unfold scored_by in H1, H2.
      pose proof (score_career_upper a (fst e1)).
      pose proof (score_career_upper a (fst e2)). lia.
Qed.

(** The statement of C4 at the technology assessment, with the four
    careers visited in the first order: "IT Manager" and "Data Scientist"
    are tied and keep that order. *)
Lemma ties_follow_iteration_order_witness :
  precedes "IT Manager" "Data Scientist"
    (keys (career_scores technology_order_1 technology_answers)).
Proof.
  assert (Hnd : NoDup technology_order_1).
  { unfold technology_order_1. repeat constructor; simpl; intuition discriminate. }
  destruct (ties_follow_iteration_order technology_order_1 technology_answers Hnd)
    as (_ & _ & _ & Hties).
  apply (Hties (recommendation_of ("IT Manager", 50%Z))
               (recommendation_of ("Data Scientist", 50%Z))).
  - exists [recommendation_of ("Software Developer", 50%Z)], [],
      [recommendation_of ("Cybersecurity Analyst", 50%Z)].
    reflexivity.
  - reflexivity.
Defined.

(** C4, counterexample: the tie-break is not fixed by the answers.  With
    the one interest "Technology" the four candidates are tied, both
    orders below are iteration orders of the candidate set, and the
    careers are returned in the order of the iteration, so that the two
    results differ; in the second one "IT Manager" is listed before
    "Software Developer", which the interest table names first. *)
Lemma tie_break_depends_on_set_iteration :
  set_iteration (collected technology_answers) technology_order_1 /\
  set_iteration (collected technology_answers) technology_order_2 /\
  map career (generate_career_recommendations technology_order_1 technology_answers)
    = technology_order_1 /\
  map career (generate_career_recommendations technology_order_2 technology_answers)
    = technology_order_2 /\
  generate_career_recommendations technology_order_1 technology_answers <>
  generate_career_recommendations technology_order_2 technology_answers.
Proof.
  repeat split.
  - repeat constructor; simpl; intuition discriminate.
  - vm_compute. tauto.
  - vm_compute. tauto.
  - repeat constructor; simpl; intuition discriminate.
  - vm_compute. tauto.
  - vm_compute. tauto.
  - vm_compute. discriminate.
Qed.

(** The end-to-end example: "Technology" and "Programming", fully remote,
    solo work, high income, neutral risk.  "Software Developer" is
    returned with the base score and the remote-work adjustment. *)
Example remote_developer_recommendations :
  set_iteration (collected remote_developer_answers) remote_developer_order /\
  map (fun r => (career r, match_percentage r))
      (generate_career_recommendations remote_developer_order
         remote_developer_answers) =
  [("Software Engineer"%string, 75%Z); ("Software Developer"%string, 70%Z);
   ("Data Scientist"%string, 70%Z); ("Web Developer"%string, 50%Z);
   ("IT Manager"%string, 50%Z)].
Proof.
  split; [split |].
  - repeat constructor; simpl; intuition discriminate.
  - vm_compute. tauto.
  - vm_compute. reflexivity.
Qed.

(* ------------------------------------------------------------------ *)
(** ** Strings *)
(* ------------------------------------------------------------------ *)

Lemma drop_prefix_spec (p s r : string) :
  drop_prefix p s = Some r <-> s = (p ++ r)%string.
Proof.
  revert s. induction p as [| a p IH]; intros s; simpl.
  - split; [now intros [= ->] | now intros ->].
  - destruct s as [| b s].
    + split; discriminate.
    + destruct (Ascii.eqb_spec a b) as [-> | Hne].
      * rewrite IH. split; [now intros -> | now intros [= ->]].
      * split; [discriminate | intros [= Hab _]; now symmetry in Hab].
Qed.

Lemma prefixb_spec (p s : string) :
  prefixb p s = true <-> exists post, s = (p ++ post)%string.
Proof.
  revert s. induction p as [| a p IH]; intros s; simpl.
  - split; [intros _; now exists s | reflexivity].
  - destruct s as [| b s].
    + split; [discriminate | intros [post H]; discriminate].
    + rewrite andb_true_iff, IH. split.
      * intros [Hab [post ->]]. apply Ascii.eqb_eq in Hab as ->. now exists post.
      * intros [post [= -> ->]]. split; [apply Ascii.eqb_refl | now exists post].
Qed.

(** [contains] decides the occurrence of [k] as a substring. *)
Lemma contains_spec (k s : string) :
  contains k s = true <-> exists pre post, s = (pre ++ k ++ post)%string.
Proof.
  induction s as [| c s IH].
  - simpl. rewrite orb_false_r, prefixb_spec. split.
    + intros [post H]. now exists ""%string, post.
    + intros [pre [post H]]. destruct pre as [| a pre]; [| discriminate].
      now exists post.
  - cbn [contains]. rewrite orb_true_iff, prefixb_spec, IH. split.
    + intros [[post H] | [pre [post ->]]].
      * now exists ""%string, post.
      * now exists (String c pre), post.
    + intros [pre [post H]]. destruct pre as [| a pre].
      * left. now exists post.
      * right. injection H as _ ->. now exists pre, post.
Qed.

Lemma append_nil_r (s : string) : (s ++ "")%string = s.
Proof. induction s as [| c s IH]; simpl; [reflexivity | now rewrite IH]. Qed.

Lemma append_assoc (s1 s2 s3 : string) :
  ((s1 ++ s2) ++ s3)%string = (s1 ++ s2 ++ s3)%string.
Proof. induction s1 as [| c s1 IH]; simpl; [reflexivity | now rewrite IH]. Qed.

Lemma concat_str_app (l1 l2 : list string) :
  concat_str (l1 ++ l2) = (concat_str l1 ++ concat_str l2)%string.
Proof.
  induction l1 as [| s l1 IH]; simpl; [reflexivity |].
  now rewrite IH, append_assoc.
Qed.

Lemma fold_append (A : Type) (f : A -> string) (l : list A) (init : string) :
  fold_left (fun acc x => (acc ++ f x)%string) l init =
  (init ++ concat_str (map f l))%string.
Proof.
  revert init. induction l as [| x l IH]; intros init; simpl.
  - now rewrite append_nil_r.
  - rewrite IH. now rewrite append_assoc.
Qed.

(* ------------------------------------------------------------------ *)
(** ** The keyword classifier *)
(* ------------------------------------------------------------------ *)

(** C6: the classifier answers [true] exactly when the lower-cased input
    has a keyword of the vocabulary as a substring, and [false] exactly
    when it has none; it is a total function of its input. *)
Theorem classifier_detects_keywords :
  forall (str_lower : string -> string) (prompt : string),
    (is_career_related_question_with str_lower prompt = true <->
     exists keyword, In keyword career_keywords /\
       exists pre post, str_lower prompt = (pre ++ keyword ++ post)%string) /\
    (is_career_related_question_with str_lower prompt = false <->
     forall keyword, In keyword career_keywords ->
       forall pre post, str_lower prompt <> (pre ++ keyword ++ post)%string).
Proof.
  intros str_lower prompt.
  assert (Htrue :
    is_career_related_question_with str_lower prompt = true <->
    exists keyword, In keyword career_keywords /\
      exists pre post, str_lower prompt = (pre ++ keyword ++ post)%string).
  { unfold is_career_related_question_with. rewrite existsb_exists.
    split; intros [k [Hin Hk]]; exists k; (split; [exact Hin |]);
      now apply contains_spec. }
  split; [exact Htrue |].
  rewrite <- not_true_iff_false, Htrue. split.
  - intros Hnone k Hin pre post Heq. apply Hnone.
    exists k. split; [exact Hin | now exists pre, post].
  - intros Hall [k [Hin [pre [post Heq]]]]. exact (Hall k Hin pre post Heq).
Qed.

(** The classifier on two ASCII inputs: the match ignores case and is a
    substring match ("work" inside "homework"). *)
Example classifier_examples :
  is_career_related_question "How do I ask for a PROMOTION?" = true /\
  is_career_related_question "Finish my homework" = true /\
  is_career_related_question "What is 2 + 2?" = false.
Proof. repeat split; reflexivity. Qed.

(* ------------------------------------------------------------------ *)
(** ** The conversation context *)
(* ------------------------------------------------------------------ *)

Lemma build_full_prompt_unfold sp messages prompt :
  build_full_prompt sp messages prompt =
  (sp ++ nl ++ nl ++ concat_str (map render_message messages) ++
   "User: " ++ prompt ++ nl ++ "Career Mentor:")%string.
Proof.
  unfold build_full_prompt. rewrite fold_append.
  now rewrite !append_assoc.
Qed.

Lemma render_message_of_turn t :
  render_message (message_of_turn t) = turn_line t.
Proof. destruct t as [[|] text]; reflexivity. Qed.

(** C9: for every history of turns and every new user text, the prompt
    built is the system preamble, then one role-labelled line for each
    prior turn, in order and in full, then the new user line, then the cue
    "Career Mentor:". *)
Theorem prompt_is_preamble_history_question_cue :
  forall (preamble : string) (history : list ConversationTurn)
         (new_user_text : string),
    build_full_prompt preamble (map message_of_turn history) new_user_text =
    context_prompt preamble history new_user_text.
Proof.
  intros preamble history new_user_text.
  rewrite build_full_prompt_unfold. unfold context_prompt.
  rewrite map_map.
  rewrite (map_ext _ _ render_message_of_turn). reflexivity.
Qed.

(** In [display_chat_interface] the new message is appended to the
    history before the prompt is built, so its line is there twice. *)
Remark chat_prompt_repeats_the_new_line :
  forall (history : list ConversationTurn) (new_user_text : string),
    build_full_prompt system_prompt_chat
      (map message_of_turn
         (history ++ [{| turn_role := UserTurn; turn_content := new_user_text |}]))
      new_user_text =
    (system_prompt_chat ++ nl ++ nl ++ concat_str (map turn_line history) ++
     "User: " ++ new_user_text ++ nl ++
     "User: " ++ new_user_text ++ nl ++ "Career Mentor:")%string.
Proof.
  intros history new_user_text. generalize system_prompt_chat as preamble.
  intros preamble.
  rewrite build_full_prompt_unfold, map_map, map_app, concat_str_app.
  rewrite (map_ext _ _ render_message_of_turn).
  unfold turn_line at 2. simpl. rewrite !append_assoc. simpl.
  rewrite !append_assoc. reflexivity.
Qed.

(* ------------------------------------------------------------------ *)
(** ** The streaming relay *)
(* ------------------------------------------------------------------ *)

Section RelayFacts.

Variable str_lower : string -> string.
Variable json_loads : string -> loads_result.
Variable prompt : string.

(** The handler turns every exception of the [try] block into a chunk. *)
Lemma except_Exception_catches (r : step_result) (msg : string) (g : generator) :
  except_Exception r <> Raise msg g.
Proof. destruct r; simpl; discriminate. Qed.

Lemma resume_never_raises server g msg g' :
  resume str_lower json_loads prompt server g <> Raise msg g'.
Proof.
  unfold resume.
  destruct (at_point g);
    try destruct (negb (is_career_related_question_with str_lower prompt));
    try apply except_Exception_catches; discriminate.
Qed.

Lemma take_never_propagates server n g msg :
  snd (fst (take str_lower json_loads prompt server n g)) <> Propagated msg.
Proof.
  revert g. induction n as [| n IH]; intros g; simpl; [discriminate |].
  destruct (resume str_lower json_loads prompt server g) as [c g1 | g1 | m g1] eqn:Hr.
  - simpl. specialize (IH g1).
    destruct (take str_lower json_loads prompt server n g1) as [[cs e] g2].
    exact IH.
  - simpl. discriminate.
  - exfalso. exact (resume_never_raises _ _ _ _ Hr).
Qed.

(** Reading a body to its end: the consumer receives the chunks of
    [stream_of_body] and the generator ends. *)
Lemma consume_read_loop server body n :
  (List.length body <= n)%nat ->
  consume (take str_lower json_loads prompt server n)
          (except_Exception (read_loop json_loads body)) =
  (fst (stream_of_body json_loads body), Completed,
   ended (snd (stream_of_body json_loads body))).
Proof.
  revert n. induction body as [| r rest IH]; intros n Hn; simpl.
  - reflexivity.
  - destruct r as [line | msg].
    + destruct (line =? "") eqn:Hline; [reflexivity |].
      simpl in Hn.
      destruct (json_loads line) as [data | | msg] eqn:Hload.
      * destruct data;
          try (destruct n as [| n]; [lia | reflexivity]).
        destruct (truthy (dict_get_default "response" (JString "") members)).
        -- destruct n as [| n]; [lia |].
           simpl. unfold resume at 1. simpl.
           rewrite IH by lia. reflexivity.
        -- apply IH. lia.
      * apply IH. lia.
      * destruct n as [| n]; [lia | reflexivity].
    + simpl in Hn. destruct n as [| n]; [lia | reflexivity].
Qed.

(** A prompt without a keyword: one chunk, the redirect message, and no
    connection. *)
Lemma exhaust_off_topic server :
  is_career_related_question_with str_lower prompt = false ->
  exhaust str_lower json_loads prompt server =
  ([JString redirect_message], Completed, ended NotAcquired).
Proof.
  intros Hoff. unfold exhaust.
  assert (Hb : exists n, budget server get_ollama_response_stream = S (S n))
    by (destruct server; eexists; reflexivity).
  destruct Hb as [n ->].
  assert (Hr : resume str_lower json_loads prompt server get_ollama_response_stream
               = Yield (JString redirect_message)
                       {| at_point := AtRedirect; conn := NotAcquired |})
    by (unfold resume; simpl; now rewrite Hoff).
  change (take str_lower json_loads prompt server (S (S n))
            get_ollama_response_stream)
    with (consume (take str_lower json_loads prompt server (S n))
            (resume str_lower json_loads prompt server get_ollama_response_stream)).
  rewrite Hr. reflexivity.
Qed.

Hypothesis on_topic : is_career_related_question_with str_lower prompt = true.

Lemma resume_not_started server :
  resume str_lower json_loads prompt server get_ollama_response_stream =
  except_Exception (try_block json_loads server).
Proof. unfold resume. simpl. now rewrite on_topic. Qed.

Lemma exhaust_unfold server :
  exhaust str_lower json_loads prompt server =
  consume (take str_lower json_loads prompt server
             (Nat.pred (budget server get_ollama_response_stream)))
          (except_Exception (try_block json_loads server)).
Proof.
  unfold exhaust. rewrite <- resume_not_started.
  destruct server; reflexivity.
Qed.

Lemma exhaust_streaming body :
  exhaust str_lower json_loads prompt (Response 200 body) =
  (fst (stream_of_body json_loads body), Completed,
   ended (snd (stream_of_body json_loads body))).
Proof.
  rewrite exhaust_unfold. cbn [try_block budget at_point get_ollama_response_stream].
  change (200 =? 200)%Z with true. cbv iota.
  apply consume_read_loop. simpl. lia.
Qed.

Lemma exhaust_status_error status body :
  status <> 200%Z ->
  exhaust str_lower json_loads prompt (Response status body) =
  ([JString (status_error status)], Completed, ended Released).
Proof.
  intros Hs. rewrite exhaust_unfold. unfold try_block.
  destruct (Z.eqb_spec status 200) as [| _]; [contradiction |].
  reflexivity.
Qed.

Lemma exhaust_request_raises msg :
  exhaust str_lower json_loads prompt (RequestRaises msg) =
  ([JString (connect_error msg)], Completed, ended Acquired).
Proof. rewrite exhaust_unfold. reflexivity. Qed.

(** The lines of a well-formed stream contribute their non-empty
    fragments, in order, and reading goes on after them. *)
Lemma stream_of_body_lines lines tail :
  Forall (stream_line json_loads) lines ->
  stream_of_body json_loads (map Line lines ++ tail) =
  (map JString (filter nonempty (fragments json_loads lines))
     ++ fst (stream_of_body json_loads tail),
   snd (stream_of_body json_loads tail)).
Proof.
  induction 1 as [| line lines Hline _ IH].
  - simpl. now destruct (stream_of_body json_loads tail).
  - unfold stream_line, fragment_of in Hline.
    cbn [map app stream_of_body fragments flat_map].
    unfold fragment_of at 1. fold (fragments json_loads lines).
    destruct (line =? "") eqn:Hempty; [congruence |].
    destruct (json_loads line) as [data | | msg]; try congruence.
    + destruct data; try congruence.
      destruct (dict_get_default "response" (JString "") members) as
        [| | | | text | |]; try congruence.
      cbn [truthy app filter]. unfold nonempty at 1.
      destruct (text =? ""); simpl; rewrite IH; reflexivity.
    + simpl. exact IH.
Qed.

(** A generator suspended after the request holds a connection on which
    [close] has not been called. *)
Lemma resume_yield_acquired server g chunk g' :
  resume str_lower json_loads prompt server g = Yield chunk g' ->
  at_point g = NotStarted \/ conn g = Acquired ->
  conn g' = Acquired.
Proof.
  assert (Hloop : forall body c g1,
    except_Exception (read_loop json_loads body) = Yield c g1 -> conn g1 = Acquired).
  { induction body as [| r rest IH]; intros c g1; simpl; [discriminate |].
    destruct r as [line | msg]; [| now intros [= _ <-]].
    destruct (line =? ""); [discriminate |].
    destruct (json_loads line) as [data | | msg]; [| apply IH | now intros [= _ <-]].
    destruct data; try (now intros [= _ <-]).
    destruct (truthy _); [now intros [= _ <-] | apply IH]. }
  unfold resume. destruct (at_point g) eqn:Hat; try discriminate.
  - rewrite on_topic. simpl. intros Hy _. destruct server as [msg | status body]; simpl in Hy.
    + now injection Hy as _ <-.
    + destruct (status =? 200)%Z; [eapply Hloop; eassumption |].
      now injection Hy as _ <-.
  - intros Hy _. eapply Hloop; eassumption.
Qed.

Lemma take_suspended_acquired server n g chunks g' :
  take str_lower json_loads prompt server n g = (chunks, Suspended, g') ->
  at_point g = NotStarted \/ conn g = Acquired ->
  g' = g \/ conn g' = Acquired.
Proof.
  revert g chunks. induction n as [| n IH]; intros g chunks; simpl.
  - intros [= _ <-] _. now left.
  - destruct (resume str_lower json_loads prompt server g) as [c g1 | g1 | m g1] eqn:Hr;
      simpl; try discriminate.
    destruct (take str_lower json_loads prompt server n g1) as [[cs e] g2] eqn:Ht.
    intros [= _ -> ->] Hg. right.
    pose proof (resume_yield_acquired _ _ _ _ Hr Hg) as Hc.
    destruct (IH _ _ Ht (or_intror Hc)) as [-> | H]; assumption.
Qed.

(** Abandonment: when the consumer stops after one chunk or more of a
    generator that is still suspended, [close] has not been called on the
    connection. *)
Lemma abandoned_connection_stays_acquired server n chunks g :
  take str_lower json_loads prompt server (S n) get_ollama_response_stream
    = (chunks, Suspended, g) ->
  conn (close g) = Acquired.
Proof.
  simpl. rewrite resume_not_started.
  destruct (except_Exception (try_block json_loads server)) as [c g1 | g1 | m g1] eqn:Hr;
    simpl; try discriminate.
  destruct (take str_lower json_loads prompt server n g1) as [[cs e] g2] eqn:Ht.
  intros [= _ -> ->].
  rewrite <- resume_not_started in Hr.
  pose proof (resume_yield_acquired _ _ _ _ Hr (or_introl eq_refl)) as Hc.
  destruct (take_suspended_acquired _ _ _ _ _ Ht (or_intror Hc)) as [-> | H];
    assumption.
Qed.

End RelayFacts.

Lemma concat_filter_nonempty (l : list string) :
  concat_str (filter nonempty l) = concat_str l.
Proof.
  induction l as [| s l IH]; simpl; [reflexivity |].
  unfold nonempty at 1. destruct (String.eqb_spec s "") as [-> | Hne]; simpl.
  - exact IH.
  - now rewrite IH.
Qed.

Lemma status_error_names_status (status : Z) :
  contains (str_of_int status) (status_error status) = true.
Proof.
  apply contains_spec. unfold status_error.
  exists "⚠️ Error: Received status code "%string, " from Ollama"%string.
  reflexivity.
Qed.

Lemma connect_error_names_failure (msg : string) :
  contains msg (connect_error msg) = true.
Proof.
  apply contains_spec. unfold connect_error.
  exists "⚠️ Could not connect to Ollama. Make sure it is running. Error: "%string,
    ""%string.
  now rewrite append_nil_r.
Qed.

Lemma career_prompt_passes : is_career_related_question_with lower career_prompt = true.
Proof. vm_compute. reflexivity. Qed.

(** C2: when the relay makes its request and the endpoint answers with a
    status other than 200, the consumer receives one chunk, the message
    naming the status, and the generator ends; when the request fails
    (refused connection, timeout) it receives one chunk, the message
    naming the failure, and the generator ends; when a read fails in the
    middle of a well-formed stream it receives the fragments read so far
    and then that one message; whatever the endpoint does, the iteration
    comes to its end, and no exception comes out of the generator. *)
Theorem failures_are_reported_in_band :
  forall (str_lower : string -> string) (json_loads : string -> loads_result)
         (prompt : string),
    is_career_related_question_with str_lower prompt = true ->
    (forall status body, status <> 200%Z ->
       exhaust str_lower json_loads prompt (Response status body) =
         ([JString (status_error status)], Completed, ended Released) /\
       contains (str_of_int status) (status_error status) = true) /\
    (forall msg,
       exhaust str_lower json_loads prompt (RequestRaises msg) =
         ([JString (connect_error msg)], Completed, ended Acquired) /\
       contains msg (connect_error msg) = true) /\
    (forall lines msg rest,
       Forall (stream_line json_loads) lines ->
       exhaust str_lower json_loads prompt
         (Response 200 (map Line lines ++ ReadRaises msg :: rest)) =
         (map JString (filter nonempty (fragments json_loads lines))
            ++ [JString (connect_error msg)],
          Completed, ended Acquired)) /\
    (forall server, exists chunks c,
       exhaust str_lower json_loads prompt server = (chunks, Completed, ended c)) /\
    (forall server n g msg,
       snd (fst (take str_lower json_loads prompt server n g)) <> Propagated msg).
Proof.
  intros str_lower json_loads prompt on_topic.
  split; [| split; [| split; [| split]]].
  - intros status body Hs. split.
    + now apply exhaust_status_error.
    + apply status_error_names_status.
  - intros msg. split.
    + now apply exhaust_request_raises.
    + apply connect_error_names_failure.
  - intros lines msg rest Hlines.
    rewrite (exhaust_streaming _ _ _ on_topic).
    rewrite (stream_of_body_lines json_loads lines _ Hlines). reflexivity.
  - intros [msg | status body].
    + eexists _, _. now apply exhaust_request_raises.
    + destruct (Z.eq_dec status 200) as [-> | Hs].
      * eexists _, _. now apply exhaust_streaming.
      * eexists _, _. now apply exhaust_status_error.
  - intros server n g msg. apply take_never_propagates.
Qed.

(** The statement of C2 for an answer with status 500. *)
Lemma failures_are_reported_in_band_witness :
  exhaust lower json_loads_ref career_prompt (Response 500 []) =
    ([JString (status_error 500)], Completed, ended Released) /\
  contains "500" (status_error 500) = true.
Proof.
  destruct (failures_are_reported_in_band lower json_loads_ref career_prompt
              career_prompt_passes) as (Hstatus & _).
  apply (Hstatus 500%Z []). discriminate.
Defined.

(** C7 (as amended): when the endpoint answers with status 200 and every
    line either is rejected by the decoder or decodes to a record with a
    [response] text, the consumer receives the non-empty fragments, one
    chunk each, in arrival order; rejected lines and empty fragments give
    no chunk and do not stop the stream; the generator then ends with the
    connection released, and the chunks concatenate to the concatenation
    of all fragments.  In particular the lines [{"response":"A"}] and
    [{"response":"B"}] give exactly the chunks "A" and "B". *)
Theorem fragments_are_relayed_in_order :
  (forall (str_lower : string -> string) (json_loads : string -> loads_result)
          (prompt : string) (lines : list string),
     is_career_related_question_with str_lower prompt = true ->
     Forall (stream_line json_loads) lines ->
     exhaust str_lower json_loads prompt (Response 200 (map Line lines)) =
       (map JString (filter nonempty (fragments json_loads lines)),
        Completed, ended Released) /\
     concat_str (filter nonempty (fragments json_loads lines)) =
       concat_str (fragments json_loads lines)) /\
  exhaust lower json_loads_ref career_prompt
    (Response 200 [Line line_A; Line line_B]) =
    ([JString "A"; JString "B"], Completed, ended Released) /\
  concat_str ["A"; "B"] = "AB"%string.
Proof.
  split; [| split; [vm_compute; reflexivity | reflexivity]].
  intros str_lower json_loads prompt lines on_topic Hlines. split.
  - rewrite (exhaust_streaming _ _ _ on_topic).
    rewrite <- (app_nil_r (map Line lines)).
    rewrite (stream_of_body_lines json_loads lines [] Hlines).
    simpl. now rewrite app_nil_r.
  - apply concat_filter_nonempty.
Qed.

(** The statement of C7 for a stream with a line that is not JSON between
    the two lines of the example. *)
Lemma fragments_are_relayed_in_order_witness :
  exhaust lower json_loads_ref career_prompt
    (Response 200 (map Line [line_A; "not json"%string; line_B])) =
    ([JString "A"; JString "B"], Completed, ended Released).
Proof.
  destruct fragments_are_relayed_in_order as (Hgeneral & _).
  destruct (Hgeneral lower json_loads_ref career_prompt
              [line_A; "not json"%string; line_B] career_prompt_passes)
    as (Hchunks & _).
  - repeat constructor; vm_compute; discriminate.
  - exact Hchunks.
Defined.

(** C7, counterexample: a line that decodes to a record with an empty
    [response] text gives no chunk.  Of the three lines below each is
    such a record, and two chunks are produced. *)
Lemma empty_fragment_gives_no_chunk :
  fragments json_loads_ref [line_A; line_empty; line_B] = ["A"; ""; "B"]%string /\
  exhaust lower json_loads_ref career_prompt
    (Response 200 [Line line_A; Line line_empty; Line line_B]) =
    ([JString "A"; JString "B"], Completed, ended Released) /\
  fst (fst (exhaust lower json_loads_ref career_prompt
              (Response 200 [Line line_A; Line line_empty; Line line_B]))) <>
    map JString (fragments json_loads_ref [line_A; line_empty; line_B]).
Proof.
  split; [| split]; vm_compute; [reflexivity | reflexivity | discriminate].
Qed.

(** On the paths that reach the end of the [try] block the connection is
    released. *)
Lemma connection_released_at_end_of_try :
  forall (str_lower : string -> string) (json_loads : string -> loads_result)
         (prompt : string),
    is_career_related_question_with str_lower prompt = true ->
    (forall lines, Forall (stream_line json_loads) lines ->
       conn (snd (exhaust str_lower json_loads prompt
                    (Response 200 (map Line lines)))) = Released) /\
    (forall status body, status <> 200%Z ->
       conn (snd (exhaust str_lower json_loads prompt
                    (Response status body))) = Released).
Proof.
  intros str_lower json_loads prompt on_topic. split.
  - intros lines Hlines. rewrite (exhaust_streaming _ _ _ on_topic).
    rewrite <- (app_nil_r (map Line lines)).
    now rewrite (stream_of_body_lines json_loads lines [] Hlines).
  - intros status body Hs. now rewrite (exhaust_status_error _ _ _ on_topic).
Qed.

(** C3: the connection is not released on every exit path.  When a read
    raises in the middle of the stream the generator yields its message
    and ends without a call of [conn.close()]; when the consumer abandons
    the generator after the first chunk, [conn.close()] is not called
    either. *)
Theorem connection_not_released_on_read_error_or_abandonment :
  exhaust lower json_loads_ref career_prompt
    (Response 200 [Line line_A; ReadRaises "timed out"]) =
    ([JString "A"; JString (connect_error "timed out")],
     Completed, ended Acquired) /\
  abandon_after lower json_loads_ref career_prompt
    (Response 200 [Line line_A; Line line_B]) 1 =
    ([JString "A"], ended Acquired).
Proof. split; vm_compute; reflexivity. Qed.

(* ------------------------------------------------------------------ *)
(** ** The extraction of the resume analysis *)
(* ------------------------------------------------------------------ *)

Lemma length_append (s1 s2 : string) :
  String.length (s1 ++ s2) = (String.length s1 + String.length s2)%nat.
Proof. induction s1 as [| c s1 IH]; simpl; [reflexivity | now rewrite IH]. Qed.

(** Two ways of cutting one text: the shorter first part is a prefix of
    the longer one. *)
Lemma append_eq_split (a b c d : string) :
  (a ++ b)%string = (c ++ d)%string ->
  (String.length a <= String.length c)%nat ->
  exists x, c = (a ++ x)%string /\ b = (x ++ d)%string.
Proof.
  revert c. induction a as [| ch a IH]; intros c Heq Hlen; simpl in *.
  - exists c. now split.
  - destruct c as [| ch' c]; simpl in *; [lia |].
    injection Heq as -> Heq.
    destruct (IH c Heq) as (x & -> & ->); [lia |].
    exists x. now split.
Qed.

Lemma split_at_sound (pat s pre post : string) :
  split_at pat s = Some (pre, post) -> s = (pre ++ pat ++ post)%string.
Proof.
  revert pre. induction s as [| c s IH]; intros pre; simpl.
  - destruct (drop_prefix pat "") as [r |] eqn:Hd; [| discriminate].
    intros [= <- <-]. now apply drop_prefix_spec in Hd.
  - destruct (drop_prefix pat (String c s)) as [r |] eqn:Hd.
    + intros [= <- <-]. now apply drop_prefix_spec in Hd.
    + destruct (split_at pat s) as [[pre' post'] |]; [| discriminate].
      intros [= <- <-]. simpl. f_equal. now apply IH.
Qed.

Lemma split_at_head (pat s rest : string) :
  drop_prefix pat s = Some rest -> split_at pat s = Some (""%string, rest).
Proof. intros H. destruct s; simpl; now rewrite H. Qed.

(** [split_at] finds the pattern when it occurs, and the occurrence it
    returns is the first one. *)
Lemma split_at_first (pat pre post : string) :
  exists pre' post',
    split_at pat (pre ++ pat ++ post) = Some (pre', post') /\
    (String.length pre' <= String.length pre)%nat.
Proof.
  induction pre as [| c pre IH].
  - exists ""%string, post. split; [| simpl; lia].
    assert (Hd : drop_prefix pat (pat ++ post) = Some post)
      by now apply drop_prefix_spec.
    rewrite split_at_head with (rest := post); [reflexivity | exact Hd].
  - destruct IH as (pre' & post' & Hs & Hlen).
    cbn [String.append split_at].
    destruct (drop_prefix pat (String c (pre ++ pat ++ post))) as [r |].
    + exists ""%string, r. split; [reflexivity | simpl; lia].
    + rewrite Hs. exists (String c pre'), post'.
      split; [reflexivity | simpl; lia].
Qed.

Lemma split_at_minimal (pat s pre post pre2 post2 : string) :
  split_at pat s = Some (pre, post) ->
  s = (pre2 ++ pat ++ post2)%string ->
  (String.length pre <= String.length pre2)%nat.
Proof.
  intros Hs ->. destruct (split_at_first pat pre2 post2) as (p & q & Hs' & Hlen).
  rewrite Hs in Hs'. now injection Hs' as -> _.
Qed.

Lemma append_same_length (a b c d : string) :
  (a ++ b)%string = (c ++ d)%string -> String.length a = String.length c ->
  a = c /\ b = d.
Proof.
  revert c. induction a as [| x a IH]; intros [| y c]; simpl; try discriminate.
  - now intros ->.
  - intros [= -> Heq] [= Hlen]. destruct (IH c Heq Hlen) as [-> ->]. now split.
Qed.

(** The block found is the first one of the text, and its contents end
    at the first closing fence. *)
Lemma search_json_block_first (text group : string) :
  search_json_block text = Some group ->
  exists pre post,
    text = (pre ++ "```json" ++ group ++ "```" ++ post)%string /\
    forall pre2 group2 post2,
      text = (pre2 ++ "```json" ++ group2 ++ "```" ++ post2)%string ->
      (String.length pre <= String.length pre2)%nat /\
      (String.length pre2 = String.length pre ->
       (String.length group <= String.length group2)%nat).
Proof.
  unfold search_json_block.
  destruct (split_at "```json" text) as [[pre rest] |] eqn:Hopen; [| discriminate].
  destruct (split_at "```" rest) as [[body post] |] eqn:Hclose; [| discriminate].
  intros [= ->]. exists pre, post.
  pose proof (split_at_sound _ _ _ _ Hopen) as Htext.
  pose proof (split_at_sound _ _ _ _ Hclose) as Hrest.
  split; [now subst |].
  intros pre2 group2 post2 Heq. split.
  - exact (split_at_minimal _ _ _ _ _ _ Hopen Heq).
  - intros Hlen. rewrite Htext in Heq.
    apply append_same_length in Heq as [_ Heq]; [| now symmetry].
    apply append_same_length in Heq as [_ Heq]; [| reflexivity].
    exact (split_at_minimal _ _ _ _ _ _ Hclose Heq).
Qed.

Lemma search_json_block_sound (text group : string) :
  search_json_block text = Some group ->
  exists pre post, text = (pre ++ "```json" ++ group ++ "```" ++ post)%string.
Proof.
  unfold search_json_block.
  destruct (split_at "```json" text) as [[pre rest] |] eqn:Hopen; [| discriminate].
  destruct (split_at "```" rest) as [[body post] |] eqn:Hclose; [| discriminate].
  intros [= ->]. exists pre, post.
  apply split_at_sound in Hopen, Hclose. now subst.
Qed.

Lemma search_json_block_complete (pre group post : string) :
  search_json_block (pre ++ "```json" ++ group ++ "```" ++ post) <> None.
Proof.
  unfold search_json_block.
  destruct (split_at_first "```json" pre (group ++ "```" ++ post))
    as (pre' & rest & Hs & Hlen).
  rewrite Hs. pose proof (split_at_sound _ _ _ _ Hs) as Heq.
  assert (Heq' : ((pre' ++ "```json") ++ rest)%string =
                 ((pre ++ "```json") ++ group ++ "```" ++ post)%string)
    by (rewrite !append_assoc; now symmetry).
  apply append_eq_split in Heq' as (x & _ & ->).
  - destruct (split_at_first "```" (x ++ group) post) as (b & p & Hc & _).
    rewrite append_assoc in Hc. rewrite Hc. discriminate.
  - rewrite !length_append. simpl. lia.
Qed.

Lemma find_char_lower_bound c s : (-1 <= find_char c s)%Z.
Proof.
  induction s as [| a s IH]; simpl; [lia |].
  destruct (Ascii.eqb a c); [lia |].
  destruct (Z.eqb_spec (find_char c s) (-1)); lia.
Qed.

Lemma find_char_absent c s : ~ occurs c s -> find_char c s = (-1)%Z.
Proof.
  induction s as [| a s IH]; simpl; intros Hn; [reflexivity |].
  destruct (Ascii.eqb_spec a c) as [-> | _]; [exfalso; apply Hn; now left |].
  rewrite IH by (intros H; apply Hn; now right). reflexivity.
Qed.

Lemma rfind_char_absent c s : ~ occurs c s -> rfind_char c s = (-1)%Z.
Proof.
  induction s as [| a s IH]; simpl; intros Hn; [reflexivity |].
  rewrite IH by (intros H; apply Hn; now right). simpl.
  destruct (Ascii.eqb_spec a c) as [-> | _]; [exfalso; apply Hn; now left |].
  reflexivity.
Qed.

Lemma find_char_first c pre rest :
  ~ occurs c pre ->
  find_char c (pre ++ String c rest) = Z.of_nat (String.length pre).
Proof.
  induction pre as [| a pre IH]; intros Hn.
  - simpl. now rewrite Ascii.eqb_refl.
  - cbn [String.append find_char String.length].
    destruct (Ascii.eqb_spec a c) as [-> | _]; [exfalso; apply Hn; now left |].
    rewrite IH by (intros H; apply Hn; now right).
    destruct (Z.eqb_spec (Z.of_nat (String.length pre)) (-1)); lia.
Qed.

Lemma rfind_char_last c s post :
  ~ occurs c post ->
  rfind_char c (s ++ String c post) = Z.of_nat (String.length s).
Proof.
  intros Hn. induction s as [| a s IH].
  - simpl. rewrite (rfind_char_absent _ _ Hn). simpl.
    now rewrite Ascii.eqb_refl.
  - cbn [String.append rfind_char String.length]. rewrite IH.
    destruct (Z.eqb_spec (Z.of_nat (String.length s)) (-1)); lia.
Qed.

Lemma skip_chars_app (pre rest : string) :
  skip_chars (String.length pre) (pre ++ rest) = rest.
Proof. induction pre as [| a pre IH]; simpl; [now destruct rest | exact IH]. Qed.

Lemma take_chars_app (x rest : string) :
  take_chars (String.length x) (x ++ rest) = x.
Proof. induction x as [| a x IH]; simpl; [reflexivity | now rewrite IH]. Qed.

Lemma slice_middle (pre x post : string) :
  slice (pre ++ x ++ post)
        (Z.of_nat (String.length pre))
        (Z.of_nat (String.length pre) + Z.of_nat (String.length x)) = x.
Proof.
  unfold slice. rewrite Nat2Z.id, skip_chars_app.
  replace (Z.to_nat _) with (String.length x) by lia.
  apply take_chars_app.
Qed.

(** Without a fenced block, the payload is the span from the first "{" to
    the last "}". *)
Lemma find_json_text_braces (pre mid post : string) :
  search_json_block (pre ++ "{" ++ mid ++ "}" ++ post) = None ->
  ~ occurs "{" pre -> ~ occurs "}" post ->
  find_json_text (pre ++ "{" ++ mid ++ "}" ++ post) =
  Some ("{" ++ mid ++ "}")%string.
Proof.
  intros Hnone Hpre Hpost. unfold find_json_text. rewrite Hnone.
  change ("{" ++ mid ++ "}" ++ post)%string
    with (String "{" (mid ++ String "}" post)).
  rewrite (find_char_first _ _ _ Hpre).
  replace (pre ++ String "{" (mid ++ String "}" post))%string
    with ((pre ++ String "{" mid) ++ String "}" post)%string
    by (now rewrite append_assoc).
  rewrite (rfind_char_last _ _ _ Hpost).
  replace ((pre ++ String "{" mid) ++ String "}" post)%string
    with (pre ++ ("{" ++ mid ++ "}") ++ post)%string
    by (simpl; now rewrite !append_assoc).
  destruct (Z.eqb_spec (Z.of_nat (String.length pre)) (-1)); [lia |].
  destruct (Z.eqb_spec (Z.of_nat (String.length (pre ++ String "{" mid)) + 1) (-1));
    [lia |].
  cbn [negb andb]. f_equal.
  replace (Z.of_nat (String.length (pre ++ String "{" mid)) + 1)%Z
    with (Z.of_nat (String.length pre)
          + Z.of_nat (String.length ("{" ++ mid ++ "}")))%Z.
  - apply slice_middle.
  - rewrite !length_append. cbn [String.length]. lia.
Qed.

Lemma find_json_text_no_brace (text : string) :
  search_json_block text = None -> ~ occurs "{" text ->
  find_json_text text = None.
Proof.
  intros Hnone Hn. unfold find_json_text.
  now rewrite Hnone, (find_char_absent _ _ Hn).
Qed.

Lemma find_json_text_no_closing_brace (text : string) :
  search_json_block text = None -> occurs "{" text -> ~ occurs "}" text ->
  find_json_text text = Some ""%string.
Proof.
  intros Hnone Hopen Hn. unfold find_json_text.
  rewrite Hnone, (rfind_char_absent _ _ Hn).
  pose proof (find_char_lower_bound "{" text) as Hlb.
  destruct (Z.eqb_spec (find_char "{" text) (-1)) as [Habs | Hne].
  - exfalso. revert Habs Hopen. clear. induction text as [| a t IH]; simpl.
    + tauto.
    + destruct (Ascii.eqb_spec a "{") as [-> | Hne]; [discriminate |].
      destruct (Z.eqb_spec (find_char "{" t) (-1)) as [He | He].
      * intros _ [H | H]; [contradiction | now apply IH].
      * pose proof (find_char_lower_bound "{" t). lia.
  - simpl. f_equal. unfold slice.
    replace (Z.to_nat (0 - find_char "{" text)) with 0%nat by lia.
    reflexivity.
Qed.

Lemma extract_analysis_payload json_loads text payload :
  find_json_text text = Some payload ->
  extract_analysis json_loads text = parsed_or_fallback json_loads payload.
Proof.
  intros H. unfold extract_analysis, parsed_or_fallback. rewrite H.
  now destruct (json_loads payload).
Qed.

(** [lstrip_with] has fuel enough: what it returns starts with none of
    the strings it removes. *)
Lemma drop_any_shorter (spaces : list string) (s r : string) :
  forallb (fun p => negb (p =? "")) spaces = true ->
  drop_any spaces s = Some r ->
  (String.length r < String.length s)%nat.
Proof.
  induction spaces as [| p spaces IH]; simpl; [discriminate |].
  rewrite andb_true_iff. intros [Hp Hall].
  destruct (drop_prefix p s) as [r' |] eqn:Hd.
  - intros [= ->]. apply drop_prefix_spec in Hd as ->.
    rewrite length_append. destruct p; [discriminate | simpl; lia].
  - now apply IH.
Qed.

Lemma lstrip_with_done (spaces : list string) (fuel : nat) (s : string) :
  forallb (fun p => negb (p =? "")) spaces = true ->
  (String.length s <= fuel)%nat ->
  drop_any spaces (lstrip_with spaces fuel s) = None.
Proof.
  intros Hall. revert s. induction fuel as [| fuel IH]; intros s Hlen; simpl.
  - destruct s; [| simpl in Hlen; lia].
    destruct (drop_any spaces "") as [r |] eqn:Hd; [| reflexivity].
    apply (drop_any_shorter _ _ _ Hall) in Hd. simpl in Hd. lia.
  - destruct (drop_any spaces s) as [r |] eqn:Hd; [| exact Hd].
    apply IH. apply (drop_any_shorter _ _ _ Hall) in Hd. lia.
Qed.

Lemma lstrip_done (s : string) : drop_any whitespace (lstrip s) = None.
Proof. apply lstrip_with_done; [vm_compute; reflexivity | lia]. Qed.

(** Where the payload is taken from, and what is returned when it does
    not decode.  The extractor first looks for a block fenced with
    [```json] (the
    first one of the text, up to the first closing fence) and reads its
    stripped contents; only when the text has no such block it
    takes the span from the first "{" to the last "}"; when the payload
    chosen cannot be decoded, or no payload is found, it returns the
    fallback record, whose [overall_score] is 50.  In particular the text
    [prefix ```json {"overall_score": 80} ``` suffix] gives a record with
    [overall_score] 80, and a text without braces and without a fenced
    block gives the fallback record. *)
Theorem analysis_is_extracted_or_fallback :
  (forall (json_loads : string -> loads_result) (text : string),
     (forall group,
        search_json_block text = Some group ->
        (exists pre post,
           text = (pre ++ "```json" ++ group ++ "```" ++ post)%string /\
           forall pre2 group2 post2,
             text = (pre2 ++ "```json" ++ group2 ++ "```" ++ post2)%string ->
             (String.length pre <= String.length pre2)%nat /\
             (String.length pre2 = String.length pre ->
              (String.length group <= String.length group2)%nat)) /\
        extract_analysis json_loads text =
          parsed_or_fallback json_loads (strip group)) /\
     (search_json_block text = None ->
        (forall pre group post,
           text <> (pre ++ "```json" ++ group ++ "```" ++ post)%string) /\
        (forall pre mid post,
           text = (pre ++ "{" ++ mid ++ "}" ++ post)%string ->
           ~ occurs "{" pre -> ~ occurs "}" post ->
           extract_analysis json_loads text =
             parsed_or_fallback json_loads ("{" ++ mid ++ "}")) /\
        (~ occurs "{" text ->
           extract_analysis json_loads text = fallback_analysis) /\
        (occurs "{" text -> ~ occurs "}" text ->
           extract_analysis json_loads text = parsed_or_fallback json_loads "")) /\
     (forall payload,
        (forall analysis, json_loads payload <> Loaded analysis) ->
        parsed_or_fallback json_loads payload = fallback_analysis) /\
     (extract_analysis json_loads text = fallback_analysis \/
      exists payload,
        find_json_text text = Some payload /\
        json_loads payload = Loaded (extract_analysis json_loads text))) /\
  overall_score fallback_analysis = Some (JInt 50) /\
  extract_analysis json_loads_ref fenced_example =
    JObject [("overall_score"%string, JInt 80)] /\
  overall_score (extract_analysis json_loads_ref fenced_example) = Some (JInt 80) /\
  extract_analysis json_loads_ref "The resume looks fine to me." = fallback_analysis.
Proof.
  split; [| repeat split; vm_compute; reflexivity].
  intros json_loads text. split; [| split; [| split]].
  - intros group Hsearch. split; [now apply search_json_block_first |].
    apply extract_analysis_payload. unfold find_json_text. now rewrite Hsearch.
  - intros Hnone. split; [| split; [| split]].
    + intros pre group post ->. revert Hnone. apply search_json_block_complete.
    + intros pre mid post -> Hpre Hpost.
      apply extract_analysis_payload. now apply find_json_text_braces.
    + intros Hn. unfold extract_analysis.
      now rewrite (find_json_text_no_brace text Hnone Hn).
    + intros Hopen Hn. apply extract_analysis_payload.
      now apply find_json_text_no_closing_brace.
  - intros payload Hfail. unfold parsed_or_fallback.
    destruct (json_loads payload) as [analysis | |] eqn:Hload;
      [now destruct (Hfail analysis) | reflexivity | reflexivity].
  - unfold extract_analysis.
    destruct (find_json_text text) as [payload |]; [| now left].
    destruct (json_loads payload) as [analysis | |] eqn:Hload;
      [| now left | now left].
    right. exists payload. now split.
Qed.

(** A text without a fenced block: the payload is the span between the
    braces. *)
Lemma analysis_is_extracted_or_fallback_witness :
  extract_analysis json_loads_ref braces_example =
  parsed_or_fallback json_loads_ref (qq "{'overall_score': 70}").
Proof.
  destruct analysis_is_extracted_or_fallback as (Hgeneral & _).
  destruct (Hgeneral json_loads_ref braces_example) as (_ & Hscan & _ & _).
  destruct Hscan as (_ & Hbraces & _); [vm_compute; reflexivity |].
  apply (Hbraces "Here it is: "%string (qq "'overall_score': 70")
                 " I hope it helps."%string).
  - reflexivity.
  - simpl. intuition discriminate.
  - simpl. intuition discriminate.
Defined.

(** The whole function on the body of an answer of the endpoint. *)
Example analyze_resume_example :
  analyze_resume json_loads_ref
    (ReplyBody (qq "{'model':'m','response':'```json\n{\'overall_score\': 80}\n```','done':true}"))
  = JObject [("overall_score"%string, JInt 80)] /\
  analyze_resume json_loads_ref (ReplyRaises "timed out") = fallback_analysis /\
  analyze_resume json_loads_ref (ReplyBody "<html>Bad Gateway</html>") = fallback_analysis.
Proof. repeat split; vm_compute; reflexivity. Qed.

(** What a fenced block decodes to is what the extractor returns, be it a
    record or not: between [json.loads] and [return analysis] nothing
    tests the value. *)
Lemma decoded_block_is_returned
  (json_loads : string -> loads_result) (text group : string) (value : json) :
  search_json_block text = Some group ->
  json_loads (strip group) = Loaded value ->
  extract_analysis json_loads text = value.
Proof.
  intros Hsearch Hload. unfold extract_analysis, find_json_text.
  now rewrite Hsearch, Hload.
Qed.

(** C8: the extractor on a text whose fenced block holds JSON that is not
    a record.  For such a block neither path yields a record, and the
    fallback record should be returned; the code returns the decoded value
    instead: the number 5 for the block [```json 5 ```], [None] for
    [```json null ```] and a list for [```json [1, 2] ```].  The value is
    not a record, is not the fallback record and has no [overall_score];
    [analyze_resume] hands it to its caller unchanged.  A block that does
    not decode at all gives the fallback record, which is a record. *)
Theorem non_record_payload_is_returned :
  extract_analysis json_loads_ref number_block_example = JInt 5 /\
  extract_analysis json_loads_ref null_block_example = JNull /\
  extract_analysis json_loads_ref list_block_example = JArray [JInt 1; JInt 2] /\
  Forall
    (fun text =>
       is_record (extract_analysis json_loads_ref text) = false /\
       extract_analysis json_loads_ref text <> fallback_analysis /\
       overall_score (extract_analysis json_loads_ref text) = None)
    [number_block_example; null_block_example; list_block_example] /\
  analyze_resume json_loads_ref (ReplyBody number_block_body) = JInt 5 /\
  extract_analysis json_loads_ref word_block_example = fallback_analysis /\
  is_record fallback_analysis = true /\
  overall_score fallback_analysis = Some (JInt 50).
Proof.
  assert (Hnumber : extract_analysis json_loads_ref number_block_example = JInt 5).
  { apply (decoded_block_is_returned _ _ " 5 "%string); vm_compute; reflexivity. }
  assert (Hnull : extract_analysis json_loads_ref null_block_example = JNull).
  { apply (decoded_block_is_returned _ _ " null "%string); vm_compute; reflexivity. }
  assert (Hlist : extract_analysis json_loads_ref list_block_example =
                  JArray [JInt 1; JInt 2]).
  { apply (decoded_block_is_returned _ _ " [1, 2] "%string);
      vm_compute; reflexivity. }
  split; [exact Hnumber |]. split; [exact Hnull |]. split; [exact Hlist |].
  split.
  { repeat constructor; rewrite ?Hnumber, ?Hnull, ?Hlist;
      try reflexivity; discriminate. }
  split.
  { unfold analyze_resume.
    replace (json_loads_ref number_block_body) with
      (Loaded (JObject [("model"%string, JString "m");
                        ("response"%string, JString number_block_example);
                        ("done"%string, JBool true)]))
      by (vm_compute; reflexivity).
    exact Hnumber. }
  repeat split; vm_compute; reflexivity.
Qed.

(* ================================================================== *)
(** * Part III: further properties of the code *)
(* ================================================================== *)

(* ------------------------------------------------------------------ *)
(** ** Dictionaries: lookup after assignment and deletion *)
(* ------------------------------------------------------------------ *)

Lemma dict_get_set_same {V : Type} (k : string) (v : V) (d : dict V) :
  dict_get k (dict_set k v d) = Some v.
Proof.
  induction d as [| [k' v'] d IH]; simpl.
  - now rewrite String.eqb_refl.
  - destruct (String.eqb_spec k' k) as [-> | Hne]; simpl.
    + now rewrite String.eqb_refl.
    + destruct (String.eqb_spec k' k); [contradiction | exact IH].
Qed.

Lemma dict_get_set_other {V : Type} (k k' : string) (v : V) (d : dict V) :
  k' <> k -> dict_get k' (dict_set k v d) = dict_get k' d.
Proof.
  intros Hne. induction d as [| [k0 v0] d IH]; simpl.
  - destruct (String.eqb_spec k k'); [congruence | reflexivity].
  - destruct (String.eqb_spec k0 k) as [-> | Hk0]; simpl.
    + destruct (String.eqb_spec k k'); [congruence | reflexivity].
    + destruct (String.eqb_spec k0 k'); [reflexivity | exact IH].
Qed.

Lemma dict_get_del_same {V : Type} (k : string) (d : dict V) :
  dict_get k (dict_del k d) = None.
Proof.
  induction d as [| [k' v'] d IH]; simpl; [reflexivity |].
  destruct (String.eqb_spec k' k) as [-> | Hne]; [exact IH |].
  simpl. destruct (String.eqb_spec k' k); [contradiction | exact IH].
Qed.

Lemma dict_get_del_other {V : Type} (k k' : string) (d : dict V) :
  k' <> k -> dict_get k' (dict_del k d) = dict_get k' d.
Proof.
  intros Hne. induction d as [| [k0 v0] d IH]; simpl; [reflexivity |].
  destruct (String.eqb_spec k0 k) as [-> | Hk0]; simpl.
  - destruct (String.eqb_spec k k'); [congruence | exact IH].
  - destruct (String.eqb_spec k0 k'); [reflexivity | exact IH].
Qed.

Lemma dict_get_None_keys {V : Type} (k : string) (d : dict V) :
  dict_get k d = None <-> ~ In k (keys d).
Proof.
  induction d as [| [k' v'] d IH]; simpl; [tauto |].
  destruct (String.eqb_spec k' k) as [-> | Hne].
  - split; [discriminate | intros H; exfalso; apply H; now left].
  - rewrite IH. tauto.
Qed.

Lemma dict_del_absent {V : Type} (k : string) (d : dict V) :
  dict_get k d = None -> dict_del k d = d.
Proof.
  induction d as [| [k' v'] d IH]; simpl; [reflexivity |].
  destruct (String.eqb_spec k' k) as [-> | Hne]; [discriminate |].
  intros H. now rewrite IH.
Qed.

(** Assigning to a new key and deleting it again gives the dictionary
    back. *)
Lemma dict_del_set_absent {V : Type} (k : string) (v : V) (d : dict V) :
  dict_get k d = None -> dict_del k (dict_set k v d) = d.
Proof.
  induction d as [| [k' v'] d IH]; simpl.
  - now rewrite String.eqb_refl.
  - destruct (String.eqb_spec k' k) as [-> | Hne]; [discriminate |].
    intros H. simpl. destruct (String.eqb_spec k' k); [contradiction |].
    now rewrite IH.
Qed.

Lemma dict_mem_true {V : Type} (k : string) (d : dict V) :
  dict_mem k d = true <-> exists v, dict_get k d = Some v.
Proof.
  unfold dict_mem. destruct (dict_get k d) as [v |].
  - split; [intros _; now exists v | reflexivity].
  - split; [discriminate | intros [v H]; discriminate].
Qed.

Lemma dict_mem_false {V : Type} (k : string) (d : dict V) :
  dict_mem k d = false <-> dict_get k d = None.
Proof.
  unfold dict_mem. destruct (dict_get k d); split; congruence.
Qed.

(* ------------------------------------------------------------------ *)
(** ** The chat history *)
(* ------------------------------------------------------------------ *)

(** X1: [rename_chat] succeeds exactly when the old name is an active
    chat and the new name is not; it then stores the same conversation
    under the new name, removes the old name, and leaves every other
    active chat, the archive and the current conversation as they were;
    when it fails the session is unchanged. *)
Theorem rename_chat_effect :
  forall (old_name new_name : string) (s : Session),
    (fst (rename_chat old_name new_name s) = true <->
     dict_mem old_name (chat_history s) = true /\
     dict_mem new_name (chat_history s) = false) /\
    (fst (rename_chat old_name new_name s) = false ->
     snd (rename_chat old_name new_name s) = s) /\
    (fst (rename_chat old_name new_name s) = true ->
     let s' := snd (rename_chat old_name new_name s) in
     dict_get new_name (chat_history s') = dict_get old_name (chat_history s) /\
     dict_get old_name (chat_history s') = None /\
     (forall name, name <> old_name -> name <> new_name ->
        dict_get name (chat_history s') = dict_get name (chat_history s)) /\
     archived_chats s' = archived_chats s /\
     messages s' = messages s /\
     heap s' = heap s /\
     current_chat_name s' =
       (if is_current s old_name then Some new_name else current_chat_name s)).
Proof.
  intros old_name new_name s. unfold rename_chat, dict_mem.
  destruct (dict_get old_name (chat_history s)) as [chat |] eqn:Hold.
  - destruct (dict_get new_name (chat_history s)) as [other |] eqn:Hnew; simpl.
    + split; [| split]; [split | reflexivity | discriminate];
        [discriminate | intros [_ H]; discriminate].
    + split; [| split]; [tauto | discriminate |].
      intros _.
      assert (Hne : old_name <> new_name) by congruence.
      repeat split.
      * rewrite dict_get_del_other by congruence. apply dict_get_set_same.
      * apply dict_get_del_same.
      * intros name H1 H2.
        rewrite dict_get_del_other by assumption.
        now apply dict_get_set_other.
  - simpl. split; [| split]; [split | reflexivity | discriminate];
      [discriminate | intros [H _]; discriminate].
Qed.

(** X2: archiving an active chat whose name is not in the archive and
    restoring it gives every active name its conversation back and the
    archive as it was; the current conversation is not touched. *)
Theorem archive_then_restore :
  forall (chat_name : string) (s : Session),
    dict_mem chat_name (chat_history s) = true ->
    dict_mem chat_name (archived_chats s) = false ->
    let s1 := snd (archive_chat chat_name s) in
    let s2 := snd (restore_chat chat_name s1) in
    fst (archive_chat chat_name s) = true /\
    dict_get chat_name (chat_history s1) = None /\
    dict_get chat_name (archived_chats s1) = dict_get chat_name (chat_history s) /\
    fst (restore_chat chat_name s1) = true /\
    (forall name, dict_get name (chat_history s2) = dict_get name (chat_history s)) /\
    archived_chats s2 = archived_chats s /\
    messages s2 = messages s /\
    heap s2 = heap s.
Proof.
  intros chat_name s Hin Hout.
  apply dict_mem_true in Hin as [chat Hchat].
  apply dict_mem_false in Hout.
  assert (Harchive : archive_chat chat_name s =
    (true,
     {| heap := heap s;
        messages := messages s;
        chat_history := dict_del chat_name (chat_history s);
        archived_chats := dict_set chat_name chat (archived_chats s);
        current_chat_name :=
          if is_current s chat_name then None else current_chat_name s;
        editing_message_index := editing_message_index s |}))
    by (unfold archive_chat; now rewrite Hchat).
  rewrite Harchive. cbn [fst snd].
  unfold restore_chat. cbn [archived_chats chat_history heap messages].
  rewrite dict_get_set_same.
  cbn [fst snd archived_chats chat_history heap messages].
  split; [reflexivity |].
  split; [apply dict_get_del_same |].
  split; [now rewrite Hchat |].
  split; [reflexivity |].
  split; [| split; [now apply dict_del_set_absent | split; reflexivity]].
  intros name. destruct (String.eqb_spec name chat_name) as [-> | Hne].
  - now rewrite dict_get_set_same.
  - rewrite dict_get_set_other by assumption.
    now apply dict_get_del_other.
Qed.

(** The statement of X2 on the sample session. *)
Lemma archive_then_restore_witness :
  dict_get "Career_Chat_10-00-00"
    (chat_history
       (snd (restore_chat "Career_Chat_10-00-00"
               (snd (archive_chat "Career_Chat_10-00-00" sample_session)))))
  = Some [0; 1]%nat /\
  archived_chats
    (snd (restore_chat "Career_Chat_10-00-00"
            (snd (archive_chat "Career_Chat_10-00-00" sample_session))))
  = archived_chats sample_session.
Proof.
  destruct (archive_then_restore "Career_Chat_10-00-00" sample_session)
    as (_ & _ & _ & _ & Hget & Harch & _); [reflexivity | reflexivity |].
  split; [apply Hget | exact Harch].
Defined.

(** X3: [rename_chat] does not look at the archive.  Renaming an active
    chat to the name of an archived chat succeeds, and restoring that
    archived chat afterwards replaces the renamed conversation: it is
    then stored under no name. *)
Theorem restore_replaces_renamed_chat :
  forall (old_name new_name : string) (s : Session) (chat archived : list nat),
    dict_get old_name (chat_history s) = Some chat ->
    dict_get new_name (chat_history s) = None ->
    dict_get new_name (archived_chats s) = Some archived ->
    let s1 := snd (rename_chat old_name new_name s) in
    let s2 := snd (restore_chat new_name s1) in
    fst (rename_chat old_name new_name s) = true /\
    dict_get new_name (chat_history s1) = Some chat /\
    fst (restore_chat new_name s1) = true /\
    dict_get new_name (chat_history s2) = Some archived /\
    dict_get old_name (chat_history s2) = None /\
    dict_get new_name (archived_chats s2) = None /\
    dict_get old_name (archived_chats s2) = dict_get old_name (archived_chats s).
Proof.
  intros old_name new_name s chat archived Hold Hnew Harch.
  assert (Hne : old_name <> new_name) by congruence.
  assert (Hrename : rename_chat old_name new_name s =
    (true,
     {| heap := heap s;
        messages := messages s;
        chat_history :=
          dict_del old_name (dict_set new_name chat (chat_history s));
        archived_chats := archived_chats s;
        current_chat_name :=
          if is_current s old_name then Some new_name else current_chat_name s;
        editing_message_index := editing_message_index s |})).
  { unfold rename_chat, dict_mem. now rewrite Hold, Hnew. }
  rewrite Hrename. cbn [fst snd].
  unfold restore_chat. cbn [archived_chats chat_history heap messages].
  rewrite Harch. cbn [fst snd archived_chats chat_history].
  split; [reflexivity |].
  split; [rewrite dict_get_del_other by congruence; apply dict_get_set_same |].
  split; [reflexivity |].
  split; [apply dict_get_set_same |].
  split.
  { rewrite dict_get_set_other by assumption. apply dict_get_del_same. }
  split; [apply dict_get_del_same |].
  now apply dict_get_del_other.
Qed.

(** The statement of X3 on the sample session: the saved chat is renamed
    to "Plans", the name of the archived chat. *)
Lemma restore_replaces_renamed_chat_witness :
  dict_get "Plans"
    (chat_history
       (snd (restore_chat "Plans"
               (snd (rename_chat "Career_Chat_10-00-00" "Plans" sample_session)))))
  = Some [2]%nat.
Proof.
  apply (restore_replaces_renamed_chat "Career_Chat_10-00-00" "Plans"
           sample_session [0; 1]%nat [2]%nat); reflexivity.
Defined.

(** X4: starting a new chat saves a non-empty conversation under
    "Career_Chat_<time>", replacing a chat saved under that name, and
    loading that name brings the conversation back; with an empty
    conversation nothing is saved and the session is unchanged. *)
Theorem new_chat_then_load :
  forall (timestamp : string) (s : Session),
    (messages s = [] ->
     save_current_chat timestamp s = (None, s)) /\
    (messages s <> [] ->
     let name := ("Career_Chat_" ++ timestamp)%string in
     let s1 := new_chat timestamp s in
     let s2 := load_chat name s1 in
     fst (save_current_chat timestamp s) = Some name /\
     messages s1 = [] /\
     current_chat_name s1 = None /\
     dict_get name (chat_history s1) = Some (messages s) /\
     (forall other, other <> name ->
        dict_get other (chat_history s1) = dict_get other (chat_history s)) /\
     messages s2 = messages s /\
     heap s2 = heap s /\
     current_chat_name s2 = Some name).
Proof.
  intros timestamp s. split.
  - intros Hempty. unfold save_current_chat. now rewrite Hempty.
  - intros Hne. unfold new_chat, load_chat, save_current_chat.
    destruct (messages s) as [| address rest] eqn:Hm; [contradiction |].
    cbn [fst snd heap messages chat_history archived_chats current_chat_name].
    split; [reflexivity |]. split; [reflexivity |]. split; [reflexivity |].
    split; [apply dict_get_set_same |].
    split; [intros other Hother; now apply dict_get_set_other |].
    split; [| split; reflexivity].
    unfold dict_get_default. now rewrite dict_get_set_same.
Qed.

(** The statement of X4 on the sample session. *)
Lemma new_chat_then_load_witness :
  messages (load_chat "Career_Chat_11-30-00"
              (new_chat "11-30-00" sample_session)) = [0; 1]%nat.
Proof.
  destruct (new_chat_then_load "11-30-00" sample_session) as (_ & Hsaved).
  destruct Hsaved as (_ & _ & _ & _ & _ & Hload & _); [discriminate |].
  exact Hload.
Defined.

Lemma set_content_length address text h :
  List.length (set_content address text h) = List.length h.
Proof.
  revert address. induction h as [| msg h IH]; intros [| n]; simpl;
    try reflexivity. now rewrite IH.
Qed.

Lemma set_content_same address text h msg :
  nth_error h address = Some msg ->
  nth_error (set_content address text h) address =
  Some {| role := role msg; content := text |}.
Proof.
  revert address. induction h as [| m h IH]; intros [| n]; simpl;
    try discriminate.
  - now intros [= ->].
  - apply IH.
Qed.

Lemma set_content_other address address' text h :
  address' <> address ->
  nth_error (set_content address text h) address' = nth_error h address'.
Proof.
  revert address address'.
  induction h as [| m h IH]; intros [| n] [| n'] Hne; simpl;
    try reflexivity; try congruence.
  apply IH. congruence.
Qed.

Lemma set_content_roles address text h :
  map role (set_content address text h) = map role h.
Proof.
  revert address. induction h as [| m h IH]; intros [| n]; simpl;
    try reflexivity. now rewrite IH.
Qed.

Lemma user_message_at_spec s i address msg :
  user_message_at s i = Some (address, msg) ->
  nth_error (messages s) i = Some address /\
  nth_error (heap s) address = Some msg /\
  role msg = "user"%string.
Proof.
  unfold user_message_at.
  destruct (nth_error (messages s) i) as [a |]; [| discriminate].
  destruct (nth_error (heap s) a) as [m |] eqn:Hm; [| discriminate].
  destruct (String.eqb_spec (role m) "user"); [| discriminate].
  intros [= <- <-]. now repeat split.
Qed.

(** X5: a chat loaded from the history is not a separate copy.  When a
    user message of the loaded conversation is edited, the chat kept in
    the history holds the same message object and shows the edited text
    too. *)
Theorem edit_changes_saved_chat :
  forall (chat_name edited_content : string) (s : Session)
         (chat : list nat) (i address : nat) (msg : Message),
    dict_get chat_name (chat_history s) = Some chat ->
    nth_error chat i = Some address ->
    message_at s address = Some msg ->
    role msg = "user"%string ->
    let s1 := load_chat chat_name s in
    let s2 := save_edit edited_content (start_edit i s1) in
    messages s1 = chat /\
    dict_get chat_name (chat_history s2) = Some chat /\
    messages s2 = chat /\
    message_at s2 address =
      Some {| role := "user"; content := edited_content |} /\
    view (heap s2) (dict_get_default chat_name [] (chat_history s2)) =
      view (heap s2) (messages s2).
Proof.
  intros chat_name edited_content s chat i address msg Hchat Hi Ha Hrole.
  cbv zeta. unfold message_at in Ha.
  assert (Hload : messages (load_chat chat_name s) = chat).
  { unfold load_chat, dict_get_default. cbn [messages]. now rewrite Hchat. }
  assert (Huser : forall sess,
    messages sess = chat -> heap sess = heap s ->
    user_message_at sess i = Some (address, msg)).
  { intros sess H1 H2. unfold user_message_at. rewrite H1, H2, Hi, Ha.
    now rewrite Hrole. }
  unfold start_edit. rewrite (Huser _ Hload eq_refl).
  unfold save_edit. cbn [editing_message_index].
  rewrite Huser; [| exact Hload | reflexivity].
  unfold message_at.
  cbn [load_chat chat_history heap messages] in *.
  split; [exact Hload |].
  split; [exact Hchat |].
  split; [exact Hload |].
  split; [rewrite (set_content_same _ _ _ _ Ha); now rewrite Hrole |].
  unfold dict_get_default. now rewrite Hchat.
Qed.

(** The statement of X5 on the sample session: the saved chat is loaded
    and its first message is edited. *)
Lemma edit_changes_saved_chat_witness :
  view (heap (save_edit "Which skills matter most?"
                (start_edit 0 (load_chat "Career_Chat_10-00-00" sample_session))))
       (dict_get_default "Career_Chat_10-00-00" []
          (chat_history
             (save_edit "Which skills matter most?"
                (start_edit 0 (load_chat "Career_Chat_10-00-00" sample_session)))))
  = [ {| role := "user"; content := "Which skills matter most?" |};
      {| role := "assistant"; content := "Communication." |} ].
Proof.
  destruct (edit_changes_saved_chat "Career_Chat_10-00-00"
              "Which skills matter most?" sample_session [0; 1]%nat 0 0
              {| role := "user"; content := "Which skills matter?" |}
              eq_refl eq_refl eq_refl eq_refl)
    as (_ & _ & _ & _ & Hview).
  etransitivity; [exact Hview | reflexivity].
Defined.

(** X6: saving an edit changes the text of at most one message, a user
    message of the current conversation; the number of messages, their
    roles, the conversations and the chat names stay as they are, and no
    message of another role is changed. *)
Theorem save_edit_changes_one_user_text :
  forall (edited_content : string) (s : Session),
    let s' := save_edit edited_content s in
    List.length (heap s') = List.length (heap s) /\
    map role (heap s') = map role (heap s) /\
    messages s' = messages s /\
    chat_history s' = chat_history s /\
    archived_chats s' = archived_chats s /\
    current_chat_name s' = current_chat_name s /\
    (forall address msg,
       message_at s address = Some msg -> role msg <> "user"%string ->
       message_at s' address = Some msg) /\
    (s' = s \/
     exists i address msg,
       editing_message_index s = Some i /\
       nth_error (messages s) i = Some address /\
       message_at s address = Some msg /\ role msg = "user"%string /\
       message_at s' address =
         Some {| role := "user"; content := edited_content |} /\
       forall other, other <> address ->
         message_at s' other = message_at s other).
Proof.
  intros edited_content s. unfold save_edit.
  destruct (editing_message_index s) as [i |] eqn:Hedit;
    [| cbv zeta; repeat split; auto].
  destruct (user_message_at s i) as [[address msg] |] eqn:Huser;
    [| cbv zeta; repeat split; auto].
  pose proof (user_message_at_spec _ _ _ _ Huser) as (Hi & Ha & Hrole).
  cbv zeta. unfold message_at. cbn [heap messages chat_history archived_chats
                                     current_chat_name].
  split; [apply set_content_length |].
  split; [apply set_content_roles |].
  do 4 (split; [reflexivity |]).
  split.
  - intros a m Hm Hnot.
    destruct (Nat.eq_dec a address) as [-> | Hne].
    + rewrite Ha in Hm. injection Hm as <-. contradiction.
    + now rewrite set_content_other.
  - right. exists i, address, msg.
    split; [reflexivity |]. split; [exact Hi |]. split; [exact Ha |].
    split; [exact Hrole |].
    split; [rewrite (set_content_same _ _ _ _ Ha); now rewrite Hrole |].
    intros other Hother. now apply set_content_other.
Qed.

(** X7: [delete_chat] succeeds exactly when the name is in the collection
    it is asked to delete from; it removes that name from that
    collection only, and leaves the other collection, the other names and
    the current conversation as they were.  The current chat name is
    reset when it is the deleted name, also when the chat deleted is the
    archived one. *)
Theorem delete_chat_effect :
  forall (chat_name : string) (archived : bool) (s : Session),
    let chosen := fun x : Session =>
      if archived then archived_chats x else chat_history x in
    let other := fun x : Session =>
      if archived then chat_history x else archived_chats x in
    let s' := snd (delete_chat chat_name archived s) in
    fst (delete_chat chat_name archived s) = dict_mem chat_name (chosen s) /\
    dict_get chat_name (chosen s') = None /\
    (forall name, name <> chat_name ->
       dict_get name (chosen s') = dict_get name (chosen s)) /\
    other s' = other s /\
    messages s' = messages s /\
    heap s' = heap s /\
    current_chat_name s' =
      (if dict_mem chat_name (chosen s) && is_current s chat_name
       then None else current_chat_name s).
Proof.
  intros chat_name archived s. cbv zeta. unfold delete_chat.
  destruct archived.
  - destruct (dict_mem chat_name (archived_chats s)) eqn:Hmem;
      cbn [fst snd archived_chats chat_history messages heap].
    + repeat split; [apply dict_get_del_same |].
      intros name Hne. now apply dict_get_del_other.
    + apply dict_mem_false in Hmem. now repeat split.
  - destruct (dict_mem chat_name (chat_history s)) eqn:Hmem;
      cbn [fst snd archived_chats chat_history messages heap].
    + repeat split; [apply dict_get_del_same |].
      intros name Hne. now apply dict_get_del_other.
    + apply dict_mem_false in Hmem. now repeat split.
Qed.

(* ------------------------------------------------------------------ *)
(** ** The answer of the chat page *)
(* ------------------------------------------------------------------ *)

Lemma append_empty_r (s : string) : (s ++ "")%string = s.
Proof. induction s as [| c s IH]; simpl; [reflexivity | now rewrite IH]. Qed.

(** Over the lines of a well-formed stream the loop appends the
    fragments to [output] and goes on. *)
Lemma accumulate_lines json_loads lines tail output :
  Forall (stream_line json_loads) lines ->
  accumulate json_loads (map Line lines ++ tail) output =
  accumulate json_loads tail
    (output ++ concat_str (fragments json_loads lines))%string.
Proof.
  intros Hlines. revert output.
  induction Hlines as [| line lines Hline _ IH]; intros output.
  - simpl. now rewrite append_empty_r.
  - unfold stream_line, fragment_of in Hline.
    cbn [map app accumulate fragments flat_map].
    unfold fragment_of at 1. fold (fragments json_loads lines).
    destruct (line =? "") eqn:Hempty; [congruence |].
    destruct (json_loads line) as [data | | msg]; try congruence.
    + destruct data; try congruence.
      destruct (dict_get_default "response" (JString "") members) as
        [| | | | text | |]; try congruence.
      cbn [truthy app].
      change (concat_str (text :: fragments json_loads lines))
        with (text ++ concat_str (fragments json_loads lines))%string.
      destruct (String.eqb_spec text "") as [-> | Hne]; cbn [negb].
      * rewrite IH. reflexivity.
      * rewrite IH. now rewrite append_assoc.
    + simpl. apply IH.
Qed.

(** X8: for a stream of well-formed lines, the answer stored by the chat
    page is the concatenation of the fragments, the connection is closed,
    and the chunks that [get_ollama_response_stream] yields for the same
    stream concatenate to the same text. *)
Theorem chat_answer_is_the_concatenation :
  forall (str_lower : string -> string) (json_loads : string -> loads_result)
         (prompt : string) (lines : list string),
    Forall (stream_line json_loads) lines ->
    chat_output json_loads (Response 200 (map Line lines)) =
      (concat_str (fragments json_loads lines), Released) /\
    (is_career_related_question_with str_lower prompt = true ->
     exists chunks,
       exhaust str_lower json_loads prompt (Response 200 (map Line lines)) =
         (map JString chunks, Completed, ended Released) /\
       concat_str chunks =
         fst (chat_output json_loads (Response 200 (map Line lines)))).
Proof.
  intros str_lower json_loads prompt lines Hlines.
  assert (Hout : chat_output json_loads (Response 200 (map Line lines)) =
                 (concat_str (fragments json_loads lines), Released)).
  { unfold chat_output. change (200 =? 200)%Z with true. cbv iota.
    rewrite <- (app_nil_r (map Line lines)).
    rewrite (accumulate_lines json_loads lines [] "" Hlines). reflexivity. }
  split; [exact Hout |].
  intros on_topic.
  exists (filter nonempty (fragments json_loads lines)). split.
  - rewrite (exhaust_streaming _ _ _ on_topic).
    rewrite <- (app_nil_r (map Line lines)).
    rewrite (stream_of_body_lines json_loads lines [] Hlines).
    simpl. now rewrite app_nil_r.
  - rewrite Hout. apply concat_filter_nonempty.
Qed.

(** The statement of X8 for the two lines of the streaming example. *)
Lemma chat_answer_is_the_concatenation_witness :
  chat_output json_loads_ref (Response 200 (map Line [line_A; line_B])) =
  ("AB"%string, Released).
Proof.
  apply (chat_answer_is_the_concatenation lower json_loads_ref career_prompt
           [line_A; line_B]).
  repeat constructor; vm_compute; discriminate.
Defined.

(** X9: when a read raises in the middle of the stream, the chat page
    drops the text received so far: the answer is the failure message
    alone, and the connection is not closed. *)
Theorem chat_answer_drops_partial_text :
  forall (json_loads : string -> loads_result) (lines : list string)
         (msg : string) (rest : list read_result),
    Forall (stream_line json_loads) lines ->
    chat_output json_loads
      (Response 200 (map Line lines ++ ReadRaises msg :: rest)) =
    (connect_error msg, Acquired).
Proof.
  intros json_loads lines msg rest Hlines. unfold chat_output.
  change (200 =? 200)%Z with true. cbv iota.
  now rewrite (accumulate_lines json_loads lines _ "" Hlines).
Qed.

(** The statement of X9 for a stream that fails after its first line. *)
Lemma chat_answer_drops_partial_text_witness :
  chat_output json_loads_ref
    (Response 200 (map Line [line_A] ++ [ReadRaises "timed out"])) =
  (connect_error "timed out", Acquired).
Proof.
  apply (chat_answer_drops_partial_text json_loads_ref [line_A] "timed out" []).
  repeat constructor; vm_compute; discriminate.
Defined.






(* ------------------------------------------------------------------ *)
(** ** The streaming relay, further *)
(* ------------------------------------------------------------------ *)

(** X11: for a prompt without a keyword the generator yields one chunk,
    the redirect message, and ends; no connection is made, whatever the
    endpoint would have answered, and abandoning the generator leaves no
    connection behind either. *)
Theorem off_topic_prompt_is_redirected :
  forall (str_lower : string -> string) (json_loads : string -> loads_result)
         (prompt : string) (server : endpoint),
    is_career_related_question_with str_lower prompt = false ->
    exhaust str_lower json_loads prompt server =
      ([JString redirect_message], Completed, ended NotAcquired) /\
    forall n,
      conn (snd (abandon_after str_lower json_loads prompt server n))
        = NotAcquired.
Proof.
  intros str_lower json_loads prompt server Hoff.
  split; [now apply exhaust_off_topic |].
  assert (Hr : resume str_lower json_loads prompt server get_ollama_response_stream
               = Yield (JString redirect_message)
                       {| at_point := AtRedirect; conn := NotAcquired |})
    by (unfold resume; simpl; now rewrite Hoff).
  intros [| [| n]]; unfold abandon_after; cbn [take].
  - reflexivity.
  - rewrite Hr. reflexivity.
  - rewrite Hr. reflexivity.
Qed.

(** The statement of X11 for a question about the weather. *)
Lemma off_topic_prompt_is_redirected_witness :
  exhaust lower json_loads_ref "Will it rain on Sunday?"
    (Response 200 [Line line_A]) =
  ([JString redirect_message], Completed, ended NotAcquired).
Proof.
  apply (off_topic_prompt_is_redirected lower json_loads_ref
           "Will it rain on Sunday?" (Response 200 [Line line_A])).
  vm_compute. reflexivity.
Defined.

Lemma read_loop_yields_truthy json_loads body chunk g :
  except_Exception (read_loop json_loads body) = Yield chunk g ->
  truthy chunk = true.
Proof.
  induction body as [| r rest IH]; simpl; [discriminate |].
  destruct r as [line | msg]; [| now intros [= <- _]].
  destruct (line =? ""); [discriminate |].
  destruct (json_loads line) as [data | | msg]; [| exact IH | now intros [= <- _]].
  destruct data; try (now intros [= <- _]).
  destruct (truthy (dict_get_default "response" (JString "") members)) eqn:Ht;
    [| exact IH].
  now intros [= <- _].
Qed.

Lemma resume_yields_truthy str_lower json_loads prompt server g chunk g' :
  resume str_lower json_loads prompt server g = Yield chunk g' ->
  truthy chunk = true.
Proof.
  unfold resume. destruct (at_point g); try discriminate.
  - destruct (negb (is_career_related_question_with str_lower prompt)).
    + now intros [= <- _].
    + destruct server as [msg | status body]; simpl.
      * now intros [= <- _].
      * destruct (status =? 200)%Z; [apply read_loop_yields_truthy |].
        now intros [= <- _].
  - apply read_loop_yields_truthy.
Qed.

(** X12: the generator never yields an empty chunk: every value a
    consumer receives, fragment or message, is true in a boolean
    context. *)
Theorem chunks_are_never_empty :
  forall (str_lower : string -> string) (json_loads : string -> loads_result)
         (prompt : string) (server : endpoint) (n : nat) (g : generator),
    Forall (fun chunk => truthy chunk = true)
           (fst (fst (take str_lower json_loads prompt server n g))).
Proof.
  intros str_lower json_loads prompt server n.
  induction n as [| n IH]; intros g; cbn [take]; [constructor |].
  destruct (resume str_lower json_loads prompt server g) as [c g1 | g1 | m g1] eqn:Hr;
    cbn [consume]; try constructor.
  specialize (IH g1).
  destruct (take str_lower json_loads prompt server n g1) as [[cs e] g2].
  cbn [fst] in *. constructor; [| exact IH].
  eapply resume_yields_truthy; eassumption.
Qed.

(** X13: a line that decodes to a JSON value other than an object ends
    the stream.  The consumer receives the fragments read so far and then
    the "could not connect" message with the text of the
    [AttributeError]; the lines after it are not read, and
    [conn.close()] is not called. *)
Theorem non_object_line_ends_stream :
  forall (str_lower : string -> string) (json_loads : string -> loads_result)
         (prompt : string) (lines : list string) (line : string) (data : json)
         (rest : list read_result),
    is_career_related_question_with str_lower prompt = true ->
    Forall (stream_line json_loads) lines ->
    line <> ""%string ->
    json_loads line = Loaded data ->
    (forall members, data <> JObject members) ->
    exhaust str_lower json_loads prompt
      (Response 200 (map Line lines ++ Line line :: rest)) =
    (map JString (filter nonempty (fragments json_loads lines))
       ++ [JString (connect_error (no_attribute_get data))],
     Completed, ended Acquired).
Proof.
  intros str_lower json_loads prompt lines line data rest on_topic
         Hlines Hline Hload Hdata.
  rewrite (exhaust_streaming _ _ _ on_topic).
  rewrite (stream_of_body_lines json_loads lines _ Hlines).
  cbn [stream_of_body]. apply String.eqb_neq in Hline. rewrite Hline, Hload.
  destruct data; try reflexivity.
  now destruct (Hdata members).
Qed.

(** The statement of X13 for a stream whose second line is a JSON
    array. *)
Lemma non_object_line_ends_stream_witness :
  exhaust lower json_loads_ref career_prompt
    (Response 200 (map Line [line_A] ++ Line "[1, 2]" :: [Line line_B])) =
  ([JString "A";
    JString (connect_error "'list' object has no attribute 'get'")],
   Completed, ended Acquired).
Proof.
  apply (non_object_line_ends_stream lower json_loads_ref career_prompt
           [line_A] "[1, 2]" (JArray [JInt 1; JInt 2]) [Line line_B]).
  - vm_compute. reflexivity.
  - repeat constructor; vm_compute; discriminate.
  - discriminate.
  - vm_compute. reflexivity.
  - discriminate.
Defined.

(* ------------------------------------------------------------------ *)
(** ** The recommendation scorer, further *)
(* ------------------------------------------------------------------ *)

Lemma distinctb_NoDup (l : list string) : distinctb l = true -> NoDup l.
Proof.
  induction l as [| x l IH]; simpl; intros H; [constructor |].
  apply andb_true_iff in H as [Hx Hl]. constructor; [| now apply IH].
  intros Hin. apply str_in_In in Hin. now rewrite Hin in Hx.
Qed.

Lemma dict_get_In {V : Type} (k : string) (v : V) (d : dict V) :
  dict_get k d = Some v -> In (k, v) d.
Proof.
  induction d as [| [k' v'] d IH]; simpl; [discriminate |].
  destruct (String.eqb_spec k' k) as [-> | Hne].
  - intros [= ->]. now left.
  - intros H. right. now apply IH.
Qed.

(** Every entry of the two lookup tables names four different careers. *)
Lemma lookup_tables_four_careers :
  Forall (fun entry => four_careers entry = true)
         (interest_career_map ++ skill_career_map).
Proof. apply Forall_forall, forallb_forall. vm_compute. reflexivity. Qed.

Lemma careers_of_nonempty (table : dict (list string)) (selected : list string) :
  careers_of table selected <> [] ->
  exists key careers,
    In (key, careers) table /\ incl careers (careers_of table selected).
Proof.
  unfold careers_of. induction selected as [| x selected IH]; simpl;
    [congruence |].
  destruct (dict_get_default x [] table) as [| c cs] eqn:Hx.
  - simpl. intros H. destruct (IH H) as (k & careers & Hin & Hincl).
    now exists k, careers.
  - intros _. unfold dict_get_default in Hx.
    destruct (dict_get x table) as [careers |] eqn:Hget; [| discriminate].
    subst careers. exists x, (c :: cs). split; [now apply dict_get_In |].
    apply incl_appl, incl_refl.
Qed.

(** When something was collected, four different careers were. *)
Lemma collected_four (a : AssessmentData) :
  collected a <> [] ->
  exists careers,
    NoDup careers /\ List.length careers = 4%nat /\ incl careers (collected a).
Proof.
  intros Hne.
  assert (Hentry : exists key careers,
    In (key, careers) (interest_career_map ++ skill_career_map) /\
    incl careers (collected a)).
  { unfold collected in *.
    generalize dependent interest_career_map.
    generalize dependent skill_career_map.
    intros table2 table1 Hne.
    destruct (careers_of table1 (get_or (interests a) [])) as [| c cs] eqn:Hi.
    - cbn [app] in *.
      destruct (careers_of_nonempty _ _ Hne) as (k & careers & H1 & H2).
      exists k, careers. split; [apply in_or_app; now right | exact H2].
    - destruct (careers_of_nonempty table1 (get_or (interests a) []))
        as (k & careers & H1 & H2); [rewrite Hi; discriminate |].
      exists k, careers. split; [apply in_or_app; now left |].
      rewrite Hi in H2. now apply incl_appl. }
  destruct Hentry as (key & careers & Hin & Hincl).
  pose proof lookup_tables_four_careers as Hall.
  rewrite Forall_forall in Hall. specialize (Hall _ Hin).
  unfold four_careers in Hall. simpl in Hall.
  apply andb_true_iff in Hall as [Hlen Hdist].
  exists careers. split; [now apply distinctb_NoDup |].
  split; [now apply Nat.eqb_eq | exact Hincl].
Qed.

Lemma recommendations_length order a :
  NoDup order ->
  List.length (generate_career_recommendations order a) =
  Nat.min 5 (List.length (potential_careers order a)).
Proof.
  intros Hnd. unfold generate_career_recommendations, sorted_careers.
  rewrite length_map, length_firstn.
  rewrite <- (Permutation_length (sorted_desc_perm _)).
  now rewrite (career_scores_items _ _ Hnd), length_map.
Qed.

(** X14: whatever is selected, four or five recommendations are
    returned: five when the candidates are more than four, all four
    otherwise. *)
Theorem four_or_five_recommendations :
  forall (order : list string) (a : AssessmentData),
    set_iteration (collected a) order ->
    List.length (generate_career_recommendations order a) =
      Nat.min 5 (List.length (potential_careers order a)) /\
    (4 <= List.length (generate_career_recommendations order a) <= 5)%nat.
Proof.
  intros order a [Hnd Hiff].
  rewrite (recommendations_length _ _ Hnd). split; [reflexivity |].
  assert (Hfour : (4 <= List.length (potential_careers order a))%nat).
  { unfold potential_careers.
    destruct (collected a) as [| c cs] eqn:Hc; [simpl; lia |].
    destruct (collected_four a) as (careers & Hcn & Hlen & Hincl);
      [rewrite Hc; discriminate |].
    rewrite <- Hlen. apply NoDup_incl_length; [exact Hcn |].
    intros x Hx. apply Hiff. rewrite <- Hc. now apply Hincl. }
  lia.
Qed.

(** The statement of X14 for the technology assessment. *)
Lemma four_or_five_recommendations_witness :
  (4 <= List.length
          (generate_career_recommendations technology_order_1 technology_answers)
     <= 5)%nat.
Proof.
  apply (four_or_five_recommendations technology_order_1 technology_answers).
  split.
  - repeat constructor; simpl; intuition discriminate.
  - vm_compute. tauto.
Defined.

Lemma NoDup_firstn {A : Type} (n : nat) (l : list A) :
  NoDup l -> NoDup (firstn n l).
Proof.
  intros H. rewrite <- (firstn_skipn n l) in H.
  now apply NoDup_app_remove_r in H.
Qed.

Lemma sorted_careers_keys order a :
  NoDup order ->
  Permutation (potential_careers order a) (map fst (sorted_careers order a)).
Proof.
  intros Hnd. rewrite <- (career_scores_keys _ _ Hnd).
  unfold keys, sorted_careers. apply Permutation_map, sorted_desc_perm.
Qed.

(** X15: the careers returned are pairwise different, and each of them
    is a candidate: a career collected from the selected interests and
    skills, or a default career when nothing was collected. *)
Theorem recommendations_are_distinct_candidates :
  forall (order : list string) (a : AssessmentData),
    set_iteration (collected a) order ->
    NoDup (map career (generate_career_recommendations order a)) /\
    incl (map career (generate_career_recommendations order a)) (candidates a).
Proof.
  intros order a [Hnd Hiff].
  pose proof (sorted_careers_keys order a Hnd) as Hperm.
  rewrite recommendation_careers, <- firstn_map. split.
  - apply NoDup_firstn.
    eapply Permutation_NoDup; [exact Hperm |].
    now apply potential_careers_NoDup.
  - intros c Hc.
    assert (Hin : In c (potential_careers order a)).
    { eapply Permutation_in; [apply Permutation_sym, Hperm |].
      rewrite <- (firstn_skipn 5 (map fst (sorted_careers order a))).
      apply in_or_app. now left. }
    unfold potential_careers, candidates in *.
    destruct (collected a) as [| c0 cs]; [exact Hin | now apply Hiff].
Qed.

(** The statement of X15 for the technology assessment. *)
Lemma recommendations_are_distinct_candidates_witness :
  NoDup (map career
           (generate_career_recommendations technology_order_2 technology_answers)).
Proof.
  apply (recommendations_are_distinct_candidates technology_order_2
           technology_answers).
  split.
  - repeat constructor; simpl; intuition discriminate.
  - vm_compute. tauto.
Defined.

Lemma StronglySorted_app_inv {A : Type} (R : A -> A -> Prop) (l1 l2 : list A) :
  StronglySorted R (l1 ++ l2) ->
  forall x y, In x l1 -> In y l2 -> R x y.
Proof.
  induction l1 as [| z l1 IH]; simpl; intros Hs x y Hx Hy; [contradiction |].
  inversion Hs as [| ? ? Hs' Hall]; subst.
  destruct Hx as [<- | Hx].
  - rewrite Forall_forall in Hall. apply Hall, in_or_app. now right.
  - now apply IH.
Qed.

(** X16: the selection keeps the best: a candidate that is not returned
    has a score no higher than the match percentage of any returned
    recommendation. *)
Theorem omitted_candidates_score_no_higher :
  forall (order : list string) (a : AssessmentData) (c : string)
         (r : Recommendation),
    NoDup order ->
    In c (potential_careers order a) ->
    ~ In c (map career (generate_career_recommendations order a)) ->
    In r (generate_career_recommendations order a) ->
    (score_career a c <= match_percentage r)%Z.
Proof.
  intros order a c r Hnd Hc Hout Hr.
  pose proof (sorted_desc_sorted (career_scores order a)) as Hsorted.
  fold (sorted_careers order a) in Hsorted.
  rewrite <- (firstn_skipn 5 (sorted_careers order a)) in Hsorted.
  assert (Hentry : In (c, score_career a c) (sorted_careers order a)).
  { eapply Permutation_in; [apply sorted_desc_perm |].
    rewrite (career_scores_items _ _ Hnd).
    apply in_map_iff. now exists c. }
  rewrite <- (firstn_skipn 5 (sorted_careers order a)) in Hentry.
  apply in_app_or in Hentry as [Hfirst | Hrest].
  - exfalso. apply Hout. rewrite recommendation_careers.
    apply in_map_iff. now exists (c, score_career a c).
  - unfold generate_career_recommendations in Hr.
    apply in_map_iff in Hr as (e & <- & He).
    pose proof (StronglySorted_app_inv _ _ _ Hsorted _ _ He Hrest) as Hge.
    unfold ge_score in Hge. simpl in Hge.
    assert (Hscored : scored_by a e).
    { pose proof (sorted_careers_scored order a) as Hall.
      rewrite Forall_forall in Hall. apply Hall.
      rewrite <- (firstn_skipn 5 (sorted_careers order a)).
      apply in_or_app. now left. }
    rewrite match_percentage_of. unfold scored_by in Hscored.
    pose proof (score_career_upper a (fst e)). lia.
Qed.

(** The statement of X16 for the end-to-end example: "Cybersecurity
    Analyst" is left out, and "Software Engineer" is returned. *)
Lemma omitted_candidates_score_no_higher_witness :
  (score_career remote_developer_answers "Cybersecurity Analyst" <=
   match_percentage (recommendation_of ("Software Engineer"%string, 75%Z)))%Z.
Proof.
  apply (omitted_candidates_score_no_higher remote_developer_order
           remote_developer_answers).
  - repeat constructor; simpl; intuition discriminate.
  - vm_compute. tauto.
  - vm_compute. intuition discriminate.
  - left. reflexivity.
Defined.

(** X17: the cap of 95 changes no score.  A returned match percentage is
    the base score plus the four adjustments of its career, and it is one
    of 50, 65, 70, 75, 90 and 95. *)
Theorem match_percentage_is_the_score :
  forall (order : list string) (a : AssessmentData),
    Forall (fun r =>
              match_percentage r =
                (50 + work_style_bonus a (career r)
                    + team_size_bonus a (career r)
                    + career_focus_bonus a (career r)
                    + risk_tolerance_bonus a (career r))%Z /\
              In (match_percentage r) [50; 65; 70; 75; 90; 95]%Z)
           (generate_career_recommendations order a).
Proof.
  intros order a.
  eapply Forall_impl; [| apply recommendations_scored].
  intros r Hr. split; [exact Hr |].
  rewrite Hr. clear Hr. unfold score_career.
  destruct (team_size_bonus_cases a (career r)) as [-> | [-> Ht]].
  - destruct (work_style_bonus_cases a (career r)) as [-> | [-> Hw]];
    destruct (career_focus_bonus_cases a (career r)) as [-> | [-> Hf]];
    destruct (risk_tolerance_bonus_cases a (career r)) as [-> | [-> Hr]];
    cbn [In]; try lia.
    rewrite (work_focus_risk_apart _ Hw Hf) in Hr. discriminate.
  - destruct (team_size_careers_apart _ Ht) as (Hw' & Hf' & Hr').
    destruct (work_style_bonus_cases a (career r)) as [-> | [_ Hw]];
      [| rewrite Hw' in Hw; discriminate].
    destruct (career_focus_bonus_cases a (career r)) as [-> | [_ Hf]];
      [| rewrite Hf' in Hf; discriminate].
    destruct (risk_tolerance_bonus_cases a (career r)) as [-> | [_ Hr]];
      [| rewrite Hr' in Hr; discriminate].
    cbn [In]. lia.
Qed.

(** X18: an assessment without the four preference keys is not scored
    neutrally: the default of [career_focus] is "Work-Life Balance", so
    the three careers of that adjustment score 75 and every other career
    scores 50. *)
Theorem missing_preferences_favour_balance :
  forall (a : AssessmentData) (c : string),
    work_style a = None -> team_size a = None ->
    career_focus a = None -> risk_tolerance a = None ->
    score_career a c =
      (if str_in c ["Technical Writer"; "UX/UI Designer"; "Data Analyst"]
       then 75 else 50)%Z.
Proof.
  intros a c Hw Ht Hf Hr.
  unfold score_career, work_style_bonus, team_size_bonus, career_focus_bonus,
    risk_tolerance_bonus.
  rewrite Hw, Ht, Hf, Hr. cbn [get_or].
  change ("Hybrid" =? "Fully Remote") with false.
  change ("Hybrid" =? "Fully In-Office") with false.
  change ("Medium Team (6-15)" =? "Solo Work") with false.
  change ("Medium Team (6-15)" =? "Large Team (16-50)") with false.
  change ("Work-Life Balance" =? "High Income") with false.
  change ("Work-Life Balance" =? "Work-Life Balance") with true.
  change ("Neutral" =? "Very Risk-Tolerant") with false.
  change ("Neutral" =? "Very Risk-Averse") with false.
  cbn [andb].
  destruct (str_in c ["Technical Writer"; "UX/UI Designer"; "Data Analyst"]);
    reflexivity.
Qed.

(** The statement of X18 for "UX/UI Designer". *)
Lemma missing_preferences_favour_balance_witness :
  score_career (interests_only ["Arts & Design"]) "UX/UI Designer" = 75%Z.
Proof.
  apply (missing_preferences_favour_balance (interests_only ["Arts & Design"])
           "UX/UI Designer"); reflexivity.
Defined.

(* ------------------------------------------------------------------ *)
(** ** The accounts *)
(* ------------------------------------------------------------------ *)

Lemma load_users_twice (file : user_file) :
  load_users (snd (load_users file)) = load_users file.
Proof. now destruct file. Qed.

Lemma registered_user_is_stored hash_password username password file :
  fst (register_user hash_password username password file) = true ->
  exists users,
    snd (register_user hash_password username password file) = UsersFile users /\
    dict_get username users = Some (hash_password password).
Proof.
  unfold register_user.
  destruct (load_users file) as [users file1].
  destruct (dict_mem username users); [discriminate |].
  intros _. eexists. split; [reflexivity |]. apply dict_get_set_same.
Qed.

Lemma authenticate_readable hash_password username password users :
  fst (authenticate_user hash_password username password (UsersFile users)) =
  match dict_get username users with
  | Some stored => stored =? hash_password password
  | None => false
  end.
Proof. reflexivity. Qed.

(** X19: a user who has just been registered is authenticated with the
    same password, and afterwards with another password only if that one
    has the same hash. *)
Theorem register_then_authenticate :
  forall (hash_password : string -> string) (username password : string)
         (file : user_file),
    fst (register_user hash_password username password file) = true ->
    let file' := snd (register_user hash_password username password file) in
    fst (authenticate_user hash_password username password file') = true /\
    forall other,
      fst (authenticate_user hash_password username other file') = true ->
      hash_password other = hash_password password.
Proof.
  intros hash_password username password file Hreg. cbv zeta.
  destruct (registered_user_is_stored _ _ _ _ Hreg) as (users & -> & Hget).
  rewrite !authenticate_readable, Hget. split.
  - apply String.eqb_refl.
  - intros other H. rewrite authenticate_readable, Hget in H.
    apply String.eqb_eq in H. now symmetry.
Qed.

(** The statement of X19 for a new user of the sample accounts. *)
Lemma register_then_authenticate_witness :
  fst (authenticate_user toy_hash "grace" "cobol"
         (snd (register_user toy_hash "grace" "cobol" sample_accounts))) = true.
Proof.
  apply (register_then_authenticate toy_hash "grace" "cobol" sample_accounts).
  reflexivity.
Defined.

(** X20: registering a name that is already in the file is refused, and
    the file is left as it is: the stored hash of that user is not
    replaced. *)
Theorem register_existing_name_refused :
  forall (hash_password : string -> string)
         (username password stored : string) (users : dict string),
    dict_get username users = Some stored ->
    register_user hash_password username password (UsersFile users) =
      (false, UsersFile users).
Proof.
  intros hash_password username password stored users Hstored.
  unfold register_user, dict_mem. simpl. now rewrite Hstored.
Qed.

(** The statement of X20 for the user of the sample accounts. *)
Lemma register_existing_name_refused_witness :
  register_user toy_hash "ada" "another" sample_accounts =
  (false, sample_accounts).
Proof.
  apply (register_existing_name_refused toy_hash "ada" "another"
           (toy_hash "enigma")).
  reflexivity.
Defined.

(** X21: authentication changes no account (it only creates the file
    when it is absent); it succeeds exactly when the file is readable and
    holds, for the name, the hash of the password given; with an absent
    or unreadable file nobody is authenticated. *)
Theorem authenticate_user_spec :
  forall (hash_password : string -> string) (username password : string)
         (file : user_file),
    snd (authenticate_user hash_password username password file) =
      create_user_file file /\
    (fst (authenticate_user hash_password username password file) = true <->
     exists users,
       file = UsersFile users /\
       dict_get username users = Some (hash_password password)).
Proof.
  intros hash_password username password file. unfold authenticate_user.
  destruct file as [| users |]; simpl.
  - split; [reflexivity |]. split; [discriminate | intros (u & H & _); discriminate].
  - split; [reflexivity |]. unfold verify_password.
    destruct (dict_get username users) as [stored |] eqn:Hget.
    + rewrite String.eqb_eq. split.
      * intros ->. now exists users.
      * intros (u & [= <-] & Hu). rewrite Hget in Hu. now injection Hu.
    + split; [discriminate |].
      intros (u & [= <-] & Hu). rewrite Hget in Hu. discriminate.
  - split; [reflexivity |]. split; [discriminate | intros (u & H & _); discriminate].
Qed.

(** X22: a registration that succeeds on a readable file changes the
    outcome of no other user's authentication; on an unreadable file it
    succeeds too, and the new file holds the new user alone. *)
Theorem register_keeps_other_accounts :
  forall (hash_password : string -> string) (username password : string),
    (forall (users : dict string) (other other_password : string),
       fst (register_user hash_password username password (UsersFile users))
         = true ->
       other <> username ->
       fst (authenticate_user hash_password other other_password
              (snd (register_user hash_password username password
                      (UsersFile users)))) =
       fst (authenticate_user hash_password other other_password
              (UsersFile users))) /\
    register_user hash_password username password UnreadableFile =
      (true, UsersFile [(username, hash_password password)]).
Proof.
  intros hash_password username password. split; [| reflexivity].
  intros users other other_password. unfold register_user. simpl.
  destruct (dict_mem username users); [discriminate |].
  intros _ Hne. unfold authenticate_user, save_users. simpl.
  now rewrite dict_get_set_other.
Qed.

(** X23: the sign-up form creates an account only when the two
    passwords are equal, name and password are not empty and the name is
    new; the user can then log in.  In every other case the accounts are
    what they were. *)
Theorem sign_up_spec :
  forall (hash_password : string -> string)
         (new_username new_password confirm_password : string)
         (file : user_file),
    let outcome :=
      fst (sign_up hash_password new_username new_password confirm_password file) in
    let file' :=
      snd (sign_up hash_password new_username new_password confirm_password file) in
    (outcome = AccountCreated <->
     new_password = confirm_password /\
     new_username <> ""%string /\ new_password <> ""%string /\
     dict_mem new_username (fst (load_users file)) = false) /\
    (outcome = AccountCreated ->
     fst (authenticate_user hash_password new_username new_password file')
       = true) /\
    (outcome <> AccountCreated ->
     fst (load_users file') = fst (load_users file)).
Proof.
  intros hash_password new_username new_password confirm_password file.
  cbv zeta. unfold sign_up.
  destruct (String.eqb_spec new_password confirm_password) as [<- | Hpw];
    cbn [negb].
  2: { split; [| split]; try discriminate; [| reflexivity].
       split; [discriminate | intros (H & _); contradiction]. }
  destruct (String.eqb_spec new_username "") as [-> | Hname]; cbn [orb].
  { split; [| split]; try discriminate; [| reflexivity].
    split; [discriminate | intros (_ & H & _); now destruct H]. }
  destruct (String.eqb_spec new_password "") as [-> | Hpass].
  { split; [| split]; try discriminate; [| reflexivity].
    split; [discriminate | intros (_ & _ & H & _); now destruct H]. }
  pose proof (registered_user_is_stored hash_password new_username
                new_password file) as Hreg.
  unfold register_user in *.
  destruct (load_users file) as [users file1] eqn:Hload. cbn [fst].
  destruct (dict_mem new_username users) eqn:Hmem; cbn [fst snd] in *.
  - split; [| split]; try discriminate.
    + split; [discriminate | intros (_ & _ & _ & H); discriminate].
    + intros _. replace file1 with (snd (load_users file)) by now rewrite Hload.
      now rewrite load_users_twice, Hload.
  - split; [| split].
    + split; [intros _; now repeat split | reflexivity].
    + intros _. destruct (Hreg eq_refl) as (stored & -> & Hget).
      rewrite authenticate_readable, Hget. apply String.eqb_refl.
    + intros H. now destruct H.
Qed.

(* ------------------------------------------------------------------ *)
(** ** The list of models *)
(* ------------------------------------------------------------------ *)

Lemma filter_is_model_app (name : string) (l1 l2 : list json) :
  filter (is_model name) (l1 ++ l2) =
  filter (is_model name) l1 ++ filter (is_model name) l2.
Proof. apply filter_app. Qed.

Lemma existsb_filter_length {A : Type} (f : A -> bool) (l : list A) :
  existsb f l = negb (List.length (filter f l) =? 0)%nat.
Proof.
  induction l as [| x l IH]; simpl; [reflexivity |].
  destruct (f x); simpl; [reflexivity | exact IH].
Qed.

Lemma in_is_model (name : string) (names : list json) :
  existsb (is_model name) names = true <-> In (JString name) names.
Proof.
  rewrite existsb_exists. split.
  - intros (v & Hin & Hv). destruct v; try discriminate.
    simpl in Hv. apply String.eqb_eq in Hv. now subst.
  - intros Hin. exists (JString name). split; [exact Hin |].
    simpl. apply String.eqb_refl.
Qed.

(** X24: the default model is always offered.  Any failure gives the
    default model alone: an exception, a status other than 200 (every
    reply for which [test_ollama_connection] answers false), a body that
    does not decode, a body that decodes to a value that is not a
    dictionary, and a dictionary whose [models] is not a well-formed list.
    For a well-formed reply the result is the names listed, in order,
    followed by the default model exactly when it is not among them. *)
Theorem default_model_always_offered :
  forall (reply : tags_reply),
    In (JString DEFAULT_MODEL) (get_ollama_models reply) /\
    (test_ollama_connection reply = false ->
     get_ollama_models reply = [JString DEFAULT_MODEL]) /\
    (forall result names,
       reply = TagsResponse 200 (Loaded (JObject result)) ->
       names_of_models (dict_get_default "models" (JArray []) result)
         = Some names ->
       firstn (List.length names) (get_ollama_models reply) = names /\
       List.length (filter (is_model DEFAULT_MODEL) (get_ollama_models reply)) =
         Nat.max 1 (List.length (filter (is_model DEFAULT_MODEL) names)) /\
       (In (JString DEFAULT_MODEL) names -> get_ollama_models reply = names) /\
       (~ In (JString DEFAULT_MODEL) names ->
        get_ollama_models reply = names ++ [JString DEFAULT_MODEL])) /\
    (forall result,
       reply = TagsResponse 200 (Loaded (JObject result)) ->
       names_of_models (dict_get_default "models" (JArray []) result) = None ->
       get_ollama_models reply = [JString DEFAULT_MODEL]) /\
    (forall status body,
       reply = TagsResponse status body ->
       (forall result, body <> Loaded (JObject result)) ->
       get_ollama_models reply = [JString DEFAULT_MODEL]) /\
    (reply = TagsRaises -> get_ollama_models reply = [JString DEFAULT_MODEL]) /\
    ((forall result names,
        reply = TagsResponse 200 (Loaded (JObject result)) ->
        names_of_models (dict_get_default "models" (JArray []) result)
          <> Some names) ->
     get_ollama_models reply = [JString DEFAULT_MODEL]).
Proof.
  intros reply. split; [| split; [| split; [| split; [| split; [| split]]]]].
  - unfold get_ollama_models.
    destruct reply as [| status body]; [now left |].
    destruct (status =? 200)%Z; [| now left].
    destruct body as [data | |]; try (now left).
    destruct data; try (now left).
    destruct (names_of_models _) as [models |]; [| now left].
    destruct (existsb (is_model DEFAULT_MODEL) models) eqn:Hex.
    + now apply in_is_model.
    + apply in_or_app. right. now left.
  - destruct reply as [| status body]; [reflexivity |]. simpl.
    now intros ->.
  - intros result names -> Hnames. unfold get_ollama_models.
    change (200 =? 200)%Z with true. cbv iota. rewrite Hnames.
    pose proof (existsb_filter_length (is_model DEFAULT_MODEL) names) as Hex.
    pose proof (in_is_model DEFAULT_MODEL names) as Hin.
    destruct (existsb (is_model DEFAULT_MODEL) names).
    + split; [apply firstn_all |]. split; [| split].
      * destruct (List.length (filter (is_model DEFAULT_MODEL) names));
          [discriminate | lia].
      * reflexivity.
      * intros Hn. destruct Hn. now apply Hin.
    + split; [| split; [| split]].
      * rewrite firstn_app, Nat.sub_diag, firstn_all. simpl. apply app_nil_r.
      * rewrite filter_is_model_app, length_app.
        destruct (List.length (filter (is_model DEFAULT_MODEL) names));
          [reflexivity | discriminate].
      * intros H. apply Hin in H. discriminate.
      * reflexivity.
  - intros result -> Hnone. unfold get_ollama_models.
    change (200 =? 200)%Z with true. cbv iota. now rewrite Hnone.
  - intros status body -> Hbody. unfold get_ollama_models.
    destruct (status =? 200)%Z; [| reflexivity].
    destruct body as [data | |]; try reflexivity.
    destruct data; try reflexivity.
    now destruct (Hbody members).
  - now intros ->.
  - intros Hnone. unfold get_ollama_models.
    destruct reply as [| status body]; [reflexivity |].
    destruct (Z.eqb_spec status 200) as [-> | Hs]; [| reflexivity].
    destruct body as [data | |]; try reflexivity.
    destruct data; try reflexivity.
    destruct (names_of_models _) as [names |] eqn:Hnames; [| reflexivity].
    now destruct (Hnone members names).
Qed.

(** The statement of X24 for a reply that lists two models, the default
    one among them, for a body that is not JSON and for a body that is a
    JSON list. *)
Lemma default_model_always_offered_witness :
  get_ollama_models
    (TagsResponse 200
       (json_loads_ref
          (qq "{'models':[{'name':'llama3'},{'name':'nemotron-3-nano:30b-cloud'}]}")))
  = [JString "llama3"; JString DEFAULT_MODEL] /\
  get_ollama_models (TagsResponse 200 (json_loads_ref "<html>Bad Gateway</html>"))
  = [JString DEFAULT_MODEL] /\
  get_ollama_models (TagsResponse 200 (json_loads_ref (qq "[{'name':'llama3'}]")))
  = [JString DEFAULT_MODEL].
Proof.
  split; [| split].
  - destruct (default_model_always_offered
                (TagsResponse 200
                   (Loaded (JObject
                      [("models"%string,
                        JArray [JObject [("name"%string, JString "llama3")];
                                JObject [("name"%string, JString DEFAULT_MODEL)]])]))))
      as (_ & _ & Hlisted & _).
    destruct (Hlisted _ [JString "llama3"; JString DEFAULT_MODEL] eq_refl eq_refl)
      as (_ & _ & Hamong & _).
    apply Hamong. right. now left.
  - destruct (default_model_always_offered
                (TagsResponse 200 (json_loads_ref "<html>Bad Gateway</html>")))
      as (_ & _ & _ & _ & Hbody & _).
    apply (Hbody 200%Z _ eq_refl).
    intros result. vm_compute. discriminate.
  - destruct (default_model_always_offered
                (TagsResponse 200 (json_loads_ref (qq "[{'name':'llama3'}]"))))
      as (_ & _ & _ & _ & Hbody & _).
    apply (Hbody 200%Z _ eq_refl).
    intros result. vm_compute. discriminate.
Defined.

(* ------------------------------------------------------------------ *)
(** ** The resume analysis, from the reply of the endpoint *)
(* ------------------------------------------------------------------ *)

Lemma find_json_text_empty : find_json_text "" = None.
Proof. reflexivity. Qed.

(** X25: [analyze_resume] returns the decoded payload when the body of
    the reply decodes to a dictionary whose [response] is a text in which
    a payload is found and decodes, whatever JSON value the payload
    decodes to; in every other case it returns the fallback record: when
    the request or the reading raises, when the body does not decode to a
    dictionary, when [response] is missing (an error reply) or is not a
    text, when no payload is found and when the payload does not
    decode. *)
Theorem analyze_resume_result :
  forall (json_loads : string -> loads_result) (server : reply),
    (forall data result text payload analysis,
       server = ReplyBody data ->
       json_loads data = Loaded (JObject result) ->
       dict_get "response" result = Some (JString text) ->
       find_json_text text = Some payload ->
       json_loads payload = Loaded analysis ->
       analyze_resume json_loads server = analysis) /\
    ((forall data result text payload analysis,
        server = ReplyBody data ->
        json_loads data = Loaded (JObject result) ->
        dict_get "response" result = Some (JString text) ->
        find_json_text text = Some payload ->
        json_loads payload <> Loaded analysis) ->
     analyze_resume json_loads server = fallback_analysis) /\
    (analyze_resume json_loads server = fallback_analysis \/
     exists data result text payload,
       server = ReplyBody data /\
       json_loads data = Loaded (JObject result) /\
       dict_get "response" result = Some (JString text) /\
       find_json_text text = Some payload /\
       json_loads payload = Loaded (analyze_resume json_loads server)) /\
    (forall data result,
       server = ReplyBody data ->
       json_loads data = Loaded (JObject result) ->
       dict_get "response" result = None ->
       analyze_resume json_loads server = fallback_analysis) /\
    (forall msg, server = ReplyRaises msg ->
       analyze_resume json_loads server = fallback_analysis) /\
    (forall data,
       server = ReplyBody data ->
       (forall result, json_loads data <> Loaded (JObject result)) ->
       analyze_resume json_loads server = fallback_analysis) /\
    (forall data result value,
       server = ReplyBody data ->
       json_loads data = Loaded (JObject result) ->
       dict_get "response" result = Some value ->
       (forall text, value <> JString text) ->
       analyze_resume json_loads server = fallback_analysis).
Proof.
  intros json_loads server.
  split; [| split; [| split; [| split; [| split; [| split]]]]].
  - intros data result text payload analysis -> Hdata Hresp Hfind Hload.
    unfold analyze_resume, dict_get_default, extract_analysis.
    now rewrite Hdata, Hresp, Hfind, Hload.
  - intros Hnone. destruct server as [msg | data]; [reflexivity |].
    unfold analyze_resume.
    destruct (json_loads data) as [value | |] eqn:Hdata; try reflexivity.
    destruct value; try reflexivity.
    unfold dict_get_default.
    destruct (dict_get "response" members) as [response |] eqn:Hresp.
    + destruct response; try reflexivity.
      unfold extract_analysis.
      destruct (find_json_text s) as [payload |] eqn:Hfind; [| reflexivity].
      destruct (json_loads payload) as [analysis | |] eqn:Hpayload;
        try reflexivity.
      now destruct (Hnone data members s payload analysis).
    + unfold extract_analysis. now rewrite find_json_text_empty.
  - destruct server as [msg | data]; [now left |].
    unfold analyze_resume.
    destruct (json_loads data) as [value | |] eqn:Hdata; try (now left).
    destruct value; try (now left).
    unfold dict_get_default.
    destruct (dict_get "response" members) as [response |] eqn:Hresp.
    + destruct response; try (now left).
      unfold extract_analysis.
      destruct (find_json_text s) as [payload |] eqn:Hfind; [| now left].
      destruct (json_loads payload) as [analysis | |] eqn:Hpayload;
        try (now left).
      right. exists data, members, s, payload. repeat split; assumption.
    + now left.
  - intros data result -> Hdata Hnone. unfold analyze_resume, dict_get_default.
    now rewrite Hdata, Hnone.
  - now intros msg ->.
  - intros data -> Hbody. unfold analyze_resume.
    destruct (json_loads data) as [value | |]; try reflexivity.
    destruct value; try reflexivity.
    now destruct (Hbody members).
  - intros data result value -> Hdata Hresp Hvalue.
    unfold analyze_resume, dict_get_default. rewrite Hdata, Hresp.
    destruct value; try reflexivity.
    now destruct (Hvalue s).
Qed.

(** The statement of X25 for an answer of the endpoint whose [response]
    holds a record in a fenced block. *)
Lemma analyze_resume_result_witness :
  analyze_resume json_loads_ref (ReplyBody fenced_body)
  = JObject [("overall_score"%string, JInt 80)].
Proof.
  destruct (analyze_resume_result json_loads_ref (ReplyBody fenced_body))
    as (Hdecoded & _).
  apply (Hdecoded fenced_body
           [("model"%string, JString "m");
            ("response"%string, JString fenced_example);
            ("done"%string, JBool true)]
           fenced_example
           (qq "{'overall_score': 80}")).
  - reflexivity.
  - vm_compute. reflexivity.
  - reflexivity.
  - vm_compute. reflexivity.
  - vm_compute. reflexivity.
Defined.

(* ------------------------------------------------------------------ *)
(** ** The extractor, the prompt and the candidates: edge cases *)
(* ------------------------------------------------------------------ *)

(** X26: when the text has a fenced block whose contents cannot be
    decoded, the scan for braces is not tried: the fallback record is
    returned, whatever stands between braces elsewhere in the text. *)
Theorem undecodable_block_gives_fallback :
  forall (json_loads : string -> loads_result) (text group : string),
    search_json_block text = Some group ->
    (forall analysis, json_loads (strip group) <> Loaded analysis) ->
    extract_analysis json_loads text = fallback_analysis.
Proof.
  intros json_loads text group Hsearch Hfail.
  unfold extract_analysis, find_json_text. rewrite Hsearch.
  destruct (json_loads (strip group)) as [analysis | |] eqn:Hload;
    [now destruct (Hfail analysis) | reflexivity | reflexivity].
Qed.

(** The statement of X26 for a text with an unfinished block and a
    record after it. *)
Lemma undecodable_block_gives_fallback_witness :
  extract_analysis json_loads_ref fenced_garbage_example = fallback_analysis.
Proof.
  apply (undecodable_block_gives_fallback json_loads_ref fenced_garbage_example
           " not ready yet "%string).
  - vm_compute. reflexivity.
  - intros analysis. vm_compute. discriminate.
Defined.

Lemma concat_str_cons (x : string) (l : list string) :
  concat_str (x :: l) = (x ++ concat_str l)%string.
Proof. reflexivity. Qed.

Lemma render_message_other (msg : Message) :
  rendered_role msg = false -> render_message msg = ""%string.
Proof.
  unfold rendered_role, render_message.
  destruct (role msg =? "user"); [discriminate |].
  destruct (role msg =? "assistant"); [discriminate | reflexivity].
Qed.

(** X27: a message whose role is neither "user" nor "assistant" leaves
    no trace in the prompt: the prompt is the one built from the other
    messages. *)
Theorem other_roles_are_left_out :
  forall (preamble : string) (history : list Message) (prompt : string),
    build_full_prompt preamble history prompt =
    build_full_prompt preamble (filter rendered_role history) prompt.
Proof.
  intros preamble history prompt. rewrite !build_full_prompt_unfold.
  assert (H : concat_str (map render_message (filter rendered_role history)) =
              concat_str (map render_message history)).
  { induction history as [| msg history IH]; [reflexivity |].
    cbn [filter map]. rewrite concat_str_cons.
    destruct (rendered_role msg) eqn:Hr.
    - cbn [map]. rewrite concat_str_cons. now rewrite IH.
    - rewrite IH, (render_message_other _ Hr). reflexivity. }
  now rewrite H.
Qed.

Lemma careers_of_known (table : dict (list string)) (selected : list string) :
  careers_of table (filter (fun x => dict_mem x table) selected) =
  careers_of table selected.
Proof.
  unfold careers_of. induction selected as [| x selected IH]; simpl;
    [reflexivity |].
  unfold dict_mem at 1, dict_get_default at 2.
  destruct (dict_get x table) as [careers |] eqn:Hx; simpl.
  - unfold dict_get_default at 1. rewrite Hx. now rewrite IH.
  - exact IH.
Qed.

(** X28: a selected interest or skill that is not a key of the lookup
    tables is ignored: the recommendations are those of the assessment
    without it. *)
Theorem unknown_selections_are_ignored :
  forall (order : list string) (a : AssessmentData),
    collected (known_selections a) = collected a /\
    generate_career_recommendations order (known_selections a) =
    generate_career_recommendations order a.
Proof.
  intros order a.
  assert (Hc : collected (known_selections a) = collected a).
  { unfold collected, known_selections. cbn [interests technical_skills get_or].
    now rewrite !careers_of_known. }
  split; [exact Hc |].
  unfold generate_career_recommendations, sorted_careers, career_scores,
    potential_careers.
  rewrite Hc. reflexivity.
Qed.
